(** * dolomite-engine: batch padding, model wrapper and pretraining driver

    A shallow embedding of
    - [src/dolomite_engine/model_wrapper/base.py]: [_pad], [prepare_batch],
      [generate], [get_model_tflops], the NEFTune forward override;
    - [src/dolomite_engine/pretrain.py]: [track_val_metrics], [train],
      [evaluate] and the checkpoint-resume prologue of [main];
    followed by the properties of the specification that were checked
    against them.

    Conventions.  Python integers are [Z]; a token sequence is a [list Z];
    [len] returns an integer; [xs * n] on lists is empty for [n <= 0];
    exceptions are values of an error monad.  A dense integer tensor is
    the rectangular nested list of 64-bit integers it was built from.
    Python floats are IEEE 754 binary64 numbers, with the operations of
    [SpecFloat]; the noise of the NEFTune override is stated over the
    reals. *)

From Stdlib Require Import ZArith Lia Reals Lra.
From Stdlib Require SpecFloat.
From stdpp Require Import base list strings gmap.

Local Open Scope Z_scope.

(** ** Python primitives used by the sources *)

Module Py.

Inductive exn_class :=
| ValueError | AssertionError | TypeError | RuntimeError
| NotImplementedError | KeyError | IndexError | AttributeError
| ZeroDivisionError | UnboundLocalError | OverflowError.

(** The message is [Some] text when the source itself chooses it and
    [None] when the interpreter or a library words it. *)
Record exn := Exn { exn_cls : exn_class; exn_msg : option string }.

Inductive result (A : Type) :=
| Ok (a : A)
| Raise (e : exn).
Arguments Ok {A} a.
Arguments Raise {A} e.

Definition bind {A B} (m : result A) (k : A -> result B) : result B :=
  match m with
  | Ok a => k a
  | Raise e => Raise e
  end.

#[global] Instance result_bind : MBind result := fun A B k m => bind m k.
#[global] Instance result_ret : MRet result := @Ok.

Definition is_ok {A} (m : result A) : bool :=
  match m with Ok _ => true | Raise _ => false end.

(** [len(xs)] *)
Definition len {A} (xs : list A) : Z := Z.of_nat (length xs).

(** [[v] * n]: no copies at all when [n] is zero or negative. *)
Definition list_mul {A} (v : A) (n : Z) : list A := replicate (Z.to_nat n) v.

(** [max(xs)] on a list of integers: [ValueError] on the empty list. *)
Definition max (xs : list Z) : result Z :=
  match xs with
  | [] => Raise (Exn ValueError None)
  | x :: rest => Ok (foldl Z.max x rest)
  end.

(** [assert cond, msg] *)
Definition assert (cond : bool) (msg : string) : result unit :=
  if cond then Ok tt else Raise (Exn AssertionError (Some msg)).

(** [zip(xs, ys)] where [ys] may be [None] (not iterable). *)
Definition zip {A B} (xs : list A) (ys : option (list B)) : result (list (A * B)) :=
  match ys with
  | Some ys => Ok (base.zip xs ys)
  | None => Raise (Exn TypeError None)
  end.

End Py.

(** ** Python floats *)

Module Float.
Import Py.

(** A Python [float] is an IEEE 754 binary64 number; every operation
    rounds to nearest, ties to even. *)
Definition t : Type := SpecFloat.spec_float.

Definition prec : Z := 53.
Definition emax : Z := 1024.

Definition add : t -> t -> t := SpecFloat.SFadd prec emax.
Definition mul : t -> t -> t := SpecFloat.SFmul prec emax.
Definition div : t -> t -> t := SpecFloat.SFdiv prec emax.

(** An integer as a binary number that is not rounded yet. *)
Definition exact (z : Z) : t :=
  match z with
  | Z0 => SpecFloat.S754_zero false
  | Zpos p => SpecFloat.S754_finite false p 0
  | Zneg p => SpecFloat.S754_finite true p 0
  end.

(** The largest double is [2^1024 - 2^971]; a magnitude from
    [2^1024 - 2^970] on rounds beyond it and cannot become a [float]. *)
Definition overflow_threshold : Z := 2 ^ 1024 - 2 ^ 970.

(** The conversion applied to an [int] operand of float arithmetic:
    correctly rounded, [OverflowError] ("int too large to convert to
    float") from the threshold on. *)
Definition of_int (z : Z) : result t :=
  if Z.abs z <? overflow_threshold
  then Ok (SpecFloat.binary_normalize prec emax z 0 false)
  else Raise (Exn OverflowError None).

(** [k / n] on two [int]s: the correctly rounded quotient;
    [ZeroDivisionError] when [n] is 0, [OverflowError] ("integer division
    result too large for a float") when the quotient reaches the
    threshold. *)
Definition int_truediv (k n : Z) : result t :=
  if n =? 0 then Raise (Exn ZeroDivisionError None)
  else if overflow_threshold * Z.abs n <=? Z.abs k then Raise (Exn OverflowError None)
  else Ok (div (exact k) (exact n)).

(** [x / n] on a [float] and an [int]: [n] is converted, then a zero
    divisor raises [ZeroDivisionError].  An integer other than 0 never
    converts to [0.0], so the test is made on the integer. *)
Definition truediv_int (x : t) (n : Z) : result t :=
  y ← of_int n;
  if n =? 0 then Raise (Exn ZeroDivisionError None) else Ok (div x y).

End Float.

(** ** Enumerations of [dolomite_engine.enums] *)

(** Modelled from the spec: the enum [PaddingSide] (its declaration is not
    part of the sources at hand); the members are the two the code names. *)
Module PaddingSide.
Inductive t := left | right.
End PaddingSide.

(** Modelled from the spec: the enum [LossMask] with its two policies. *)
Module LossMask.
Inductive t := output_only | no_mask.

Definition eqb (a b : t) : bool :=
  match a, b with
  | output_only, output_only | no_mask, no_mask => true
  | _, _ => false
  end.
End LossMask.

(** Modelled from the spec: the enum [Mode] of execution modes. *)
Module Mode.
Inductive t := training | inference | export | distillation.

Definition eqb (a b : t) : bool :=
  match a, b with
  | training, training | inference, inference
  | export, export | distillation, distillation => true
  | _, _ => false
  end.
End Mode.

(** Modelled from the spec: the gradient-checkpointing method; [block]
    (block-wise checkpointing) is the one member the sources name, and the
    attribute is [None] when no method is configured. *)
Module GradientCheckpointingMethod.
Inductive t := block.
End GradientCheckpointingMethod.

(** ** [model_wrapper/base.py] *)

Module Base.
Import Py.

(** What reaches the [loss_mask] parameter: a member of [LossMask], or
    any other Python object ([None] outside training), of which only its
    rendering inside an f-string matters. *)
Inductive loss_mask_value :=
| IsLossMask (m : LossMask.t)
| NotLossMask (shown : string).

(** [loss_mask == LossMask.m] *)
Definition loss_mask_is (v : loss_mask_value) (m : LossMask.t) : bool :=
  match v with
  | IsLossMask m' => LossMask.eqb m' m
  | NotLossMask _ => false
  end.

(** f-string rendering of the value; members render through the enum. *)
Definition loss_mask_str (v : loss_mask_value) : string :=
  match v with
  | IsLossMask LossMask.output_only => "LossMask.output_only"
  | IsLossMask LossMask.no_mask => "LossMask.no_mask"
  | NotLossMask s => s
  end.

(** A component of the triple [_pad] returns. *)
Inductive value :=
| VNone
| VList (rows : list (list Z))
| VTensor (rows : list (list Z)).

Definition rows_of (v : value) : option (list (list Z)) :=
  match v with
  | VNone => None
  | VList rows | VTensor rows => Some rows
  end.

(** All rows as long as the first one. *)
Definition rectangular (rows : list (list Z)) : bool :=
  forallb (fun row => (length row =? length (hd [] rows))%nat) rows.

(** The range of [torch.int64], the element type [torch.tensor] gives to
    a nested list of Python integers. *)
Definition int64 (z : Z) : Prop := - 2 ^ 63 <= z < 2 ^ 63.

Definition fits_int64 (z : Z) : bool := (- 2 ^ 63 <=? z) && (z <? 2 ^ 63).

(** Storing the rows of a tensor of the given width, in order: a row of
    another length raises [ValueError] ("expected sequence of length ..."),
    an entry outside [torch.int64] raises [RuntimeError] ("Overflow when
    unpacking long"). *)
Fixpoint store_rows (width : nat) (rows : list (list Z)) : result unit :=
  match rows with
  | [] => Ok tt
  | row :: rows =>
      if (length row =? width)%nat then
        if forallb fits_int64 row then store_rows width rows
        else Raise (Exn RuntimeError None)
      else Raise (Exn ValueError None)
  end.

(** [torch.tensor(rows)]: the width is that of the first row; the result
    exists only for rectangular nested lists of 64-bit integers. *)
Definition torch_tensor (rows : list (list Z)) : result value :=
  _ ← store_rows (length (hd [] rows)) rows;
  Ok (VTensor rows).

(** [torch.tensor(x)] where [x] may be [None]. *)
Definition torch_tensor_opt (x : option (list (list Z))) : result value :=
  match x with
  | Some rows => torch_tensor rows
  | None => Raise (Exn RuntimeError None)
  end.

Definition value_of_opt (x : option (list (list Z))) : value :=
  match x with
  | Some rows => VList rows
  | None => VNone
  end.

Definition unexpected_loss_mask {A} (loss_mask : loss_mask_value) : result A :=
  Raise (Exn ValueError
           (Some ("unexpected loss_mask (" +:+ loss_mask_str loss_mask +:+ ")"))).

Definition labels_mask_value_default : Z := -100.

(** The body of [_pad] up to, and excluding, the final conversion to
    tensors: the nested lists [input_ids], [attention_mask], [labels]. *)
Definition _pad_lists
    (inputs : list (list Z)) (outputs : option (list (list Z)))
    (pad_token_id : Z) (padding_side : PaddingSide.t)
    (is_encoder_decoder : bool) (loss_mask : loss_mask_value)
    (use_padding_free_transformer : bool) (labels_mask_value : Z)
  : result (list (list Z) * option (list (list Z)) * option (list (list Z))) :=
  if is_encoder_decoder then
    input_max_length ← Py.max (map len inputs);
    let '(input_ids, attention_mask) :=
      match padding_side with
      | PaddingSide.left =>
          (map (fun array => list_mul pad_token_id (input_max_length - len array) ++ array) inputs,
           map (fun array => list_mul 0 (input_max_length - len array) ++ list_mul 1 (len array)) inputs)
      | PaddingSide.right =>
          (map (fun array => array ++ list_mul pad_token_id (input_max_length - len array)) inputs,
           map (fun array => list_mul 1 (len array) ++ list_mul 0 (input_max_length - len array)) inputs)
      end in
    match outputs with
    | Some outputs =>
        _ ← assert (loss_mask_is loss_mask LossMask.output_only)
               "only output_only loss mask is supported with encoder decoder models";
        output_max_length ← Py.max (map len outputs);
        Ok (input_ids, Some attention_mask,
            Some (map (fun array => array ++ list_mul labels_mask_value (output_max_length - len array)) outputs))
    | None => Ok (input_ids, Some attention_mask, None)
    end
  else if use_padding_free_transformer then
    if loss_mask_is loss_mask LossMask.output_only then
      pairs ← Py.zip inputs outputs;
      Ok (inputs, None,
          Some (map (fun '(array_in, array_out) =>
                       list_mul labels_mask_value (len array_in - len array_out) ++ array_out) pairs))
    else if loss_mask_is loss_mask LossMask.no_mask then
      Ok (inputs, None, Some inputs)
    else unexpected_loss_mask loss_mask
  else
    max_length ← Py.max (map len inputs);
    match padding_side with
    | PaddingSide.left =>
        let input_ids := map (fun array => list_mul pad_token_id (max_length - len array) ++ array) inputs in
        let attention_mask := map (fun array => list_mul 0 (max_length - len array) ++ list_mul 1 (len array)) inputs in
        match outputs with
        | Some outputs =>
            if loss_mask_is loss_mask LossMask.output_only then
              Ok (input_ids, Some attention_mask,
                  Some (map (fun array => list_mul labels_mask_value (max_length - len array) ++ array) outputs))
            else if loss_mask_is loss_mask LossMask.no_mask then
              Ok (input_ids, Some attention_mask, Some inputs)
            else unexpected_loss_mask loss_mask
        | None => Ok (input_ids, Some attention_mask, None)
        end
    | PaddingSide.right =>
        let input_ids := map (fun array => array ++ list_mul pad_token_id (max_length - len array)) inputs in
        let attention_mask := map (fun array => list_mul 1 (len array) ++ list_mul 0 (max_length - len array)) inputs in
        match outputs with
        | Some outputs =>
            if loss_mask_is loss_mask LossMask.output_only then
              Ok (input_ids, Some attention_mask,
                  Some (map (fun '(array_in, array_out) =>
                               list_mul labels_mask_value (len array_in - len array_out)
                               ++ array_out
                               ++ list_mul labels_mask_value (max_length - len array_in))
                            (base.zip inputs outputs)))
            else if loss_mask_is loss_mask LossMask.no_mask then
              Ok (input_ids, Some attention_mask, Some inputs)
            else unexpected_loss_mask loss_mask
        | None => Ok (input_ids, Some attention_mask, None)
        end
    end.

(** [_pad]: the lists above, turned into tensors unless the padding-free
    transformer is in use. *)
Definition _pad
    (inputs : list (list Z)) (outputs : option (list (list Z)))
    (pad_token_id : Z) (padding_side : PaddingSide.t)
    (is_encoder_decoder : bool) (loss_mask : loss_mask_value)
    (use_padding_free_transformer : bool) (labels_mask_value : Z)
  : result (value * value * value) :=
  '(input_ids, attention_mask, labels) ←
    _pad_lists inputs outputs pad_token_id padding_side is_encoder_decoder
      loss_mask use_padding_free_transformer labels_mask_value;
  if negb use_padding_free_transformer then
    input_ids ← torch_tensor input_ids;
    attention_mask ← torch_tensor_opt attention_mask;
    match labels with
    | Some labels =>
        labels ← torch_tensor labels;
        Ok (input_ids, attention_mask, labels)
    | None => Ok (input_ids, attention_mask, VNone)
    end
  else Ok (VList input_ids, value_of_opt attention_mask, value_of_opt labels).

#[global] Instance value_eq_dec : EqDecision value.
Proof. solve_decision. Defined.

(** The fields of [self.config] that [get_model_tflops] reads. *)
Record Config := {
  n_embd : Z;
  n_inner : Z;
  n_head : Z;
  num_key_value_heads : Z;
  n_layer : Z;
  vocab_size : Z;
  activation_function : string
}.

(** The attributes of [ModelWrapper] read by the methods below;
    [eos_token_id] is [self.tokenizer.eos_token_id] and [training] the
    flag of [torch.nn.Module]. *)
Record ModelWrapper := {
  mode : Mode.t;
  config : Config;
  gradient_checkpointing_method : option GradientCheckpointingMethod.t;
  gradient_checkpointing_args : gmap string Z;
  use_padding_free_transformer : bool;
  is_encoder_decoder : bool;
  padding_side : PaddingSide.t;
  loss_mask : loss_mask_value;
  eos_token_id : Z;
  training : bool
}.

(** [prepare_batch].  In training mode the batch is the pair
    [(inputs, outputs)]; in every other mode the batch is [inputs] alone
    and [outputs] is not read.  The result is the dict handed to the
    model. *)
Definition prepare_batch (self : ModelWrapper)
    (inputs : list (list Z)) (outputs : option (list (list Z)))
  : result (gmap string value) :=
  outputs ← (if Mode.eqb (mode self) Mode.training then
               _ ← assert (bool_decide (outputs ≠ None)) "outputs can't be None during training";
               Ok outputs
             else Ok None);
  '(input_ids, attention_mask, labels) ←
    _pad inputs outputs (eos_token_id self) (padding_side self)
      (is_encoder_decoder self) (loss_mask self)
      (use_padding_free_transformer self) labels_mask_value_default;
  let result : gmap string value :=
    <["attention_mask" := attention_mask]> (<["input_ids" := input_ids]> ∅) in
  Ok (if Mode.eqb (mode self) Mode.training
      then <["labels" := labels]> result
      else result).

(** [t.to(device)] keeps the contents; [None] has no such method. *)
Definition to_device (batch : gmap string value) : result (gmap string value) :=
  if decide (map_Forall (fun _ v => v ≠ VNone) batch) then Ok batch
  else Raise (Exn AttributeError None).

(** [t.shape[1]] *)
Definition shape1 (v : value) : result Z :=
  match v with
  | VTensor (row :: _) => Ok (len row)
  | VTensor [] => Raise (Exn IndexError None)
  | VList _ | VNone => Raise (Exn AttributeError None)
  end.

(** [generated[:, k:]] *)
Definition drop_columns (k : Z) (generated : list (list Z)) : list (list Z) :=
  map (drop (Z.to_nat k)) generated.

(** [(row != eos).sum()] *)
Definition count_not_eos (eos : Z) (row : list Z) : Z :=
  foldr (fun token acc => (if token =? eos then 0 else 1) + acc) 0 row.

(** [((generated != eos).sum(dim=-1) + 1).tolist()] *)
Definition num_generated_tokens (eos : Z) (generated : list (list Z)) : list Z :=
  map (fun row => count_not_eos eos row + 1) generated.

Section Generate.
(** The collaborators of [generate]: the keyword arguments, the
    HuggingFace [model.generate] (a 2-D tensor of token ids, one row per
    example) and [tokenizer.batch_decode]. *)
Context {GenerateKwargs : Type}.
Variable model_generate : gmap string value -> GenerateKwargs -> Z -> list (list Z).
Variable batch_decode : list (list Z) -> list string.

(** [generate] *)
Definition generate (self : ModelWrapper)
    (inputs : list (list Z)) (outputs : option (list (list Z)))
    (generate_kwargs : GenerateKwargs)
  : result (list string * list Z) :=
  if use_padding_free_transformer self then
    Raise (Exn NotImplementedError
             (Some "padding free transformer doesn't support generation"))
  else
    batch ← prepare_batch self inputs outputs;
    batch ← to_device batch;
    let generated := model_generate batch generate_kwargs (eos_token_id self) in
    generated ← (if negb (is_encoder_decoder self) then
                   match batch !! "input_ids" with
                   | Some input_ids =>
                       width ← shape1 input_ids;
                       Ok (drop_columns width generated)
                   | None => Raise (Exn KeyError (Some "input_ids"))
                   end
                 else Ok generated);
    Ok (batch_decode generated, num_generated_tokens (eos_token_id self) generated).
End Generate.

Section Tflops.
(** [is_glu] lives in [hf_models.modeling_utils].  The integer products
    are exact; every operation that involves a [float] is a binary64
    operation, with the [int] operand converted first. *)
Variable is_glu : string -> bool.

(** The local [mlp_flops] of [get_model_tflops]: integer arithmetic. *)
Definition mlp_flops (self : ModelWrapper) (batch_size sequence_length : Z) : Z :=
  let b := batch_size in
  let s := sequence_length in
  let h := n_embd (config self) in
  let f := n_inner (config self) in
  let mlp_flops := 4 * b * s * h * f in
  if is_glu (activation_function (config self))
  then mlp_flops + 2 * b * s * h * f
  else mlp_flops.

(** The local [attention_flops],
    [4 * b * s * h * (h * (1 + k / n) + s)]. *)
Definition attention_flops (self : ModelWrapper) (batch_size sequence_length : Z)
  : result Float.t :=
  let b := batch_size in
  let s := sequence_length in
  let h := n_embd (config self) in
  let n := n_head (config self) in
  let k := num_key_value_heads (config self) in
  ratio ← Float.int_truediv k n;
  one ← Float.of_int 1;
  h' ← Float.of_int h;
  s' ← Float.of_int s;
  outer ← Float.of_int (4 * b * s * h);
  Ok (Float.mul outer (Float.add (Float.mul h' (Float.add one ratio)) s')).

(** The local [forward_flops], [attention_flops + mlp_flops]. *)
Definition forward_flops (self : ModelWrapper) (batch_size sequence_length : Z)
  : result Float.t :=
  attention ← attention_flops self batch_size sequence_length;
  mlp ← Float.of_int (mlp_flops self batch_size sequence_length);
  Ok (Float.add attention mlp).

(** What [get_model_tflops] makes of the forward term: the backward
    term, the sum over the layers, the output projection and the scaling
    to units of [10^12]. *)
Definition model_tflops (self : ModelWrapper) (batch_size sequence_length : Z)
    (forward_flops : Float.t) : result Float.t :=
  let b := batch_size in
  let s := sequence_length in
  let h := n_embd (config self) in
  let l := n_layer (config self) in
  let v := vocab_size (config self) in
  two ← Float.of_int 2;
  let backward_flops := Float.mul two forward_flops in
  backward_flops ← match gradient_checkpointing_method self with
                   | Some GradientCheckpointingMethod.block =>
                       Float.truediv_int forward_flops
                         (default 1 (gradient_checkpointing_args self !! "checkpoint_every"))
                   | None => Ok backward_flops
                   end;
  l' ← Float.of_int l;
  let model_flops := Float.mul l' (Float.add forward_flops backward_flops) in
  output ← Float.of_int (6 * b * s * h * v);
  let model_flops := Float.add model_flops output in
  Float.truediv_int model_flops (10 ^ 12).

(** [get_model_tflops] *)
Definition get_model_tflops (self : ModelWrapper) (batch_size sequence_length : Z)
  : result Float.t :=
  forward_flops ← forward_flops self batch_size sequence_length;
  model_tflops self batch_size sequence_length forward_flops.
End Tflops.

Section Neft.
(** [_noisy_forward], the replacement installed by
    [_override_embedding_forward_with_neft_forward], over any type of
    tensors: [numel] counts elements, [mag_norm] is
    [neft_alpha / sqrt(numel(x))], [uniform_ x lo hi] stands for one
    draw of [zeros_like(x).uniform_(lo, hi)]. *)
Context {tensor scalar : Type}.
Variable original_forward : list (list Z) -> tensor.
Variable numel : tensor -> Z.
Variable mag_norm : scalar -> Z -> scalar.
Variable neg : scalar -> scalar.
Variable uniform_ : tensor -> scalar -> scalar -> tensor.
Variable add : tensor -> tensor -> tensor.

End Neft.

(** The tensors of [_noisy_forward] with real entries: the embeddings
    looked up for a batch as the list of their vectors, one per token.
    Real arithmetic stands for the floating-point arithmetic of torch. *)
Module RealTensor.

Definition t : Type := list (list R).



(** [x + y] on two tensors of one shape *)
Definition add (x y : t) : t := zip_with (zip_with Rplus) x y.

End RealTensor.

End Base.

(** ** [pretrain.py] *)

Module Pretrain.
Import Py.

(** *** [evaluate] *)

(** What the calling process sees of [ProcessGroupManager]:
    [first_rank_object] is the object the first rank of its
    tensor-parallel group puts on a broadcast. *)
Record ProcessGroup := {
  tensor_parallel_world_size : Z;
  tensor_parallel_rank : Z;
  first_rank_object : option bool
}.

(** [Communication.broadcast_object(obj, src=first rank, group=tp group)]:
    the source gets its own object back, the others the source's. *)
Definition broadcast_object (pg : ProcessGroup) (obj : option bool) : option bool :=
  if tensor_parallel_rank pg =? 0 then obj else first_rank_object pg.

(** Truth value of a [bool] or [None]. *)
Definition truthy (x : option bool) : bool := default false x.

Section Evaluate.
Context {DataLoader : Type}.

(** The effects of [evaluate] on its collaborators, in program order.
    Metric values are not modelled: a tracker is known by the group it
    belongs to. *)
Inductive event :=
| BroadcastObject
| ModelEval
| GetNextBatch (val_dataloader : DataLoader)
| ModelForward (val_dataloader : DataLoader)
| AllReduceMetrics
| TrackValMetrics (global_step : Z) (group_name : option string)
| ModelTrain.

Inductive returned :=
| ReturnNone
| ReturnMetrics (group_name : option string).

(** [val_dataloaders is None or len(val_dataloaders) == 0] *)
Definition none_or_empty (val_dataloaders : option (list DataLoader)) : bool :=
  match val_dataloaders with
  | None => true
  | Some l => len l =? 0
  end.

(** One pass of the body of [for group_name, val_dataloader in zip(...)]. *)
Definition evaluate_group (global_step eval_steps : Z)
    (group : option string * DataLoader) : list event :=
  let '(group_name, val_dataloader) := group in
  mjoin (replicate (Z.to_nat eval_steps)
           [GetNextBatch val_dataloader; ModelForward val_dataloader])
  ++ [AllReduceMetrics; TrackValMetrics global_step group_name].

(** [evaluate]: the trace of effects and the outcome. *)
Definition evaluate (pg : ProcessGroup)
    (val_dataloaders : option (list DataLoader)) (global_step eval_steps : Z)
    (group_names : list (option string))
  : list event * result returned :=
  let tp_world_size := tensor_parallel_world_size pg in
  let '(trace, is_val_dataloader_none) :=
    if 1 <? tp_world_size then
      let is_val_dataloader_none :=
        if tensor_parallel_rank pg =? 0
        then Some (none_or_empty val_dataloaders)
        else None in
      ([BroadcastObject], broadcast_object pg is_val_dataloader_none)
    else ([], Some (none_or_empty val_dataloaders)) in
  if truthy is_val_dataloader_none then (trace, Ok ReturnNone)
  else
    match val_dataloaders with
    | None => (trace ++ [ModelEval], Raise (Exn TypeError None))
    | Some val_dataloaders =>
        let groups := base.zip group_names val_dataloaders in
        let trace := trace ++ [ModelEval]
                     ++ mjoin (map (evaluate_group global_step eval_steps) groups)
                     ++ [ModelTrain] in
        match last groups with
        | Some (group_name, _) => (trace, Ok (ReturnMetrics group_name))
        | None => (trace, Raise (Exn UnboundLocalError None))
        end
    end.

(** The ranks of one tensor-parallel group run [evaluate] together:
    rank [i] holds [nth i] of the list, and the first rank's decision
    is what the broadcast delivers. *)
Definition evaluate_tensor_parallel_group
    (ranks : list (option (list DataLoader))) (global_step eval_steps : Z)
    (group_names : list (option string))
  : list (list event * result returned) :=
  imap (fun i val_dataloaders =>
          evaluate {| tensor_parallel_world_size := len ranks;
                      tensor_parallel_rank := Z.of_nat i;
                      first_rank_object := none_or_empty <$> head ranks |}
            val_dataloaders global_step eval_steps group_names)
       ranks.
End Evaluate.

(** *** Checkpoint resume in [main] *)

(** [args.load_args], as far as [main] reads it. *)
Record LoadArgs := { load_dataloader_state : bool }.

Section Main.
Context {ExperimentsTrackerState : Type}.

(** What [main] holds after loading, and what it passes on:
    [consumed_samples] is the third argument of
    [get_megatron_gpt_dataloaders], [starting_iteration] the last
    argument of [train]. *)
Record Resume := {
  starting_iteration : Z;
  metadata : option (gmap string Z);
  experiments_tracker_state_dict : option ExperimentsTrackerState;
  consumed_samples : Z
}.

(** [metadata["consumed_samples"]] *)
Definition getitem (metadata : gmap string Z) (key : string) : result Z :=
  match metadata !! key with
  | Some v => Ok v
  | None => Raise (Exn KeyError (Some key))
  end.

(** Lines 361-375 of [main]; [loaded] is what
    [load_checkpoint_for_training] returns. *)
Definition main_resume (load_args : option LoadArgs)
    (loaded : Z * option (gmap string Z) * option ExperimentsTrackerState)
  : result Resume :=
  let '(starting_iteration, metadata, experiments_tracker_state_dict) :=
    match load_args with
    | Some load_args =>
        let '(starting_iteration, metadata, state) := loaded in
        let metadata :=
          match metadata with
          | Some m => if negb (load_dataloader_state load_args)
                      then Some (<["consumed_samples" := 0]> m)
                      else Some m
          | None => None
          end in
        (starting_iteration, metadata, state)
    | None => (0, None, None)
    end in
  consumed_samples ← match metadata with
                     | None => Ok 0
                     | Some m => getitem m "consumed_samples"
                     end;
  Ok {| starting_iteration := starting_iteration;
        metadata := metadata;
        experiments_tracker_state_dict := experiments_tracker_state_dict;
        consumed_samples := consumed_samples |}.

(** The values [global_step] takes in the loop of [train]:
    [global_step = starting_iteration], then incremented while below
    [num_training_steps]. *)
Definition train_global_steps (starting_iteration num_training_steps : Z) : list Z :=
  seqZ (starting_iteration + 1) (num_training_steps - starting_iteration).
End Main.

(** *** [track_val_metrics] *)

Section TrackValMetrics.
Context {Value : Type}.

(** [track_val_metrics]: the arguments of the call
    [experiments_tracker.track(message, step=global_step, context=context)]
    it ends with.  [metrics_tracker] is read as a dict from metric name to
    value; the line written through [log_rank_0] formats floats and is
    left out. *)
Definition track_val_metrics (global_step : Z) (metrics_tracker : gmap string Value)
    (group_name : option string) : gmap string Value * Z * string :=
  let context := "val" in
  let message :=
    match group_name with
    | None => metrics_tracker
    | Some group_name =>
        map_fold (fun key value (message : gmap string Value) =>
                    <[group_name +:+ "-" +:+ key := value]> message)
          ∅ metrics_tracker
    end in
  (message, global_step, context).
End TrackValMetrics.

(** *** [train] *)

(** [a % b] on integers. *)
Definition modulo (a b : Z) : result Z :=
  if b =? 0 then Raise (Exn ZeroDivisionError None) else Ok (a mod b).

(** What [train] reads of its [args]: [training_parameters], then
    [save_args.save_interval], [logging_args.log_interval] and the
    ["eval_steps"] entry of [datasets[0].class_args]. *)
Record TrainArgs := {
  num_training_steps : Z;
  gradient_accumulation_steps : Z;
  micro_batch_size : Z;
  eval_during_training : bool;
  eval_interval : Z;
  save_interval : Z;
  log_interval : Z;
  eval_steps : Z
}.

Section Train.
Context {DataLoader : Type}.

(** The effects of [train] on its collaborators, in program order; the
    effects of a nested [evaluate] are wrapped in [InEvaluate].  Losses,
    timings and throughput figures are not modelled. *)
Inductive train_event :=
| TrainMode
| InEvaluate (e : @event DataLoader)
| ProfilerEnter
| ProfilerStep
| ProfilerExit
| TrainStep (global_step : Z)
| TrackMetrics (global_step : Z)
| SaveCheckpoint (global_step : Z) (metadata : gmap string Z).

(** A computation of [train]: the effects so far and the outcome. *)
Definition traced (A : Type) : Type := (list train_event * result A)%type.

Definition emit (events : list train_event) : traced unit := (events, Ok tt).

Definition traced_bind {A B} (m : traced A) (k : A -> traced B) : traced B :=
  match m with
  | (events, Ok a) => let '(events', r) := k a in (events ++ events', r)
  | (events, Raise e) => (events, Raise e)
  end.

(** A call of [evaluate] from [train]; the returned tracker is dropped. *)
Definition call_evaluate (pg : ProcessGroup) (dataloaders : option (list DataLoader))
    (global_step eval_steps : Z) (group_names : list (option string)) : traced unit :=
  let '(events, r) := evaluate pg dataloaders global_step eval_steps group_names in
  (map InEvaluate events, match r with Ok _ => Ok tt | Raise e => Raise e end).

(** One pass of the body of [while global_step < num_training_steps],
    [global_step] being the value after the increment. *)
Definition train_iteration (args : TrainArgs) (torch_profiler : bool)
    (pg : ProcessGroup) (val_dataloaders : option (list DataLoader))
    (dp_world_size : Z) (group_names : list (option string)) (global_step : Z)
  : traced unit :=
  traced_bind (emit (TrainStep global_step :: if torch_profiler then [ProfilerStep] else []))
  (fun _ =>
  traced_bind (([], modulo global_step (log_interval args)) : traced Z)
  (fun r =>
  traced_bind (emit (if r =? 0 then [TrackMetrics global_step] else []))
  (fun _ =>
  traced_bind
    (if eval_during_training args then
       traced_bind (([], modulo global_step (eval_interval args)) : traced Z)
         (fun r =>
            if (r =? 0) || (global_step =? num_training_steps args)
            then call_evaluate pg val_dataloaders global_step (eval_steps args) group_names
            else emit [])
     else emit [])
  (fun _ =>
  traced_bind (([], modulo global_step (save_interval args)) : traced Z)
  (fun r =>
     if (r =? 0) || (global_step =? num_training_steps args)
     then emit [SaveCheckpoint global_step
                  {[ "consumed_samples" :=
                       global_step * micro_batch_size args
                       * gradient_accumulation_steps args * dp_world_size ]}]
     else emit []))))).

(** The loop, over the values [global_step] takes; returns the last one. *)
Fixpoint train_loop (iteration : Z -> traced unit) (global_step : Z) (steps : list Z)
  : traced Z :=
  match steps with
  | [] => ([], Ok global_step)
  | step :: steps =>
      traced_bind (iteration step) (fun _ => train_loop iteration step steps)
  end.

(** [train].  [group_names] is the local of that name; [torch_profiler]
    tells whether [get_torch_profiler] gave a profiler; [pg_val] and
    [pg_test] are the process-group views at the evaluations of the
    validation and of the test dataloaders.  The collaborators
    ([train_step], [track_metrics], [save_checkpoint], the batch-size and
    flops set-up before the loop) are taken to return. *)
Definition train (args : TrainArgs) (torch_profiler : bool)
    (pg_val pg_test : ProcessGroup)
    (val_dataloaders test_dataloaders : option (list DataLoader))
    (dp_world_size : Z) (group_names : list (option string)) (starting_iteration : Z)
  : traced unit :=
  traced_bind (emit [TrainMode])
  (fun _ =>
  traced_bind
    (if eval_during_training args
     then call_evaluate pg_val val_dataloaders starting_iteration (eval_steps args) group_names
     else emit [])
  (fun _ =>
  traced_bind (emit (if torch_profiler then [ProfilerEnter] else []))
  (fun _ =>
  traced_bind
    (train_loop (train_iteration args torch_profiler pg_val val_dataloaders
                   dp_world_size group_names)
       starting_iteration
       (seqZ (starting_iteration + 1) (num_training_steps args - starting_iteration)))
  (fun global_step =>
  traced_bind
    (if eval_during_training args
     then call_evaluate pg_test test_dataloaders global_step (eval_steps args) group_names
     else emit [])
  (fun _ => emit (if torch_profiler then [ProfilerExit] else [])))))).
End Train.

End Pretrain.

(** * Properties *)

Import Base.

#[local] Arguments Float.of_int : simpl never.
#[local] Arguments Float.int_truediv : simpl never.
#[local] Arguments Float.truediv_int : simpl never.
#[local] Arguments Float.add : simpl never.
#[local] Arguments Float.mul : simpl never.
#[local] Arguments Float.div : simpl never.
#[local] Arguments Float.exact : simpl never.
#[local] Arguments Float.overflow_threshold : simpl never.
#[local] Arguments SpecFloat.binary_normalize : simpl never.

(** ** Python primitives *)

Lemma length_list_mul {A} (v : A) (n : Z) :
  length (Py.list_mul v n) = Z.to_nat n.
Proof. unfold Py.list_mul. apply length_replicate. Qed.

Lemma len_list_mul {A} (v : A) (n : Z) : Py.len (Py.list_mul v n) = Z.max 0 n.
Proof. unfold Py.len. rewrite length_list_mul. lia. Qed.

Lemma len_app {A} (xs ys : list A) : Py.len (xs ++ ys) = Py.len xs + Py.len ys.
Proof. unfold Py.len. rewrite length_app. lia. Qed.

Lemma lookup_list_mul {A} (v : A) (n : Z) (j : nat) :
  Z.of_nat j < n -> Py.list_mul v n !! j = Some v.
Proof. intros Hj. unfold Py.list_mul. apply lookup_replicate_2. lia. Qed.

Lemma foldl_max_ge (xs : list Z) (x : Z) : x <= foldl Z.max x xs.
Proof.
  revert x. induction xs as [|y xs IH]; intros x; simpl; [lia|].
  specialize (IH (Z.max x y)). lia.
Qed.

Lemma foldl_max_upper (xs : list Z) (x y : Z) :
  y ∈ xs -> y <= foldl Z.max x xs.
Proof.
  revert x. induction xs as [|z xs IH]; intros x Hy; simpl.
  - by apply elem_of_nil in Hy.
  - apply elem_of_cons in Hy as [->|Hy].
    + pose proof (foldl_max_ge xs (Z.max x z)). lia.
    + by apply IH.
Qed.

Lemma foldl_max_elem (xs : list Z) (x : Z) : foldl Z.max x xs ∈ x :: xs.
Proof.
  revert x. induction xs as [|z xs IH]; intros x; simpl; [by left|].
  specialize (IH (Z.max x z)).
  apply elem_of_cons in IH as [Heq|Hin].
  - rewrite Heq. destruct (Z.max_spec x z) as [[_ ->]|[_ ->]]; [right; left | left]; done.
  - right; right; done.
Qed.

Lemma max_upper (xs : list Z) (m y : Z) : Py.max xs = Py.Ok m -> y ∈ xs -> y <= m.
Proof.
  destruct xs as [|x xs]; simpl; [done|]. intros [= <-] Hy.
  apply elem_of_cons in Hy as [->|Hy]; [apply foldl_max_ge | by apply foldl_max_upper].
Qed.

Lemma max_elem (xs : list Z) (m : Z) : Py.max xs = Py.Ok m -> m ∈ xs.
Proof.
  destruct xs as [|x xs]; simpl; [done|]. intros [= <-]. apply foldl_max_elem.
Qed.

Lemma max_nonempty (xs : list Z) : xs ≠ [] -> exists m, Py.max xs = Py.Ok m.
Proof. destruct xs; [done|]. simpl. eauto. Qed.

Lemma max_len_upper {A} (rows : list (list A)) (m : Z) (row : list A) :
  Py.max (map Py.len rows) = Py.Ok m -> row ∈ rows -> Py.len row <= m.
Proof.
  intros Hm Hrow. apply (max_upper _ _ _ Hm). apply list_elem_of_fmap. eauto.
Qed.

Lemma rectangular_uniform (rows : list (list Z)) (n : nat) :
  Forall (fun row => length row = n) rows -> rectangular rows = true.
Proof.
  intros Hall. unfold rectangular. apply forallb_forall. intros row Hin.
  apply Nat.eqb_eq. destruct rows as [|r0 rows]; [by destruct Hin|]. simpl.
  rewrite Forall_forall in Hall.
  rewrite (Hall row), (Hall r0); [done|by left|by apply list_elem_of_In].
Qed.

Lemma rectangular_inv (rows : list (list Z)) :
  rectangular rows = true ->
  Forall (fun row => length row = length (hd [] rows)) rows.
Proof.
  unfold rectangular. intros H. rewrite forallb_forall in H.
  apply Forall_forall. intros row Hin. apply Nat.eqb_eq, H. by apply list_elem_of_In.
Qed.


Lemma lookup_zip_Some {A B} (xs : list A) (ys : list B) (i : nat) (a : A) (b : B) :
  base.zip xs ys !! i = Some (a, b) <-> xs !! i = Some a /\ ys !! i = Some b.
Proof.
  split.
  - intros (x & y & [= -> ->] & Hx & Hy)%lookup_zip_with_Some. done.
  - intros [Hx Hy]. apply lookup_zip_with_Some. eauto.
Qed.

(** Shape of a label row built by the right-padding [output_only] branch. *)
Lemma right_label_row (v : Z) (array_in array_out : list Z) (m : Z) :
  let row := Py.list_mul v (Py.len array_in - Py.len array_out)
             ++ array_out ++ Py.list_mul v (m - Py.len array_in) in
  Py.len array_out <= Py.len array_in -> Py.len array_in <= m ->
  Py.len row = m /\
  (forall j : nat, Z.of_nat j < Py.len array_in - Py.len array_out -> row !! j = Some v) /\
  (forall j : nat, Py.len array_in <= Z.of_nat j < m -> row !! j = Some v) /\
  (forall j : nat, (j < length array_out)%nat ->
     row !! (length array_in - length array_out + j)%nat = array_out !! j).
Proof.
  intros row Hout Hin. subst row. unfold Py.len in *. repeat split.
  - rewrite !length_app, !length_list_mul. lia.
  - intros j Hj. rewrite lookup_app_l; [|rewrite length_list_mul; lia].
    apply lookup_list_mul. done.
  - intros j Hj. rewrite lookup_app_r; rewrite length_list_mul; [|lia].
    rewrite lookup_app_r; [|lia]. apply lookup_list_mul. lia.
  - intros j Hj. rewrite lookup_app_r; rewrite length_list_mul; [|lia].
    rewrite lookup_app_l; [|lia]. f_equal. lia.
Qed.

(** *** [torch.tensor] *)

Lemma fits_int64_spec (z : Z) : fits_int64 z = true <-> int64 z.
Proof. unfold fits_int64, int64. rewrite andb_true_iff, Z.leb_le, Z.ltb_lt. done. Qed.

Lemma forallb_fits_int64 (row : list Z) : forallb fits_int64 row = true <-> Forall int64 row.
Proof.
  induction row as [|z row IH]; simpl.
  - split; [constructor|done].
  - rewrite andb_true_iff, Forall_cons, fits_int64_spec, IH. done.
Qed.

Lemma int64_rows (rows : list (list Z)) :
  forallb (forallb fits_int64) rows = true <-> Forall (Forall int64) rows.
Proof.
  induction rows as [|row rows IH]; simpl.
  - split; [constructor|done].
  - rewrite andb_true_iff, Forall_cons, forallb_fits_int64, IH. done.
Qed.

Lemma store_rows_Ok (width : nat) (rows : list (list Z)) :
  store_rows width rows = Py.Ok tt
  <-> Forall (fun row => length row = width) rows /\ Forall (Forall int64) rows.
Proof.
  induction rows as [|row rows IH]; simpl.
  - split; [by split; constructor|done].
  - rewrite !Forall_cons. destruct (Nat.eqb_spec (length row) width) as [Hw|Hw].
    + destruct (forallb fits_int64 row) eqn:Hfits.
      * apply forallb_fits_int64 in Hfits. rewrite IH. tauto.
      * split; [done|]. intros [_ [Hrow _]]. apply forallb_fits_int64 in Hrow. congruence.
    + split; [done|]. intros [[? _] _]. done.
Qed.

Lemma torch_tensor_iff (rows : list (list Z)) (v : value) :
  torch_tensor rows = Py.Ok v
  <-> v = VTensor rows /\ rectangular rows = true /\ Forall (Forall int64) rows.
Proof.
  unfold torch_tensor. destruct (store_rows _ rows) as [[]|e] eqn:Hstore; simpl.
  - apply store_rows_Ok in Hstore as [Hlen Hfits]. split.
    + intros [= <-]. split; [done|]. split; [|done]. by eapply rectangular_uniform.
    + by intros [-> _].
  - split; [done|]. intros (_ & Hrect & Hfits). apply rectangular_inv in Hrect.
    assert (store_rows (length (hd [] rows)) rows = Py.Ok tt) as Hok
      by (by apply store_rows_Ok).
    congruence.
Qed.

Lemma torch_tensor_Ok (rows : list (list Z)) (v : value) :
  torch_tensor rows = Py.Ok v -> v = VTensor rows /\ rectangular rows = true.
Proof. intros (-> & Hrect & _)%torch_tensor_iff. done. Qed.

Lemma torch_tensor_int64 (rows : list (list Z)) (v : value) :
  torch_tensor rows = Py.Ok v -> Forall (Forall int64) rows.
Proof. by intros (_ & _ & Hfits)%torch_tensor_iff. Qed.

Lemma torch_tensor_uniform (rows : list (list Z)) (n : nat) :
  Forall (fun row => length row = n) rows -> Forall (Forall int64) rows ->
  torch_tensor rows = Py.Ok (VTensor rows).
Proof.
  intros Hlen Hfits. apply torch_tensor_iff.
  split; [done|]. split; [by apply (rectangular_uniform rows n)|done].
Qed.

Lemma int64_list_mul (v : Z) (n : Z) : int64 v -> Forall int64 (Py.list_mul v n).
Proof. intros Hv. unfold Py.list_mul. by apply Forall_replicate. Qed.

Lemma int64_0 : int64 0.
Proof. unfold int64. lia. Qed.

Lemma int64_1 : int64 1.
Proof. unfold int64. lia. Qed.

Lemma right_padded_uniform (pad : Z) (inputs : list (list Z)) (m : Z) :
  Py.max (map Py.len inputs) = Py.Ok m ->
  Forall (fun row => length row = Z.to_nat m)
    (map (fun array => array ++ Py.list_mul pad (m - Py.len array)) inputs).
Proof.
  intros Hm. apply Forall_fmap, Forall_forall. intros a Ha. simpl.
  pose proof (max_len_upper _ _ _ Hm Ha) as Hle. unfold Py.len in *.
  rewrite length_app, length_list_mul. lia.
Qed.

Lemma right_mask_uniform (inputs : list (list Z)) (m : Z) :
  Py.max (map Py.len inputs) = Py.Ok m ->
  Forall (fun row => length row = Z.to_nat m)
    (map (fun array => Py.list_mul 1 (Py.len array) ++ Py.list_mul 0 (m - Py.len array)) inputs).
Proof.
  intros Hm. apply Forall_fmap, Forall_forall. intros a Ha. simpl.
  pose proof (max_len_upper _ _ _ Hm Ha) as Hle. unfold Py.len in *.
  rewrite length_app, !length_list_mul. lia.
Qed.


(** ** [_pad] *)

(** *** Padded rows *)

Local Abbreviation padded_ids side pad m inputs :=
  (match side with
   | PaddingSide.left => map (fun array => Py.list_mul pad (m - Py.len array) ++ array) inputs
   | PaddingSide.right => map (fun array => array ++ Py.list_mul pad (m - Py.len array)) inputs
   end).

Local Abbreviation padded_mask side m inputs :=
  (match side with
   | PaddingSide.left =>
       map (fun array => Py.list_mul 0 (m - Py.len array) ++ Py.list_mul 1 (Py.len array)) inputs
   | PaddingSide.right =>
       map (fun array => Py.list_mul 1 (Py.len array) ++ Py.list_mul 0 (m - Py.len array)) inputs
   end).

Lemma left_padded_uniform (pad : Z) (inputs : list (list Z)) (m : Z) :
  Py.max (map Py.len inputs) = Py.Ok m ->
  Forall (fun row => length row = Z.to_nat m)
    (map (fun array => Py.list_mul pad (m - Py.len array) ++ array) inputs).
Proof.
  intros Hm. apply Forall_fmap, Forall_forall. intros a Ha. simpl.
  pose proof (max_len_upper _ _ _ Hm Ha) as Hle. unfold Py.len in *.
  rewrite length_app, length_list_mul. lia.
Qed.

Lemma left_mask_uniform (inputs : list (list Z)) (m : Z) :
  Py.max (map Py.len inputs) = Py.Ok m ->
  Forall (fun row => length row = Z.to_nat m)
    (map (fun array => Py.list_mul 0 (m - Py.len array) ++ Py.list_mul 1 (Py.len array)) inputs).
Proof.
  intros Hm. apply Forall_fmap, Forall_forall. intros a Ha. simpl.
  pose proof (max_len_upper _ _ _ Hm Ha) as Hle. unfold Py.len in *.
  rewrite length_app, !length_list_mul. lia.
Qed.

Lemma padded_ids_uniform (side : PaddingSide.t) (pad : Z) (inputs : list (list Z)) (m : Z) :
  Py.max (map Py.len inputs) = Py.Ok m ->
  Forall (fun row => length row = Z.to_nat m) (padded_ids side pad m inputs).
Proof.
  intros Hm. destruct side; [by apply left_padded_uniform|by apply right_padded_uniform].
Qed.

Lemma padded_mask_uniform (side : PaddingSide.t) (inputs : list (list Z)) (m : Z) :
  Py.max (map Py.len inputs) = Py.Ok m ->
  Forall (fun row => length row = Z.to_nat m) (padded_mask side m inputs).
Proof.
  intros Hm. destruct side; [by apply left_mask_uniform|by apply right_mask_uniform].
Qed.

Lemma rectangular_max (rows : list (list Z)) (m : Z) :
  rectangular rows = true -> Py.max (map Py.len rows) = Py.Ok m ->
  Forall (fun row => Py.len row = m) rows.
Proof.
  intros Hrect Hm. apply rectangular_inv in Hrect.
  apply max_elem, list_elem_of_fmap in Hm as (r & -> & Hr).
  rewrite Forall_forall in Hrect. apply Forall_forall. intros row Hrow.
  unfold Py.len. by rewrite (Hrect row Hrow), (Hrect r Hr).
Qed.

Lemma list_mul_nil {A} (v : A) (n : Z) : n <= 0 -> Py.list_mul v n = [].
Proof. intros Hn. unfold Py.list_mul. by replace (Z.to_nat n) with 0%nat by lia. Qed.

Lemma map_id_on {A} (f : A -> A) (xs : list A) :
  Forall (fun x => f x = x) xs -> map f xs = xs.
Proof. induction 1; simpl; congruence. Qed.

Lemma padded_mask_int64 (side : PaddingSide.t) (m : Z) (inputs : list (list Z)) :
  Forall (Forall int64) (padded_mask side m inputs).
Proof.
  destruct side; apply Forall_fmap, Forall_forall; intros a _; simpl;
    apply Forall_app; split; apply int64_list_mul; first [apply int64_0 | apply int64_1].
Qed.

Lemma padded_ids_int64 (side : PaddingSide.t) (pad m : Z) (inputs : list (list Z)) :
  Forall (Forall int64) inputs -> int64 pad ->
  Forall (Forall int64) (padded_ids side pad m inputs).
Proof.
  intros Hin Hpad. destruct side; apply Forall_fmap; (eapply Forall_impl; [exact Hin|]);
    intros a Ha; simpl; apply Forall_app; split; first [done | by apply int64_list_mul].
Qed.

(** A batch whose rows already have the target length is left as it is. *)
Lemma padded_ids_same (side : PaddingSide.t) (pad m : Z) (inputs : list (list Z)) :
  Forall (fun array => Py.len array = m) inputs ->
  padded_ids side pad m inputs = inputs.
Proof.
  intros Hall. destruct side; apply map_id_on; (eapply Forall_impl; [exact Hall|]);
    simpl; intros a ->; rewrite list_mul_nil by lia; [done|apply app_nil_r].
Qed.

Lemma uniform_max (rows : list (list Z)) (n : nat) (m : Z) :
  Forall (fun row => length row = n) rows -> Py.max (map Py.len rows) = Py.Ok m ->
  Forall (fun row => Py.len row = m) rows.
Proof. intros Hn Hm. apply rectangular_max; [|done]. by apply (rectangular_uniform _ n). Qed.

(** The padded rows fit [torch.int64] exactly when the rows given do and
    the pad value does too or is not needed. *)
Lemma padded_ids_int64_iff (side : PaddingSide.t) (pad m : Z) (inputs : list (list Z)) :
  Py.max (map Py.len inputs) = Py.Ok m ->
  Forall (Forall int64) (padded_ids side pad m inputs)
  <-> Forall (Forall int64) inputs /\
      (int64 pad \/ exists n : nat, Forall (fun array => length array = n) inputs).
Proof.
  intros Hm. split.
  - intros Hfits.
    assert (Hrows : forall a, a ∈ inputs ->
               Forall int64 a /\ (Py.len a < m -> int64 pad)).
    { intros a Ha. rewrite Forall_forall in Hfits.
      assert (Forall int64 a /\ Forall int64 (Py.list_mul pad (m - Py.len a))) as [H1 H2].
      { destruct side.
        - assert (Py.list_mul pad (m - Py.len a) ++ a
                  ∈ map (fun array => Py.list_mul pad (m - Py.len array) ++ array) inputs) as Hrow
            by (apply list_elem_of_fmap; eauto).
          apply Hfits, Forall_app in Hrow. tauto.
        - assert (a ++ Py.list_mul pad (m - Py.len a)
                  ∈ map (fun array => array ++ Py.list_mul pad (m - Py.len array)) inputs) as Hrow
            by (apply list_elem_of_fmap; eauto).
          apply Hfits, Forall_app in Hrow. tauto. }
      split; [done|]. intros Hlt. rewrite Forall_forall in H2. apply H2.
      apply list_elem_of_lookup. exists 0%nat. apply lookup_list_mul. lia. }
    split; [apply Forall_forall; intros a Ha; by apply Hrows|].
    destruct (fits_int64 pad) eqn:Hpad; [left; by apply fits_int64_spec|].
    right. exists (Z.to_nat m). apply Forall_forall. intros a Ha.
    pose proof (max_len_upper _ _ _ Hm Ha) as Hle.
    destruct (Z.eq_dec (Py.len a) m) as [<-|Hne]; [unfold Py.len; lia|].
    assert (int64 pad) as Hp by (apply (Hrows a Ha); lia).
    apply fits_int64_spec in Hp. congruence.
  - intros [Hin [Hpad|[n Hn]]].
    + by apply padded_ids_int64.
    + rewrite padded_ids_same; [done|]. by apply (uniform_max _ n).
Qed.

(** *** From the lists to the tensors *)

(** On every path but the padding-free decoder-only one, the first two
    lists are the padded inputs and their mask. *)
Lemma pad_lists_inputs_and_mask
    (inputs : list (list Z)) (outputs : option (list (list Z))) (pad_token_id : Z)
    (padding_side : PaddingSide.t) (is_encoder_decoder : bool)
    (loss_mask : loss_mask_value) (packed : bool) (labels_mask_value : Z)
    input_ids attention_mask labels :
  is_encoder_decoder = true \/ packed = false ->
  _pad_lists inputs outputs pad_token_id padding_side is_encoder_decoder loss_mask
    packed labels_mask_value
  = Py.Ok (input_ids, attention_mask, labels) ->
  exists m,
    Py.max (map Py.len inputs) = Py.Ok m /\
    input_ids = padded_ids padding_side pad_token_id m inputs /\
    attention_mask = Some (padded_mask padding_side m inputs).
Proof.
  intros Hpath. unfold _pad_lists.
  destruct is_encoder_decoder.
  - destruct (Py.max (map Py.len inputs)) as [m|] eqn:Hm; [|done]. simpl.
    destruct padding_side, outputs as [outs|]; simpl;
      try (destruct (loss_mask_is loss_mask LossMask.output_only); [|done]; simpl;
           destruct (Py.max (map Py.len outs)); [|done]; simpl);
      intros [= <- <- <-]; eauto.
  - destruct Hpath as [Hp| ->]; [done|].
    destruct (Py.max (map Py.len inputs)) as [m|] eqn:Hm; [|done]. simpl.
    destruct padding_side, outputs as [outs|]; simpl;
      try (destruct (loss_mask_is loss_mask LossMask.output_only);
           [|destruct (loss_mask_is loss_mask LossMask.no_mask); [|done]]);
      intros [= <- <- <-]; eauto.
Qed.

(** A call that is not padding-free returns exactly when the lists are
    built and the padded inputs and the labels can be stored as 64-bit
    tensors; the padded inputs and the mask are always rectangular. *)
Lemma pad_Ok_iff
    (inputs : list (list Z)) (outputs : option (list (list Z))) (pad_token_id : Z)
    (padding_side : PaddingSide.t) (is_encoder_decoder : bool)
    (loss_mask : loss_mask_value) (labels_mask_value : Z) (r : value * value * value) :
  _pad inputs outputs pad_token_id padding_side is_encoder_decoder loss_mask
    false labels_mask_value = Py.Ok r
  <-> exists m labels,
      Py.max (map Py.len inputs) = Py.Ok m /\
      _pad_lists inputs outputs pad_token_id padding_side is_encoder_decoder loss_mask
        false labels_mask_value
      = Py.Ok (padded_ids padding_side pad_token_id m inputs,
               Some (padded_mask padding_side m inputs), labels) /\
      Forall (Forall int64) (padded_ids padding_side pad_token_id m inputs) /\
      match labels with
      | Some rows => rectangular rows = true /\ Forall (Forall int64) rows
      | None => True
      end /\
      r = (VTensor (padded_ids padding_side pad_token_id m inputs),
           VTensor (padded_mask padding_side m inputs),
           match labels with Some rows => VTensor rows | None => VNone end).
Proof.
  unfold _pad.
  destruct (_pad_lists _ _ _ _ _ _ _ _) as [[[ids mask] lbls]|e] eqn:Hl; simpl.
  2:{ split; [done|]. by intros (m & labels & _ & ? & _). }
  pose proof Hl as Hl'.
  apply pad_lists_inputs_and_mask in Hl' as (m & Hm & -> & ->); [|by right].
  simpl. split.
  - intros H. exists m, lbls. split; [done|]. split; [done|].
    destruct (torch_tensor (padded_ids padding_side pad_token_id m inputs)) as [t|] eqn:Ht;
      [|done].
    apply torch_tensor_iff in Ht as (-> & _ & Hfits). simpl in H.
    destruct (torch_tensor (padded_mask padding_side m inputs)) as [t|] eqn:Ht; [|done].
    apply torch_tensor_iff in Ht as (-> & _ & _). simpl in H.
    split; [done|]. destruct lbls as [rows|].
    + destruct (torch_tensor rows) as [t|] eqn:Ht; [|done].
      apply torch_tensor_iff in Ht as (-> & Hrect & Hrows). simpl in H.
      injection H as <-. done.
    + injection H as <-. done.
  - intros (m' & labels & Hm' & [= <- <- <-] & Hfits & Hlabels & ->).
    assert (m' = m) as -> by congruence.
    rewrite (torch_tensor_uniform _ _ (padded_ids_uniform _ _ _ _ Hm) Hfits). simpl.
    rewrite (torch_tensor_uniform _ _ (padded_mask_uniform _ _ _ Hm)
               (padded_mask_int64 _ _ _)). simpl.
    destruct lbls as [rows|]; [|done].
    destruct Hlabels as [Hrect Hrows].
    assert (torch_tensor rows = Py.Ok (VTensor rows)) as -> by (by apply torch_tensor_iff).
    done.
Qed.

(** What a padded call returns as [input_ids] and [attention_mask]. *)
Lemma pad_inputs_and_mask
    (inputs : list (list Z)) (outputs : option (list (list Z))) (pad_token_id : Z)
    (padding_side : PaddingSide.t) (is_encoder_decoder : bool)
    (loss_mask : loss_mask_value) (labels_mask_value : Z)
    input_ids attention_mask labels :
  _pad inputs outputs pad_token_id padding_side is_encoder_decoder loss_mask
    false labels_mask_value
  = Py.Ok (input_ids, attention_mask, labels) ->
  exists m,
    Py.max (map Py.len inputs) = Py.Ok m /\
    input_ids = VTensor (padded_ids padding_side pad_token_id m inputs) /\
    attention_mask = VTensor (padded_mask padding_side m inputs).
Proof.
  intros (m & lbls & Hm & _ & _ & _ & [= -> -> ->])%pad_Ok_iff. eauto.
Qed.

(** *** Labels *)

(** C1, as amended.  Decoder-only, not packed, right padding, [output_only]:
    on a batch that is not empty, whose outputs are no longer than their
    inputs and whose token ids, pad token and mask value fit a signed
    64-bit integer, [_pad] returns, and row [i] of [labels] has length
    [max_length], holds the mask value on [[0, len(input_i) - len(output_i))]
    and on [[len(input_i), max_length)], and holds [output_i] in between.
    The mask value is the parameter [labels_mask_value], [-100] by
    default. *)
Theorem pad_right_output_only_labels
    (inputs outputs : list (list Z)) (pad_token_id labels_mask_value : Z) :
  inputs ≠ [] ->
  (forall (i : nat) array_in array_out,
      inputs !! i = Some array_in -> outputs !! i = Some array_out ->
      Py.len array_out <= Py.len array_in) ->
  Forall (Forall int64) inputs -> Forall (Forall int64) outputs ->
  int64 pad_token_id -> int64 labels_mask_value ->
  exists input_ids attention_mask labels max_length,
    Py.max (map Py.len inputs) = Py.Ok max_length /\
    _pad inputs (Some outputs) pad_token_id PaddingSide.right false
      (IsLossMask LossMask.output_only) false labels_mask_value
    = Py.Ok (input_ids, attention_mask, VTensor labels) /\
    forall (i : nat) array_in array_out,
      inputs !! i = Some array_in -> outputs !! i = Some array_out ->
      exists row,
        labels !! i = Some row /\
        Py.len row = max_length /\
        (forall j : nat, Z.of_nat j < Py.len array_in - Py.len array_out ->
           row !! j = Some labels_mask_value) /\
        (forall j : nat, Py.len array_in <= Z.of_nat j < max_length ->
           row !! j = Some labels_mask_value) /\
        (forall j : nat, (j < length array_out)%nat ->
           row !! (length array_in - length array_out + j)%nat = array_out !! j).
Proof.
  intros Hne Hsuffix Hin64 Hout64 Hpad64 Hmask64.
  destruct (max_nonempty (map Py.len inputs)) as [m Hm].
  { by destruct inputs. }
  set (label_row := fun '((array_in, array_out) : list Z * list Z) =>
         Py.list_mul labels_mask_value (Py.len array_in - Py.len array_out)
         ++ array_out ++ Py.list_mul labels_mask_value (m - Py.len array_in) : list Z).
  assert (Hrows : forall (i : nat) array_in array_out,
             inputs !! i = Some array_in -> outputs !! i = Some array_out ->
             Py.len array_out <= Py.len array_in /\ Py.len array_in <= m).
  { intros i a b Ha Hb. split; [by eapply Hsuffix|].
    apply (max_len_upper _ _ _ Hm). by eapply list_elem_of_lookup_2. }
  eexists _, _, (map label_row (base.zip inputs outputs)), m.
  split; [done|]. split.
  - apply pad_Ok_iff. exists m, (Some (map label_row (base.zip inputs outputs))).
    split; [done|]. split; [by unfold _pad_lists; simpl; rewrite Hm|].
    split; [by apply (padded_ids_int64 PaddingSide.right)|]. split; [|done]. split.
    + apply (rectangular_uniform _ (Z.to_nat m)).
      apply Forall_fmap, Forall_lookup. intros i [a b] Hab. simpl.
      apply lookup_zip_Some in Hab as [Ha Hb].
      destruct (Hrows _ _ _ Ha Hb) as [H1 H2].
      destruct (right_label_row labels_mask_value a b m H1 H2) as [Hlen _].
      unfold label_row. unfold Py.len in Hlen at 1. lia.
    + apply Forall_fmap, Forall_lookup. intros i [a b] Hab. simpl.
      apply lookup_zip_Some in Hab as [_ Hb].
      repeat (apply Forall_app; split); try by apply int64_list_mul.
      rewrite Forall_forall in Hout64. apply Hout64. by eapply list_elem_of_lookup_2.
  - intros i a b Ha Hb. destruct (Hrows _ _ _ Ha Hb) as [H1 H2].
    exists (label_row (a, b)). split.
    + rewrite list_lookup_fmap. by rewrite (proj2 (lookup_zip_Some _ _ _ _ _) (conj Ha Hb)).
    + by apply right_label_row.
Qed.



(** C2.  Decoder-only, padding-free: with [output_only] each label row is
    [len(input_i) - len(output_i)] copies of the mask value (list
    repetition, so none when the difference is negative) followed by
    [output_i]; the literal batch of the specification gives
    [[-100, -100, -100, 4, 5]]; with [no_mask] the labels are the inputs;
    any value that is no member of [LossMask] raises [ValueError] with the
    value rendered in the message. *)
Theorem pad_packed_labels
    (inputs : list (list Z)) (pad_token_id : Z) (padding_side : PaddingSide.t)
    (labels_mask_value : Z) :
  (forall outputs : list (list Z),
      exists labels,
        _pad inputs (Some outputs) pad_token_id padding_side false
          (IsLossMask LossMask.output_only) true labels_mask_value
        = Py.Ok (VList inputs, VNone, VList labels) /\
        length labels = Nat.min (length inputs) (length outputs) /\
        forall (i : nat) array_in array_out,
          inputs !! i = Some array_in -> outputs !! i = Some array_out ->
          labels !! i
          = Some (Py.list_mul labels_mask_value (Py.len array_in - Py.len array_out)
                  ++ array_out)) /\
  _pad [[1; 2; 3; 4; 5]] (Some [[4; 5]]) pad_token_id padding_side false
    (IsLossMask LossMask.output_only) true (-100)
  = Py.Ok (VList [[1; 2; 3; 4; 5]], VNone, VList [[-100; -100; -100; 4; 5]]) /\
  (forall outputs : option (list (list Z)),
      _pad inputs outputs pad_token_id padding_side false
        (IsLossMask LossMask.no_mask) true labels_mask_value
      = Py.Ok (VList inputs, VNone, VList inputs)) /\
  (forall (outputs : option (list (list Z))) (shown : string),
      _pad inputs outputs pad_token_id padding_side false
        (NotLossMask shown) true labels_mask_value
      = Py.Raise (Py.Exn Py.ValueError
                    (Some ("unexpected loss_mask (" +:+ shown +:+ ")")))).
Proof.
  repeat split.
  - intros outputs. eexists. split; [reflexivity|]. split.
    + rewrite length_fmap, length_zip_with. done.
    + intros i a b Ha Hb. rewrite list_lookup_fmap.
      by rewrite (proj2 (lookup_zip_Some _ _ _ _ _) (conj Ha Hb)).
Qed.

Lemma sum_list_mul_one (n : Z) : foldr Z.add 0 (Py.list_mul 1 n) = Z.max 0 n.
Proof.
  unfold Py.list_mul. induction (Z.to_nat n) as [|k IH] eqn:E in n |- *; simpl.
  - lia.
  - rewrite (IH (n - 1)); lia.
Qed.

Lemma sum_list_mul_zero (n : Z) : foldr Z.add 0 (Py.list_mul 0 n) = 0.
Proof. unfold Py.list_mul. induction (Z.to_nat n) as [|k IH]; simpl; lia. Qed.

Lemma sum_app (xs ys : list Z) :
  foldr Z.add 0 (xs ++ ys) = foldr Z.add 0 xs + foldr Z.add 0 ys.
Proof. induction xs as [|x xs IH]; simpl; lia. Qed.

(** Both attention-mask rows of the padded paths sum to the length. *)
Lemma mask_row_sum_left (array : list Z) (m : Z) :
  foldr Z.add 0 (Py.list_mul 0 (m - Py.len array) ++ Py.list_mul 1 (Py.len array))
  = Py.len array.
Proof. rewrite sum_app, sum_list_mul_zero, sum_list_mul_one. unfold Py.len. lia. Qed.

Lemma mask_row_sum_right (array : list Z) (m : Z) :
  foldr Z.add 0 (Py.list_mul 1 (Py.len array) ++ Py.list_mul 0 (m - Py.len array))
  = Py.len array.
Proof. rewrite sum_app, sum_list_mul_zero, sum_list_mul_one. unfold Py.len. lia. Qed.


(** The lists built on the encoder-decoder path. *)
Lemma pad_lists_encoder_decoder
    (inputs : list (list Z)) (outputs : option (list (list Z))) (pad_token_id : Z)
    (padding_side : PaddingSide.t) (loss_mask : loss_mask_value) (packed : bool)
    (labels_mask_value : Z) input_ids attention_mask labels :
  _pad_lists inputs outputs pad_token_id padding_side true loss_mask packed labels_mask_value
  = Py.Ok (input_ids, attention_mask, labels) ->
  exists m rows,
    Py.max (map Py.len inputs) = Py.Ok m /\
    attention_mask = Some rows /\
    Forall (fun row => length row = Z.to_nat m) input_ids /\
    Forall (fun row => length row = Z.to_nat m) rows /\
    Forall2 (fun row array => foldr Z.add 0 row = Py.len array) rows inputs /\
    match outputs with
    | None => labels = None
    | Some outputs =>
        loss_mask_is loss_mask LossMask.output_only = true /\
        exists m_out,
          Py.max (map Py.len outputs) = Py.Ok m_out /\
          labels = Some (map (fun array => array ++ Py.list_mul labels_mask_value (m_out - Py.len array))
                           outputs)
    end.
Proof.
  unfold _pad_lists. destruct (Py.max (map Py.len inputs)) as [m|e] eqn:Hm; [|done].
  simpl. intros H. exists m.
  assert (Hlabels : forall ids mask,
             match outputs with
             | Some outputs =>
                 _ ← Py.assert (loss_mask_is loss_mask LossMask.output_only)
                       "only output_only loss mask is supported with encoder decoder models";
                 output_max_length ← Py.max (map Py.len outputs);
                 Py.Ok (ids, Some mask,
                        Some (map (fun array => array ++ Py.list_mul labels_mask_value
                                                            (output_max_length - Py.len array))
                                outputs))
             | None => Py.Ok (ids, Some mask, None)
             end = Py.Ok (input_ids, attention_mask, labels) ->
             input_ids = ids /\ attention_mask = Some mask /\
             match outputs with
             | None => labels = None
             | Some outputs =>
                 loss_mask_is loss_mask LossMask.output_only = true /\
                 exists m_out,
                   Py.max (map Py.len outputs) = Py.Ok m_out /\
                   labels = Some (map (fun array => array ++ Py.list_mul labels_mask_value
                                                             (m_out - Py.len array)) outputs)
             end).
  { intros ids mask. destruct outputs as [outs|].
    - destruct (loss_mask_is loss_mask LossMask.output_only); [|done]. simpl.
      destruct (Py.max (map Py.len outs)) as [mo|] eqn:Hmo; [|done]. simpl.
      intros [= <- <- <-]. eauto 10.
    - by intros [= <- <- <-]. }
  destruct padding_side; apply Hlabels in H as (-> & -> & Hl); eexists;
    (split; [done|]); (split; [done|]).
  - split; [by apply left_padded_uniform|]. split; [by apply left_mask_uniform|].
    split; [|done]. apply Forall2_fmap_l, Forall_Forall2_diag, Forall_forall.
    intros a _. apply mask_row_sum_left.
  - split; [by apply right_padded_uniform|]. split; [by apply right_mask_uniform|].
    split; [|done]. apply Forall2_fmap_l, Forall_Forall2_diag, Forall_forall.
    intros a _. apply mask_row_sum_right.
Qed.


Lemma is_ok_iff {A} (x : Py.result A) : Py.is_ok x = true <-> exists r, x = Py.Ok r.
Proof. destruct x; simpl; split; try done; [eauto | by intros [? ?]]. Qed.

Lemma rows_of_value_of_opt (x : option (list (list Z))) : rows_of (value_of_opt x) = x.
Proof. by destruct x. Qed.

(** Each component [_pad] returns holds the rows of the list built for
    it, and is [None] where no list was built. *)
Lemma pad_rows_of
    (inputs : list (list Z)) (outputs : option (list (list Z))) (pad_token_id : Z)
    (padding_side : PaddingSide.t) (is_encoder_decoder : bool)
    (loss_mask : loss_mask_value) (packed : bool) (labels_mask_value : Z)
    (input_ids attention_mask labels : value) :
  _pad inputs outputs pad_token_id padding_side is_encoder_decoder loss_mask
    packed labels_mask_value
  = Py.Ok (input_ids, attention_mask, labels) ->
  exists ids mask lbls,
    _pad_lists inputs outputs pad_token_id padding_side is_encoder_decoder loss_mask
      packed labels_mask_value
    = Py.Ok (ids, mask, lbls) /\
    rows_of input_ids = Some ids /\ rows_of attention_mask = mask /\
    rows_of labels = lbls.
Proof.
  unfold _pad.
  destruct (_pad_lists _ _ _ _ _ _ _ _) as [[[ids mask] lbls]|e]; [|done]. simpl.
  intros H. exists ids, mask, lbls. split; [done|]. destruct packed; simpl in H.
  - injection H as <- <- <-. by rewrite !rows_of_value_of_opt.
  - destruct (torch_tensor ids) as [t|] eqn:Ht; [|done].
    apply torch_tensor_Ok in Ht as [-> _]. simpl in H.
    destruct mask as [mask|]; [|done]. simpl in H.
    destruct (torch_tensor mask) as [t|] eqn:Ht; [|done].
    apply torch_tensor_Ok in Ht as [-> _]. simpl in H.
    destruct lbls as [rows|].
    + destruct (torch_tensor rows) as [t|] eqn:Ht; [|done].
      apply torch_tensor_Ok in Ht as [-> _]. simpl in H. by injection H as <- <- <-.
    + by injection H as <- <- <-.
Qed.

(** The encoder-decoder path, once the longest input is known. *)
Lemma pad_lists_encoder_decoder_eq
    (inputs : list (list Z)) (outputs : option (list (list Z))) (pad_token_id : Z)
    (padding_side : PaddingSide.t) (loss_mask : loss_mask_value) (packed : bool)
    (labels_mask_value : Z) (m : Z) :
  Py.max (map Py.len inputs) = Py.Ok m ->
  _pad_lists inputs outputs pad_token_id padding_side true loss_mask packed labels_mask_value
  = match outputs with
    | Some outputs =>
        _ ← Py.assert (loss_mask_is loss_mask LossMask.output_only)
              "only output_only loss mask is supported with encoder decoder models";
        output_max_length ← Py.max (map Py.len outputs);
        Py.Ok (padded_ids padding_side pad_token_id m inputs,
               Some (padded_mask padding_side m inputs),
               Some (padded_ids PaddingSide.right labels_mask_value output_max_length outputs))
    | None => Py.Ok (padded_ids padding_side pad_token_id m inputs,
                     Some (padded_mask padding_side m inputs), None)
    end.
Proof. intros Hm. unfold _pad_lists. rewrite Hm. simpl. by destruct padding_side. Qed.

(** When the lists of the encoder-decoder path are built. *)
Lemma pad_lists_encoder_decoder_ok
    (inputs : list (list Z)) (outputs : option (list (list Z))) (pad_token_id : Z)
    (padding_side : PaddingSide.t) (loss_mask : loss_mask_value) (packed : bool)
    (labels_mask_value : Z) :
  Py.is_ok (_pad_lists inputs outputs pad_token_id padding_side true loss_mask packed
              labels_mask_value) = true
  <-> inputs ≠ [] /\
      match outputs with
      | None => True
      | Some outputs => outputs ≠ [] /\ loss_mask_is loss_mask LossMask.output_only = true
      end.
Proof.
  split.
  - intros [[[ids mask] labels] Hl]%is_ok_iff.
    apply pad_lists_encoder_decoder in Hl as (m & rows & Hm & _ & _ & _ & _ & Hlabels).
    split; [by destruct inputs|].
    destruct outputs as [outs|]; [|done].
    destruct Hlabels as (Hlm & mo & Hmo & _). split; [by destruct outs|done].
  - intros [Hin Hout].
    destruct (max_nonempty (map Py.len inputs)) as [m Hm]; [by destruct inputs|].
    rewrite (pad_lists_encoder_decoder_eq _ _ _ _ _ _ _ _ Hm).
    destruct outputs as [outs|]; [|done]. destruct Hout as [Hne ->]. simpl.
    destruct (max_nonempty (map Py.len outs)) as [mo ->]; [by destruct outs|]. done.
Qed.

(** When the encoder-decoder path returns: the lists are built and, unless
    the call is padding-free, the padded inputs and the padded labels fit
    64-bit tensors. *)
Lemma pad_encoder_decoder_returns
    (inputs : list (list Z)) (outputs : option (list (list Z))) (pad_token_id : Z)
    (padding_side : PaddingSide.t) (loss_mask : loss_mask_value)
    (use_padding_free_transformer : bool) (labels_mask_value : Z) :
  Py.is_ok (_pad inputs outputs pad_token_id padding_side true loss_mask
              use_padding_free_transformer labels_mask_value) = true
  <-> inputs ≠ [] /\
      match outputs with
      | None => True
      | Some outputs =>
          outputs ≠ [] /\ loss_mask_is loss_mask LossMask.output_only = true
      end /\
      (use_padding_free_transformer = false ->
       Forall (Forall int64) inputs /\
       (int64 pad_token_id \/
        exists n : nat, Forall (fun array => length array = n) inputs) /\
       match outputs with
       | None => True
       | Some outputs =>
           Forall (Forall int64) outputs /\
           (int64 labels_mask_value \/
            exists n : nat, Forall (fun array => length array = n) outputs)
       end).
Proof.
  destruct use_padding_free_transformer.
  - (* padding-free: the lists are returned as they are *)
    pose proof (pad_lists_encoder_decoder_ok inputs outputs pad_token_id padding_side
                  loss_mask true labels_mask_value) as Hlists.
    unfold _pad.
    destruct (_pad_lists _ _ _ _ _ _ _ _) as [[[ids mask] labels]|e]; simpl in *.
    + split; [|done]. intros _. destruct (proj1 Hlists eq_refl) as [Hne Hout].
      split; [done|]. split; [done|]. by intros [=].
    + split; [done|]. intros (Hne & Hout & _). by apply Hlists.
  - split.
    + intros [r Hr]%is_ok_iff.
      apply pad_Ok_iff in Hr as (m & labels & Hm & Hl & Hfits & Hlabels & _).
      apply (padded_ids_int64_iff _ _ _ _ Hm) in Hfits as [Hin Hpad].
      assert (Hlists : Py.is_ok (_pad_lists inputs outputs pad_token_id padding_side true
                                   loss_mask false labels_mask_value) = true)
        by (by rewrite Hl).
      apply pad_lists_encoder_decoder_ok in Hlists as [Hne Hout].
      split; [done|]. split; [done|]. intros _. split; [done|]. split; [done|].
      destruct outputs as [outs|]; [|done].
      apply pad_lists_encoder_decoder in Hl as (_ & _ & _ & _ & _ & _ & _ & _ & mo & Hmo & ->).
      destruct Hlabels as [_ Hrows].
      by apply (padded_ids_int64_iff PaddingSide.right _ _ _ Hmo) in Hrows.
    + intros (Hne & Hout & Hfits). destruct (Hfits eq_refl) as (Hin & Hpad & Hrows).
      destruct (max_nonempty (map Py.len inputs)) as [m Hm]; [by destruct inputs|].
      apply is_ok_iff.
      destruct outputs as [outs|].
      * destruct Hout as [Houts Hlm].
        destruct (max_nonempty (map Py.len outs)) as [mo Hmo]; [by destruct outs|].
        eexists. apply pad_Ok_iff.
        exists m, (Some (padded_ids PaddingSide.right labels_mask_value mo outs)).
        split; [done|]. split.
        { rewrite (pad_lists_encoder_decoder_eq _ _ _ _ _ _ _ _ Hm), Hlm. simpl.
          by rewrite Hmo. }
        split; [by apply (padded_ids_int64_iff _ _ _ _ Hm)|]. split; [|done]. split.
        -- apply (rectangular_uniform _ (Z.to_nat mo)). by apply right_padded_uniform.
        -- by apply (padded_ids_int64_iff PaddingSide.right _ _ _ Hmo).
      * eexists. apply pad_Ok_iff. exists m, None. split; [done|].
        split; [by rewrite (pad_lists_encoder_decoder_eq _ _ _ _ _ _ _ _ Hm)|].
        split; [by apply (padded_ids_int64_iff _ _ _ _ Hm)|]. done.
Qed.

(** C3.  Encoder-decoder, either padding side: [_pad] returns exactly when
    the inputs are not empty, the outputs, if given, are not empty and
    come with [output_only], and, unless the call is padding-free, what is
    turned into tensors fits a signed 64-bit integer (the token ids, and
    the pad token and the mask value wherever padding is needed); and
    whenever it returns, row [i] of the attention mask sums to
    [len(input_i)]. *)
Theorem pad_encoder_decoder_attention_mask_sum
    (inputs : list (list Z)) (outputs : option (list (list Z))) (pad_token_id : Z)
    (padding_side : PaddingSide.t) (loss_mask : loss_mask_value)
    (use_padding_free_transformer : bool) (labels_mask_value : Z) :
  (Py.is_ok (_pad inputs outputs pad_token_id padding_side true loss_mask
               use_padding_free_transformer labels_mask_value) = true
   <-> inputs ≠ [] /\
       match outputs with
       | None => True
       | Some outputs =>
           outputs ≠ [] /\ loss_mask_is loss_mask LossMask.output_only = true
       end /\
       (use_padding_free_transformer = false ->
        Forall (Forall int64) inputs /\
        (int64 pad_token_id \/
         exists n : nat, Forall (fun array => length array = n) inputs) /\
        match outputs with
        | None => True
        | Some outputs =>
            Forall (Forall int64) outputs /\
            (int64 labels_mask_value \/
             exists n : nat, Forall (fun array => length array = n) outputs)
        end)) /\
  (forall input_ids attention_mask labels,
      _pad inputs outputs pad_token_id padding_side true loss_mask
        use_padding_free_transformer labels_mask_value
      = Py.Ok (input_ids, attention_mask, labels) ->
      exists rows,
        rows_of attention_mask = Some rows /\
        length rows = length inputs /\
        forall (i : nat) row array,
          rows !! i = Some row -> inputs !! i = Some array ->
          foldr Z.add 0 row = Py.len array).
Proof.
  split; [apply pad_encoder_decoder_returns|].
  intros input_ids attention_mask labels H.
  apply pad_rows_of in H as (ids & mask & lbls & Hl & _ & Hmask & _).
  apply pad_lists_encoder_decoder in Hl as (m & rows & Hm & -> & _ & _ & Hsum & _).
  exists rows. split; [done|].
  split; [by apply Forall2_length in Hsum|].
  intros i row array Hrow Harr. exact (Forall2_lookup_lr _ _ _ _ _ _ Hsum Hrow Harr).
Qed.

(** C4, as amended.  Encoder-decoder.  With outputs given: a loss mask
    other than [output_only] makes [_pad] fail, by the assertion as soon as
    the inputs are not empty; with [output_only], whenever [_pad] returns
    the labels are the outputs, each extended on the right with the mask
    value up to the longest output, whatever the padding side, and [_pad]
    does return when inputs and outputs are not empty and the token ids,
    the pad token and the mask value fit a signed 64-bit integer.  Without
    outputs: neither the loss mask nor the mask value is read, no labels
    are returned, and [_pad] returns on non-empty inputs in the 64-bit
    range. *)
Theorem pad_encoder_decoder_labels
    (inputs outputs : list (list Z)) (pad_token_id : Z) (padding_side : PaddingSide.t)
    (loss_mask : loss_mask_value) (use_padding_free_transformer : bool)
    (labels_mask_value : Z) :
  (loss_mask_is loss_mask LossMask.output_only = false ->
   Py.is_ok (_pad inputs (Some outputs) pad_token_id padding_side true loss_mask
               use_padding_free_transformer labels_mask_value) = false /\
   (inputs ≠ [] ->
    _pad inputs (Some outputs) pad_token_id padding_side true loss_mask
      use_padding_free_transformer labels_mask_value
    = Py.Raise (Py.Exn Py.AssertionError
                  (Some "only output_only loss mask is supported with encoder decoder models")))) /\
  (forall input_ids attention_mask labels,
      _pad inputs (Some outputs) pad_token_id padding_side true
        (IsLossMask LossMask.output_only) use_padding_free_transformer labels_mask_value
      = Py.Ok (input_ids, attention_mask, labels) ->
      exists output_max_length,
        Py.max (map Py.len outputs) = Py.Ok output_max_length /\
        rows_of labels
        = Some (map (fun array =>
                       array ++ Py.list_mul labels_mask_value (output_max_length - Py.len array))
                  outputs) /\
        forall array, array ∈ outputs ->
          Py.len (array ++ Py.list_mul labels_mask_value (output_max_length - Py.len array))
          = output_max_length) /\
  (inputs ≠ [] -> outputs ≠ [] ->
   Forall (Forall int64) inputs -> Forall (Forall int64) outputs ->
   int64 pad_token_id -> int64 labels_mask_value ->
   Py.is_ok (_pad inputs (Some outputs) pad_token_id padding_side true
               (IsLossMask LossMask.output_only) use_padding_free_transformer
               labels_mask_value) = true) /\
  (forall (loss_mask' : loss_mask_value) (labels_mask_value' : Z),
      _pad inputs None pad_token_id padding_side true loss_mask
        use_padding_free_transformer labels_mask_value
      = _pad inputs None pad_token_id padding_side true loss_mask'
          use_padding_free_transformer labels_mask_value') /\
  (forall input_ids attention_mask labels,
      _pad inputs None pad_token_id padding_side true loss_mask
        use_padding_free_transformer labels_mask_value
      = Py.Ok (input_ids, attention_mask, labels) ->
      labels = VNone) /\
  (inputs ≠ [] -> Forall (Forall int64) inputs -> int64 pad_token_id ->
   Py.is_ok (_pad inputs None pad_token_id padding_side true loss_mask
               use_padding_free_transformer labels_mask_value) = true).
Proof.
  split; [|split; [|split; [|split; [|split]]]].
  - intros Hlm. split.
    + destruct (Py.is_ok _) eqn:Hok; [|done].
      apply pad_encoder_decoder_returns in Hok as (_ & [_ Hlm'] & _).
      congruence.
    + intros Hin. unfold _pad, _pad_lists.
      destruct (max_nonempty (map Py.len inputs)) as [m ->]; [by destruct inputs|].
      simpl. rewrite Hlm. by destruct padding_side.
  - intros input_ids attention_mask labels H.
    apply pad_rows_of in H as (ids & mask & lbls & Hl & _ & _ & Hlabels).
    apply pad_lists_encoder_decoder in Hl as (_ & _ & _ & _ & _ & _ & _ & _ & mo & Hmo & ->).
    exists mo. split; [done|]. split; [done|].
    intros array Harr. pose proof (max_len_upper _ _ _ Hmo Harr).
    rewrite len_app, len_list_mul. lia.
  - intros Hin Hout Hin64 Hout64 Hpad64 Hmask64.
    apply pad_encoder_decoder_returns. split; [done|]. split; [done|]. intros _. tauto.
  - intros loss_mask' labels_mask_value'. unfold _pad, _pad_lists.
    destruct (Py.max (map Py.len inputs)), padding_side; done.
  - intros input_ids attention_mask labels H.
    apply pad_rows_of in H as (ids & mask & lbls & Hl & _ & _ & Hlabels).
    apply pad_lists_encoder_decoder in Hl as (_ & _ & _ & _ & _ & _ & _ & ->).
    by destruct labels.
  - intros Hin Hin64 Hpad64.
    apply pad_encoder_decoder_returns. split; [done|]. split; [done|]. intros _. tauto.
Qed.

(** C10.  Decoder-only, not packed, [no_mask], either padding side: the
    labels built are the inputs as given, not the padded [input_ids];
    [_pad] returns exactly when the batch is not empty, all inputs have
    one length and every token id fits a signed 64-bit integer; the labels
    returned are then [input_ids]. *)
Theorem pad_no_mask_labels
    (inputs outputs : list (list Z)) (pad_token_id : Z) (padding_side : PaddingSide.t)
    (labels_mask_value : Z) :
  (inputs ≠ [] ->
   exists input_ids attention_mask,
     _pad_lists inputs (Some outputs) pad_token_id padding_side false
       (IsLossMask LossMask.no_mask) false labels_mask_value
     = Py.Ok (input_ids, attention_mask, Some inputs)) /\
  (Py.is_ok (_pad inputs (Some outputs) pad_token_id padding_side false
               (IsLossMask LossMask.no_mask) false labels_mask_value) = true
   <-> inputs ≠ [] /\
       (exists n : nat, Forall (fun array => length array = n) inputs) /\
       Forall (Forall int64) inputs) /\
  (forall input_ids attention_mask labels,
      _pad inputs (Some outputs) pad_token_id padding_side false
        (IsLossMask LossMask.no_mask) false labels_mask_value
      = Py.Ok (input_ids, attention_mask, labels) ->
      labels = VTensor inputs /\ input_ids = VTensor inputs).
Proof.
  assert (Hlists : forall m, Py.max (map Py.len inputs) = Py.Ok m ->
            _pad_lists inputs (Some outputs) pad_token_id padding_side false
              (IsLossMask LossMask.no_mask) false labels_mask_value
            = Py.Ok (padded_ids padding_side pad_token_id m inputs,
                     Some (padded_mask padding_side m inputs), Some inputs)).
  { intros m Hm. unfold _pad_lists. rewrite Hm. simpl. by destruct padding_side. }
  assert (Hret : forall r,
            _pad inputs (Some outputs) pad_token_id padding_side false
              (IsLossMask LossMask.no_mask) false labels_mask_value = Py.Ok r ->
            exists m, Py.max (map Py.len inputs) = Py.Ok m /\
                      rectangular inputs = true /\ Forall (Forall int64) inputs /\
                      r = (VTensor (padded_ids padding_side pad_token_id m inputs),
                           VTensor (padded_mask padding_side m inputs), VTensor inputs)).
  { intros r (m & labels & Hm & Hl & _ & Hlabels & ->)%pad_Ok_iff.
    rewrite (Hlists m Hm) in Hl. injection Hl as <-. destruct Hlabels. eauto. }
  split; [|split].
  - intros Hin. destruct (max_nonempty (map Py.len inputs)) as [m Hm]; [by destruct inputs|].
    rewrite (Hlists m Hm). eauto.
  - split.
    + intros [r Hr]%is_ok_iff. apply Hret in Hr as (m & Hm & Hrect & Hfits & _).
      split; [by destruct inputs|]. split; [|done].
      eexists. by apply rectangular_inv.
    + intros (Hin & [n Hn] & Hfits).
      destruct (max_nonempty (map Py.len inputs)) as [m Hm]; [by destruct inputs|].
      apply is_ok_iff. eexists. apply pad_Ok_iff. exists m, (Some inputs).
      split; [done|]. split; [by apply Hlists|].
      split; [by rewrite padded_ids_same by (by apply (uniform_max _ n))|].
      split; [|done]. split; [by apply (rectangular_uniform _ n)|done].
  - intros input_ids attention_mask labels H.
    apply Hret in H as (m & Hm & Hrect & _ & [= -> -> ->]).
    split; [done|]. f_equal. apply padded_ids_same. by apply rectangular_max.
Qed.

(** ** [prepare_batch] and [generate] *)

Lemma count_not_eos_filter (eos : Z) (row : list Z) :
  count_not_eos eos row = Py.len (filter (fun token => token ≠ eos) row).
Proof.
  unfold Py.len. induction row as [|t row IH]; simpl; [done|].
  rewrite IH. destruct (Z.eqb_spec t eos) as [->|Hne].
  - rewrite filter_cons_False; [lia|]. intros H. by apply H.
  - rewrite filter_cons_True; [simpl; lia|done].
Qed.

(** Without outputs a call that is not padding-free builds its two
    tensors, on either path. *)
Lemma pad_no_outputs_returns
    (inputs : list (list Z)) (pad_token_id : Z) (padding_side : PaddingSide.t)
    (is_encoder_decoder : bool) (loss_mask : loss_mask_value) (labels_mask_value : Z) :
  inputs ≠ [] -> Forall (Forall int64) inputs -> int64 pad_token_id ->
  exists m,
    Py.max (map Py.len inputs) = Py.Ok m /\
    padded_ids padding_side pad_token_id m inputs ≠ [] /\
    _pad inputs None pad_token_id padding_side is_encoder_decoder loss_mask false
      labels_mask_value
    = Py.Ok (VTensor (padded_ids padding_side pad_token_id m inputs),
             VTensor (padded_mask padding_side m inputs), VNone).
Proof.
  intros Hin Hfits Hpad.
  destruct (max_nonempty (map Py.len inputs)) as [m Hm]; [by destruct inputs|].
  exists m. split; [done|]. split; [by destruct inputs, padding_side|].
  apply pad_Ok_iff. exists m, None. split; [done|]. split.
  - unfold _pad_lists. rewrite Hm. by destruct is_encoder_decoder, padding_side.
  - split; [by apply padded_ids_int64|done].
Qed.

Lemma to_device_tensors (input_ids attention_mask : list (list Z)) :
  let batch : gmap string value :=
    <["attention_mask" := VTensor attention_mask]> (<["input_ids" := VTensor input_ids]> ∅) in
  to_device batch = Py.Ok batch.
Proof.
  intros batch. unfold to_device. rewrite decide_True; [done|].
  subst batch. repeat apply map_Forall_insert_2; first [done | apply map_Forall_empty].
Qed.

(** C6.  Whenever [generate] returns, the count of each example is 1 plus
    the number of tokens of its trimmed row that differ from the
    end-of-sequence id; the trimmed rows are what the model generated, cut
    by the width of [input_ids] for a decoder-only model; the row
    [[5, 7, eos, eos]] counts 3; and [generate] does return outside
    training mode on a non-empty batch of 64-bit token ids when the model
    is not padding-free. *)
Theorem generate_token_counts
    {GenerateKwargs : Type}
    (model_generate : gmap string value -> GenerateKwargs -> Z -> list (list Z))
    (batch_decode : list (list Z) -> list string)
    (self : ModelWrapper) (inputs : list (list Z)) (outputs : option (list (list Z)))
    (generate_kwargs : GenerateKwargs) :
  (forall texts counts,
      generate model_generate batch_decode self inputs outputs generate_kwargs
      = Py.Ok (texts, counts) ->
      exists batch trimmed,
        prepare_batch self inputs outputs = Py.Ok batch /\
        (if is_encoder_decoder self
         then trimmed = model_generate batch generate_kwargs (eos_token_id self)
         else exists input_ids width,
             batch !! "input_ids" = Some input_ids /\
             shape1 input_ids = Py.Ok width /\
             trimmed = drop_columns width
                         (model_generate batch generate_kwargs (eos_token_id self))) /\
        texts = batch_decode trimmed /\
        counts = map (fun row =>
                        1 + Py.len (filter (fun token => token ≠ eos_token_id self) row))
                   trimmed) /\
  (forall eos : Z, eos ≠ 5 -> eos ≠ 7 ->
      num_generated_tokens eos [[5; 7; eos; eos]] = [3]) /\
  (Mode.eqb (mode self) Mode.training = false ->
   use_padding_free_transformer self = false ->
   inputs ≠ [] ->
   Forall (Forall int64) inputs -> int64 (eos_token_id self) ->
   Py.is_ok (generate model_generate batch_decode self inputs outputs generate_kwargs)
   = true).
Proof.
  split; [|split].
  - intros texts counts. unfold generate.
    destruct (use_padding_free_transformer self); [done|].
    destruct (prepare_batch self inputs outputs) as [batch|e]; [|done]. simpl.
    unfold to_device. destruct (decide _); [|done]. simpl.
    intros H. exists batch.
    assert (Hcounts : forall trimmed,
               num_generated_tokens (eos_token_id self) trimmed
               = map (fun row =>
                        1 + Py.len (filter (fun token => token ≠ eos_token_id self) row))
                   trimmed).
    { intros trimmed. unfold num_generated_tokens. apply map_ext.
      intros row. rewrite count_not_eos_filter. lia. }
    destruct (is_encoder_decoder self); simpl in H.
    + injection H as <- <-. eexists. split; [done|]. split; [done|]. by rewrite Hcounts.
    + destruct (batch !! "input_ids") as [input_ids|]; [|done]. simpl in H.
      destruct (shape1 input_ids) as [width|] eqn:Hw; [|done]. simpl in H.
      injection H as <- <-. eexists. split; [done|]. split; [eauto|].
      by rewrite Hcounts.
  - intros eos H5 H7. unfold num_generated_tokens, count_not_eos. cbn [map foldr].
    rewrite Z.eqb_refl, !(proj2 (Z.eqb_neq _ eos)) by lia. done.
  - intros Hmode Hpacked Hin Hfits Heos. unfold generate, prepare_batch.
    rewrite Hpacked, Hmode. simpl.
    destruct (pad_no_outputs_returns inputs (eos_token_id self) (padding_side self)
                (is_encoder_decoder self) (loss_mask self) labels_mask_value_default
                Hin Hfits Heos) as (m & _ & Hids & ->).
    simpl. rewrite to_device_tensors. simpl.
    destruct (is_encoder_decoder self); simpl; [done|].
    rewrite lookup_insert_ne by done. rewrite lookup_insert_eq.
    by destruct (padded_ids (padding_side self) (eos_token_id self) m inputs).
Qed.

(** ** [get_model_tflops] *)

Lemma overflow_threshold_pos : 0 < Float.overflow_threshold.
Proof. reflexivity. Qed.

(** The guard of [Float.of_int] sits where rounding leaves the finite
    doubles: one below the threshold rounds to the largest double, the
    threshold itself to infinity. *)
Lemma overflow_threshold_sharp :
  SpecFloat.binary_normalize Float.prec Float.emax (Float.overflow_threshold - 1) 0 false
  = SpecFloat.S754_finite false 9007199254740991 971 /\
  SpecFloat.binary_normalize Float.prec Float.emax Float.overflow_threshold 0 false
  = SpecFloat.S754_infinity false.
Proof. by vm_compute. Qed.

Lemma of_int_Ok (z : Z) :
  Z.abs z < Float.overflow_threshold ->
  Float.of_int z = Py.Ok (SpecFloat.binary_normalize Float.prec Float.emax z 0 false).
Proof. intros Hz. unfold Float.of_int. by rewrite (proj2 (Z.ltb_lt _ _) Hz). Qed.

Lemma of_int_Raise (z : Z) (e : Py.exn) :
  Float.of_int z = Py.Raise e -> e = Py.Exn Py.OverflowError None.
Proof. unfold Float.of_int. destruct (_ <? _); [done|]. by intros [= <-]. Qed.

Lemma mlp_flops_eq (is_glu : string -> bool) (self : ModelWrapper) (b s : Z) :
  mlp_flops is_glu self b s
  = if is_glu (activation_function (config self))
    then 6 * b * s * n_embd (config self) * n_inner (config self)
    else 4 * b * s * n_embd (config self) * n_inner (config self).
Proof. unfold mlp_flops. destruct (is_glu _); lia. Qed.

(** C7, as amended.  The MLP term of [get_model_tflops] is the integer
    [6*b*s*h*f] when the activation is gated and [4*b*s*h*f] otherwise,
    and it is this integer, converted to a double and added to the
    attention term, that the result is computed from.  Two wrappers that
    agree on everything the forward term reads except the activation, one
    gated and one not, differ by [2*b*s*h*f] in the MLP term and share the
    attention term; their forward terms are the doubles nearest to the
    attention term plus [6*b*s*h*f] and plus [4*b*s*h*f].  The sizes
    [b=2, s=128, h=768, f=3072] give [3623878656] against [2415919104]. *)
Theorem mlp_flops_glu
    (is_glu : string -> bool) (self : ModelWrapper) (b s : Z) :
  let h := n_embd (config self) in
  let f := n_inner (config self) in
  (is_glu (activation_function (config self)) = true ->
   mlp_flops is_glu self b s = 6 * b * s * h * f) /\
  (is_glu (activation_function (config self)) = false ->
   mlp_flops is_glu self b s = 4 * b * s * h * f) /\
  get_model_tflops is_glu self b s
  = (attention ← attention_flops self b s;
     mlp ← Float.of_int (if is_glu (activation_function (config self))
                         then 6 * b * s * h * f else 4 * b * s * h * f);
     model_tflops self b s (Float.add attention mlp)) /\
  (forall other : ModelWrapper,
      n_embd (config other) = h -> n_inner (config other) = f ->
      n_head (config other) = n_head (config self) ->
      num_key_value_heads (config other) = num_key_value_heads (config self) ->
      is_glu (activation_function (config self)) = true ->
      is_glu (activation_function (config other)) = false ->
      mlp_flops is_glu self b s - mlp_flops is_glu other b s = 2 * b * s * h * f /\
      attention_flops self b s = attention_flops other b s /\
      forward_flops is_glu self b s
      = (attention ← attention_flops self b s;
         mlp ← Float.of_int (6 * b * s * h * f);
         Py.Ok (Float.add attention mlp)) /\
      forward_flops is_glu other b s
      = (attention ← attention_flops self b s;
         mlp ← Float.of_int (4 * b * s * h * f);
         Py.Ok (Float.add attention mlp))) /\
  (h = 768 -> f = 3072 ->
   mlp_flops is_glu self 2 128
   = if is_glu (activation_function (config self)) then 3623878656 else 2415919104).
Proof.
  intros h f. subst h f.
  split; [|split; [|split; [|split]]].
  - intros Hglu. by rewrite mlp_flops_eq, Hglu.
  - intros Hglu. by rewrite mlp_flops_eq, Hglu.
  - unfold get_model_tflops, forward_flops. rewrite mlp_flops_eq.
    destruct (attention_flops self b s) as [attention|]; [|done].
    change (Py.Ok attention ≫= ?k) with (k attention). cbv beta.
    by destruct (Float.of_int _).
  - intros other Hh Hf Hn Hk Hglu Hplain.
    assert (Hatt : attention_flops self b s = attention_flops other b s).
    { unfold attention_flops. by rewrite Hh, Hn, Hk. }
    split; [rewrite !mlp_flops_eq, Hglu, Hplain, Hh, Hf; lia|]. split; [done|].
    unfold forward_flops. rewrite <- Hatt, !mlp_flops_eq, Hglu, Hplain, Hh, Hf. done.
  - intros Hh Hf. rewrite mlp_flops_eq, Hh, Hf. by destruct (is_glu _).
Qed.

Import Pretrain.

(** ** Checkpoint resume in [main] *)

(** C8.  With load arguments and checkpoint metadata present: when
    [load_dataloader_state] is false the metadata kept has
    [consumed_samples = 0], which is also what the dataloader factory
    receives, and the starting iteration is the saved step; when the flag
    is true the metadata is untouched and the saved [consumed_samples] is
    what the factory receives.  [train] then counts on from the saved
    step. *)
Theorem main_resume_consumed_samples
    {ExperimentsTrackerState : Type} (load_args : LoadArgs) (saved_step : Z)
    (saved : gmap string Z) (state : option ExperimentsTrackerState) :
  (load_dataloader_state load_args = false ->
   main_resume (Some load_args) (saved_step, Some saved, state)
   = Py.Ok {| starting_iteration := saved_step;
              metadata := Some (<["consumed_samples" := 0]> saved);
              experiments_tracker_state_dict := state;
              consumed_samples := 0 |} /\
   (<["consumed_samples" := 0]> saved : gmap string Z) !! "consumed_samples" = Some 0) /\
  (load_dataloader_state load_args = true ->
   forall n : Z, saved !! "consumed_samples" = Some n ->
     main_resume (Some load_args) (saved_step, Some saved, state)
     = Py.Ok {| starting_iteration := saved_step;
                metadata := Some saved;
                experiments_tracker_state_dict := state;
                consumed_samples := n |}) /\
  (forall num_training_steps : Z, saved_step < num_training_steps ->
     head (train_global_steps saved_step num_training_steps) = Some (saved_step + 1)).
Proof.
  split; [|split].
  - intros Hflag. unfold main_resume, getitem. rewrite Hflag. simpl.
    by rewrite lookup_insert_eq.
  - intros Hflag n Hn. unfold main_resume, getitem. rewrite Hflag. simpl.
    by rewrite Hn.
  - intros num Hlt. unfold train_global_steps.
    rewrite head_lookup. apply lookup_seqZ. lia.
Qed.

(** ** [evaluate] *)

(** C9.  When the validation dataloaders are [None] or empty, [evaluate]
    returns [None] and its only effect is the broadcast that tensor
    parallelism requires: no switch to evaluation mode, no forward pass, no
    all-reduce.  Without tensor parallelism the decision is local; with
    it, the first rank decides for itself, every other rank follows what
    the first rank broadcasts, and so a whole tensor-parallel group whose
    first rank has no validation data does nothing more. *)
Theorem evaluate_no_validation_data
    {DataLoader : Type} (pg : ProcessGroup) (val_dataloaders : option (list DataLoader))
    (global_step eval_steps : Z) (group_names : list (option string)) :
  (tensor_parallel_world_size pg <= 1 ->
   none_or_empty val_dataloaders = true ->
   evaluate pg val_dataloaders global_step eval_steps group_names = ([], Py.Ok ReturnNone)) /\
  (1 < tensor_parallel_world_size pg -> tensor_parallel_rank pg = 0 ->
   none_or_empty val_dataloaders = true ->
   evaluate pg val_dataloaders global_step eval_steps group_names
   = ([BroadcastObject], Py.Ok ReturnNone)) /\
  (1 < tensor_parallel_world_size pg -> tensor_parallel_rank pg ≠ 0 ->
   first_rank_object pg = Some true ->
   evaluate pg val_dataloaders global_step eval_steps group_names
   = ([BroadcastObject], Py.Ok ReturnNone)) /\
  (forall (first : option (list DataLoader)) (others : list (option (list DataLoader))),
      others ≠ [] -> none_or_empty first = true ->
      Forall (fun outcome => outcome = ([BroadcastObject], Py.Ok ReturnNone))
        (evaluate_tensor_parallel_group (first :: others)
           global_step eval_steps group_names)).
Proof.
  split; [|split; [|split]].
  - intros Htp Hnone. unfold evaluate.
    destruct (Z.ltb_spec 1 (tensor_parallel_world_size pg)); [lia|].
    by rewrite Hnone.
  - intros Htp Hrank Hnone. unfold evaluate, broadcast_object.
    destruct (Z.ltb_spec 1 (tensor_parallel_world_size pg)); [|lia].
    by rewrite Hrank, Hnone.
  - intros Htp Hrank Hfirst. unfold evaluate, broadcast_object.
    destruct (Z.ltb_spec 1 (tensor_parallel_world_size pg)); [|lia].
    destruct (Z.eqb_spec (tensor_parallel_rank pg) 0); [done|].
    by rewrite Hfirst.
  - intros first others Hothers Hnone. apply Forall_lookup.
    intros i outcome. unfold evaluate_tensor_parallel_group.
    rewrite list_lookup_imap. destruct ((first :: others) !! i) as [dls|] eqn:Hi; [|done].
    simpl. intros [= <-]. unfold evaluate, broadcast_object. simpl.
    destruct (Z.ltb_spec 1 (Py.len (first :: others))) as [_|Hlen].
    + destruct (Z.eqb_spec (Z.of_nat i) 0) as [Hz|Hnz].
      * assert (i = 0%nat) as -> by lia. simpl in Hi. injection Hi as <-.
        by rewrite Hnone.
      * by rewrite Hnone.
    + unfold Py.len in Hlen. destruct others; [done|]. simpl in Hlen. lia.
Qed.

(** ** [_noisy_forward] *)




(** * Instances *)

Ltac int64_solve :=
  first [ apply int64_rows; reflexivity | apply fits_int64_spec; reflexivity ].

(** C1 as stated fails when an output is longer than its input: the label
    row is then longer than [max_length]. *)
Lemma pad_right_output_only_longer_output :
  Py.max (map Py.len [[1]]) = Py.Ok 1 /\
  _pad [[1]] (Some [[2; 3]]) 0 PaddingSide.right false
    (IsLossMask LossMask.output_only) false (-100)
  = Py.Ok (VTensor [[1]], VTensor [[1]], VTensor [[2; 3]]) /\
  ~ (forall row : list Z, [[2; 3]] !! 0%nat = Some row -> Py.len row = 1).
Proof.
  split; [done|]. split; [done|]. intros H. by specialize (H [2; 3] eq_refl).
Qed.

Lemma pad_right_output_only_labels_witness :
  exists input_ids attention_mask labels row,
    _pad [[1; 2; 3; 4; 5]; [7; 8]] (Some [[4; 5]; [8]]) 0 PaddingSide.right false
      (IsLossMask LossMask.output_only) false (-100)
    = Py.Ok (input_ids, attention_mask, VTensor labels) /\
    labels !! 1%nat = Some row /\ Py.len row = 5 /\
    row !! 0%nat = Some (-100) /\ row !! 1%nat = Some 8 /\ row !! 4%nat = Some (-100).
Proof.
  destruct (pad_right_output_only_labels [[1; 2; 3; 4; 5]; [7; 8]] [[4; 5]; [8]] 0 (-100))
    as (input_ids & attention_mask & labels & m & Hm & Hpad & Hrows);
    try int64_solve.
  - done.
  - intros [|[|i]] array_in array_out Hin Hout; simplify_eq/=; done.
  - injection Hm as <-.
    destruct (Hrows 1%nat [7; 8] [8] eq_refl eq_refl) as (row & Hrow & Hlen & Hpre & Hsuf & Hmid).
    exists input_ids, attention_mask, labels, row.
    split; [exact Hpad|]. split; [exact Hrow|]. split; [exact Hlen|].
    split; [apply Hpre; done|]. split; [exact (Hmid 0%nat (Nat.lt_0_succ 0))|].
    apply Hsuf. done.
Defined.

Lemma pad_packed_labels_witness :
  exists labels,
    _pad [[1; 2; 3; 4; 5]; [6]] (Some [[4; 5]; [6]]) 0 PaddingSide.right false
      (IsLossMask LossMask.output_only) true (-100)
    = Py.Ok (VList [[1; 2; 3; 4; 5]; [6]], VNone, VList labels) /\
    labels !! 0%nat = Some [-100; -100; -100; 4; 5] /\ labels !! 1%nat = Some [6].
Proof.
  destruct (proj1 (pad_packed_labels [[1; 2; 3; 4; 5]; [6]] 0 PaddingSide.right (-100))
              [[4; 5]; [6]]) as (labels & Hpad & _ & Hrows).
  exists labels. split; [exact Hpad|]. split.
  - exact (Hrows 0%nat [1; 2; 3; 4; 5] [4; 5] eq_refl eq_refl).
  - exact (Hrows 1%nat [6] [6] eq_refl eq_refl).
Defined.

Lemma pad_encoder_decoder_attention_mask_sum_witness :
  Py.is_ok (_pad [[5]; [6; 7; 8]] None 0 PaddingSide.left true (NotLossMask "None")
              false (-100)) = true /\
  exists rows,
    rows_of (VTensor [[0; 0; 1]; [1; 1; 1]]) = Some rows /\
    length rows = 2%nat /\
    forall (i : nat) row array,
      rows !! i = Some row -> [[5]; [6; 7; 8]] !! i = Some array ->
      foldr Z.add 0 row = Py.len array.
Proof.
  pose proof (pad_encoder_decoder_attention_mask_sum [[5]; [6; 7; 8]] None 0
                PaddingSide.left (NotLossMask "None") false (-100)) as [Hok Hsum].
  split.
  - apply Hok. split; [done|]. split; [exact I|]. intros _.
    split; [int64_solve|]. split; [left; int64_solve|exact I].
  - exact (Hsum (VTensor [[0; 0; 5]; [6; 7; 8]]) (VTensor [[0; 0; 1]; [1; 1; 1]]) VNone
             eq_refl).
Defined.

(** C4 as stated fails when no outputs are given: the loss mask is then not
    looked at, whatever it is. *)
Lemma pad_encoder_decoder_loss_mask_unchecked :
  loss_mask_is (IsLossMask LossMask.no_mask) LossMask.output_only = false /\
  _pad [[1; 2]; [3]] None 0 PaddingSide.right true (IsLossMask LossMask.no_mask)
    false (-100)
  = Py.Ok (VTensor [[1; 2]; [3; 0]], VTensor [[1; 1]; [1; 0]], VNone) /\
  loss_mask_is (NotLossMask "None") LossMask.output_only = false /\
  _pad [[1; 2]; [3]] None 0 PaddingSide.left true (NotLossMask "None") false (-100)
  = Py.Ok (VTensor [[1; 2]; [0; 3]], VTensor [[1; 1]; [0; 1]], VNone).
Proof. done. Qed.

Lemma pad_encoder_decoder_labels_witness :
  (_pad [[1; 2]; [3]] (Some [[7]; [8; 9]]) 0 PaddingSide.left true
     (IsLossMask LossMask.no_mask) false (-100)
   = Py.Raise (Py.Exn Py.AssertionError
                 (Some "only output_only loss mask is supported with encoder decoder models"))) /\
  Py.is_ok (_pad [[1; 2]; [3]] (Some [[7]; [8; 9]]) 0 PaddingSide.left true
              (IsLossMask LossMask.output_only) false (-100)) = true /\
  (exists output_max_length,
      Py.max (map Py.len [[7]; [8; 9]]) = Py.Ok output_max_length /\
      rows_of (VTensor [[7; -100]; [8; 9]])
      = Some (map (fun array =>
                     array ++ Py.list_mul (-100) (output_max_length - Py.len array))
                [[7]; [8; 9]]) /\
      forall array, array ∈ [[7]; [8; 9]] ->
        Py.len (array ++ Py.list_mul (-100) (output_max_length - Py.len array))
        = output_max_length) /\
  Py.is_ok (_pad [[1; 2]; [3]] None 0 PaddingSide.left true
              (IsLossMask LossMask.no_mask) false (-100)) = true.
Proof.
  destruct (pad_encoder_decoder_labels [[1; 2]; [3]] [[7]; [8; 9]] 0 PaddingSide.left
              (IsLossMask LossMask.no_mask) false (-100))
    as (Hfail & _ & _ & _ & _ & Hnone).
  destruct (pad_encoder_decoder_labels [[1; 2]; [3]] [[7]; [8; 9]] 0 PaddingSide.left
              (IsLossMask LossMask.output_only) false (-100))
    as (_ & Hlabels & Hreturns & _).
  split; [apply (Hfail eq_refl); done|].
  split; [apply Hreturns; first [done | int64_solve]|].
  split.
  - exact (Hlabels (VTensor [[1; 2]; [0; 3]]) (VTensor [[1; 1]; [0; 1]])
             (VTensor [[7; -100]; [8; 9]]) eq_refl).
  - apply Hnone; first [done | int64_solve].
Defined.

Lemma pad_no_mask_labels_witness :
  Py.is_ok (_pad [[1; 2]; [3; 4]] (Some [[2]; [4]]) 0 PaddingSide.left false
              (IsLossMask LossMask.no_mask) false (-100)) = true /\
  Py.is_ok (_pad [[1; 2]; [3]] (Some [[2]; [3]]) 0 PaddingSide.left false
              (IsLossMask LossMask.no_mask) false (-100)) = false.
Proof.
  split.
  - apply (pad_no_mask_labels [[1; 2]; [3; 4]] [[2]; [4]] 0 PaddingSide.left (-100)).
    split; [done|]. split; [|int64_solve]. exists 2%nat. repeat constructor.
  - destruct (Py.is_ok _) eqn:Hok; [|reflexivity].
    apply (pad_no_mask_labels [[1; 2]; [3]] [[2]; [3]] 0 PaddingSide.left (-100)) in Hok
      as (_ & [n Hn] & _).
    inversion Hn as [|? ? H1 H2]; subst. inversion H2 as [|? ? H3 _]; subst. discriminate H3.
Defined.


Lemma generate_token_counts_witness :
  let self := {| mode := Mode.inference;
                 config := {| n_embd := 768; n_inner := 3072; n_head := 12;
                              num_key_value_heads := 12; n_layer := 12;
                              vocab_size := 50257; activation_function := "gelu" |};
                 gradient_checkpointing_method := None;
                 gradient_checkpointing_args := ∅;
                 use_padding_free_transformer := false;
                 is_encoder_decoder := false;
                 padding_side := PaddingSide.left;
                 loss_mask := NotLossMask "None";
                 eos_token_id := 2;
                 training := false |} in
  let model_generate := fun (_ : gmap string value) (_ : unit) (eos : Z) =>
                          [[1; 1; 5; 7; eos; eos]] in
  let batch_decode := fun _ : list (list Z) => ["text"] in
  Py.is_ok (generate model_generate batch_decode self [[1; 1]] None tt) = true /\
  num_generated_tokens 2 [[5; 7; 2; 2]] = [3] /\
  forall texts counts,
    generate model_generate batch_decode self [[1; 1]] None tt = Py.Ok (texts, counts) ->
    counts = [3].
Proof.
  intros self model_generate batch_decode.
  destruct (generate_token_counts model_generate batch_decode self [[1; 1]] None tt)
    as (Hcounts & Hexample & Hok).
  split; [apply Hok; [done|done|done|int64_solve|int64_solve]|]. split; [by apply Hexample|].
  intros texts counts Hgen.
  destruct (Hcounts texts counts Hgen) as (batch & trimmed & Hbatch & Htrim & _ & ->).
  simpl in Htrim. destruct Htrim as (input_ids & width & Hids & Hwidth & ->).
  injection Hbatch as <-. rewrite lookup_insert_ne in Hids by done.
  rewrite lookup_insert_eq in Hids. injection Hids as <-.
  injection Hwidth as <-. reflexivity.
Defined.

(** C7 as stated fails in its last part: with [b = s = h = 1], [f = 4],
    three heads and one key-value head, the MLP terms differ by
    [2*b*s*h*f = 8], but the forward terms are the doubles
    [4691249611844266 * 2^-47] and [7130699410003285 * 2^-48], which differ
    by [8 - 2^-48]. *)
Lemma forward_flops_difference_rounded :
  let is_glu := fun name : string => bool_decide (name = "swiglu") in
  let wrapper := fun activation =>
    {| mode := Mode.training;
       config := {| n_embd := 1; n_inner := 4; n_head := 3;
                    num_key_value_heads := 1; n_layer := 1;
                    vocab_size := 1; activation_function := activation |};
       gradient_checkpointing_method := None;
       gradient_checkpointing_args := ∅;
       use_padding_free_transformer := false;
       is_encoder_decoder := false;
       padding_side := PaddingSide.right;
       loss_mask := IsLossMask LossMask.no_mask;
       eos_token_id := 0;
       training := true |} in
  mlp_flops is_glu (wrapper "swiglu") 1 1 - mlp_flops is_glu (wrapper "gelu") 1 1
  = 2 * 1 * 1 * 1 * 4 /\
  forward_flops is_glu (wrapper "swiglu") 1 1
  = Py.Ok (SpecFloat.S754_finite false 4691249611844266 (-47)) /\
  forward_flops is_glu (wrapper "gelu") 1 1
  = Py.Ok (SpecFloat.S754_finite false 7130699410003285 (-48)) /\
  4691249611844266 * 2 - 7130699410003285 = 2 * 1 * 1 * 1 * 4 * 2 ^ 48 - 1.
Proof. intros is_glu wrapper. by vm_compute. Qed.

Lemma mlp_flops_glu_witness :
  let is_glu := fun name : string => bool_decide (name = "swiglu") in
  let wrapper := fun activation =>
    {| mode := Mode.training;
       config := {| n_embd := 768; n_inner := 3072; n_head := 12;
                    num_key_value_heads := 4; n_layer := 12;
                    vocab_size := 50257; activation_function := activation |};
       gradient_checkpointing_method := None;
       gradient_checkpointing_args := ∅;
       use_padding_free_transformer := false;
       is_encoder_decoder := false;
       padding_side := PaddingSide.right;
       loss_mask := IsLossMask LossMask.no_mask;
       eos_token_id := 0;
       training := true |} in
  mlp_flops is_glu (wrapper "swiglu") 2 128 = 3623878656 /\
  mlp_flops is_glu (wrapper "gelu") 2 128 = 2415919104 /\
  mlp_flops is_glu (wrapper "swiglu") 2 128 - mlp_flops is_glu (wrapper "gelu") 2 128
  = 1207959552 /\
  get_model_tflops is_glu (wrapper "swiglu") 2 128
  = (attention ← attention_flops (wrapper "swiglu") 2 128;
     mlp ← Float.of_int 3623878656;
     model_tflops (wrapper "swiglu") 2 128 (Float.add attention mlp)) /\
  forward_flops is_glu (wrapper "gelu") 2 128
  = (attention ← attention_flops (wrapper "swiglu") 2 128;
     mlp ← Float.of_int 2415919104;
     Py.Ok (Float.add attention mlp)).
Proof.
  intros is_glu wrapper.
  destruct (mlp_flops_glu is_glu (wrapper "swiglu") 2 128) as (Hglu & _ & Htflops & Hdiff & _).
  destruct (mlp_flops_glu is_glu (wrapper "gelu") 2 128) as (_ & Hplain & _ & _ & _).
  destruct (Hdiff (wrapper "gelu") eq_refl eq_refl eq_refl eq_refl eq_refl eq_refl)
    as (Hmlp & _ & _ & Hforward).
  split; [exact (Hglu eq_refl)|]. split; [exact (Hplain eq_refl)|].
  split; [exact Hmlp|]. split; [exact Htflops|exact Hforward].
Defined.

Lemma main_resume_consumed_samples_witness :
  let saved : gmap string Z := {[ "consumed_samples" := 6400 ]} in
  main_resume (ExperimentsTrackerState := unit)
    (Some {| load_dataloader_state := false |}) (100, Some saved, None)
  = Py.Ok {| starting_iteration := 100;
             metadata := Some (<["consumed_samples" := 0]> saved);
             experiments_tracker_state_dict := None;
             consumed_samples := 0 |} /\
  main_resume (ExperimentsTrackerState := unit)
    (Some {| load_dataloader_state := true |}) (100, Some saved, None)
  = Py.Ok {| starting_iteration := 100;
             metadata := Some saved;
             experiments_tracker_state_dict := None;
             consumed_samples := 6400 |} /\
  head (train_global_steps 100 200) = Some 101.
Proof.
  intros saved.
  destruct (main_resume_consumed_samples (ExperimentsTrackerState := unit)
              {| load_dataloader_state := false |} 100 saved None) as (Hreset & _ & Hstep).
  destruct (main_resume_consumed_samples (ExperimentsTrackerState := unit)
              {| load_dataloader_state := true |} 100 saved None) as (_ & Hkeep & _).
  split; [exact (proj1 (Hreset eq_refl))|].
  split; [apply (Hkeep eq_refl); apply lookup_singleton_eq|].
  apply Hstep. done.
Defined.

Lemma evaluate_no_validation_data_witness :
  evaluate (DataLoader := nat)
    {| tensor_parallel_world_size := 1; tensor_parallel_rank := 0;
       first_rank_object := None |} (Some []) 100 10 [None]
  = ([], Py.Ok ReturnNone) /\
  evaluate (DataLoader := nat)
    {| tensor_parallel_world_size := 2; tensor_parallel_rank := 0;
       first_rank_object := None |} None 100 10 [None]
  = ([BroadcastObject], Py.Ok ReturnNone) /\
  evaluate (DataLoader := nat)
    {| tensor_parallel_world_size := 2; tensor_parallel_rank := 1;
       first_rank_object := Some true |} (Some [7%nat]) 100 10 [None]
  = ([BroadcastObject], Py.Ok ReturnNone) /\
  Forall (fun outcome => outcome = ([BroadcastObject], Py.Ok ReturnNone))
    (evaluate_tensor_parallel_group (DataLoader := nat) [Some []; Some [7%nat]]
       100 10 [None]).
Proof.
  split; [|split; [|split]].
  - destruct (evaluate_no_validation_data
                {| tensor_parallel_world_size := 1; tensor_parallel_rank := 0;
                   first_rank_object := None |} (Some [] : option (list nat)) 100 10 [None])
      as (Hlocal & _). apply Hlocal; done.
  - destruct (evaluate_no_validation_data
                {| tensor_parallel_world_size := 2; tensor_parallel_rank := 0;
                   first_rank_object := None |} (None : option (list nat)) 100 10 [None])
      as (_ & Hfirst & _). apply Hfirst; done.
  - destruct (evaluate_no_validation_data
                {| tensor_parallel_world_size := 2; tensor_parallel_rank := 1;
                   first_rank_object := Some true |} (Some [7%nat]) 100 10 [None])
      as (_ & _ & Hother & _). apply Hother; done.
  - destruct (evaluate_no_validation_data
                {| tensor_parallel_world_size := 2; tensor_parallel_rank := 0;
                   first_rank_object := None |} (None : option (list nat)) 100 10 [None])
      as (_ & _ & _ & Hgroup). apply Hgroup; done.
Defined.


(** * Further properties *)

(** ** [_pad]: padded inputs and attention mask *)

(** X1.  Whenever a call that is not padding-free returns, [input_ids] and
    [attention_mask] are tensors with one row per input, every row as long
    as the longest input, and the rows of a labels tensor all have one
    length. *)
Theorem pad_shapes
    (inputs : list (list Z)) (outputs : option (list (list Z))) (pad_token_id : Z)
    (padding_side : PaddingSide.t) (is_encoder_decoder : bool)
    (loss_mask : loss_mask_value) (labels_mask_value : Z)
    (input_ids attention_mask labels : value) :
  _pad inputs outputs pad_token_id padding_side is_encoder_decoder loss_mask
    false labels_mask_value
  = Py.Ok (input_ids, attention_mask, labels) ->
  exists max_length id_rows mask_rows,
    Py.max (map Py.len inputs) = Py.Ok max_length /\
    input_ids = VTensor id_rows /\ attention_mask = VTensor mask_rows /\
    length id_rows = length inputs /\ length mask_rows = length inputs /\
    Forall (fun row => Py.len row = max_length) id_rows /\
    Forall (fun row => Py.len row = max_length) mask_rows /\
    (forall labels_rows, labels = VTensor labels_rows ->
       forall row row', row ∈ labels_rows -> row' ∈ labels_rows ->
         length row = length row').
Proof.
  intros H. pose proof H as H'.
  apply pad_inputs_and_mask in H as (m & Hm & Hids & Hmask). subst input_ids attention_mask.
  assert (0 <= m) as Hm0.
  { apply max_elem, list_elem_of_fmap in Hm as (a & -> & _). unfold Py.len. lia. }
  exists m, (padded_ids padding_side pad_token_id m inputs), (padded_mask padding_side m inputs).
  split; [done|]. split; [done|]. split; [done|].
  split; [by destruct padding_side; rewrite length_map|].
  split; [by destruct padding_side; rewrite length_map|].
  split; [|split].
  - eapply Forall_impl; [apply (padded_ids_uniform _ _ _ _ Hm)|].
    intros row Hrow. simpl in Hrow. unfold Py.len. lia.
  - eapply Forall_impl; [apply (padded_mask_uniform _ _ _ Hm)|].
    intros row Hrow. simpl in Hrow. unfold Py.len. lia.
  - intros labels_rows ->. unfold _pad in H'.
    destruct (_pad_lists _ _ _ _ _ _ _ _) as [[[ids mask] lbls]|]; [|done]. simpl in H'.
    destruct (torch_tensor ids); [|done]. simpl in H'.
    destruct (torch_tensor_opt mask); [|done]. simpl in H'.
    destruct lbls as [rows|]; [|done].
    destruct (torch_tensor rows) as [t|] eqn:Ht; [|done]. simpl in H'.
    apply torch_tensor_Ok in Ht as [-> Hrect]. injection H' as _ _ <-.
    apply rectangular_inv in Hrect. rewrite Forall_forall in Hrect.
    intros row row' Hrow Hrow'. by rewrite (Hrect _ Hrow), (Hrect _ Hrow').
Qed.


Lemma list_mul_len {A B} (v : A) (xs : list B) :
  Py.list_mul v (Py.len xs) = replicate (length xs) v.
Proof. unfold Py.list_mul, Py.len. by rewrite Nat2Z.id. Qed.

Lemma filter_zip_ones (xs : list Z) :
  (filter (fun p : Z * Z => p.2 = 1) (base.zip xs (replicate (length xs) 1))).*1 = xs.
Proof.
  induction xs as [|x xs IH]; [done|].
  change (base.zip (x :: xs) (replicate (length (x :: xs)) 1))
    with ((x, 1) :: base.zip xs (replicate (length xs) 1)).
  rewrite filter_cons_True by done. rewrite fmap_cons. simpl. by rewrite IH.
Qed.

Lemma filter_zip_zeros (xs : list Z) (n : nat) :
  filter (fun p : Z * Z => p.2 = 1) (base.zip xs (replicate n 0)) = [].
Proof.
  revert n. induction xs as [|x xs IH]; intros [|n]; try done.
  change (base.zip (x :: xs) (replicate (S n) 0)) with ((x, 0) :: base.zip xs (replicate n 0)).
  rewrite filter_cons_False by (simpl; lia). apply IH.
Qed.

(** X2.  Round trip of padding: in every row, the tokens of [input_ids]
    at the positions where [attention_mask] is 1 are the input as given,
    whichever the padding side and the path. *)
Theorem pad_mask_selects_inputs
    (inputs : list (list Z)) (outputs : option (list (list Z))) (pad_token_id : Z)
    (padding_side : PaddingSide.t) (is_encoder_decoder : bool)
    (loss_mask : loss_mask_value) (labels_mask_value : Z)
    (id_rows mask_rows : list (list Z)) (labels : value) :
  _pad inputs outputs pad_token_id padding_side is_encoder_decoder loss_mask
    false labels_mask_value
  = Py.Ok (VTensor id_rows, VTensor mask_rows, labels) ->
  forall (i : nat) array row mask_row,
    inputs !! i = Some array -> id_rows !! i = Some row -> mask_rows !! i = Some mask_row ->
    (filter (fun p : Z * Z => p.2 = 1) (base.zip row mask_row)).*1 = array.
Proof.
  intros H i array row mask_row Ha Hrow Hmask.
  apply pad_inputs_and_mask in H as (m & Hm & [= ->] & [= ->]).
  assert (Py.len array <= m) as Hle.
  { apply (max_len_upper _ _ _ Hm). by eapply list_elem_of_lookup_2. }
  destruct padding_side; rewrite list_lookup_fmap, Ha in Hrow, Hmask;
    injection Hrow as <-; injection Hmask as <-; rewrite list_mul_len.
  - rewrite zip_with_app by (by rewrite !length_list_mul).
    rewrite filter_app, fmap_app.
    unfold Py.list_mul at 2. rewrite filter_zip_zeros. simpl. apply filter_zip_ones.
  - rewrite zip_with_app by (by rewrite length_replicate).
    rewrite filter_app, fmap_app.
    unfold Py.list_mul at 2. rewrite filter_zip_zeros, app_nil_r. apply filter_zip_ones.
Qed.

(** X3.  Padding a batch of 64-bit token ids whose inputs already share
    one length changes no token: [input_ids] is the batch itself and the
    mask is all ones, on either side and on either path, whatever the pad
    token. *)
Theorem pad_uniform_batch_unchanged
    (inputs : list (list Z)) (n : nat) (pad_token_id : Z)
    (padding_side : PaddingSide.t) (is_encoder_decoder : bool)
    (loss_mask : loss_mask_value) (labels_mask_value : Z) :
  inputs ≠ [] ->
  Forall (fun array => length array = n) inputs ->
  Forall (Forall int64) inputs ->
  _pad inputs None pad_token_id padding_side is_encoder_decoder loss_mask
    false labels_mask_value
  = Py.Ok (VTensor inputs, VTensor (map (fun _ => replicate n 1) inputs), VNone).
Proof.
  intros Hne Hn Hfits.
  destruct (max_nonempty (map Py.len inputs)) as [m Hm]; [by destruct inputs|].
  pose proof (uniform_max _ _ _ Hn Hm) as Hall.
  pose proof (padded_ids_same padding_side pad_token_id m inputs Hall) as Hids.
  assert (padded_mask padding_side m inputs = map (fun _ => replicate n 1) inputs) as Hmask.
  { destruct padding_side; apply map_ext_Forall;
      rewrite Forall_forall in Hall, Hn; apply Forall_forall; intros a Ha;
      rewrite list_mul_len, (list_mul_nil 0) by (rewrite (Hall a Ha); lia);
      rewrite (Hn a Ha); [done|apply app_nil_r]. }
  apply pad_Ok_iff. exists m, None. rewrite Hids, Hmask.
  split; [done|]. split; [|done].
  unfold _pad_lists. rewrite Hm. simpl.
  destruct is_encoder_decoder, padding_side; simpl in *; by rewrite Hids, Hmask.
Qed.


(** X4.  Every entry of [attention_mask] is 0 or 1, and where it is 0
    [input_ids] holds [pad_token_id]. *)
Theorem pad_masked_positions_hold_pad
    (inputs : list (list Z)) (outputs : option (list (list Z))) (pad_token_id : Z)
    (padding_side : PaddingSide.t) (is_encoder_decoder : bool)
    (loss_mask : loss_mask_value) (labels_mask_value : Z)
    (id_rows mask_rows : list (list Z)) (labels : value) :
  _pad inputs outputs pad_token_id padding_side is_encoder_decoder loss_mask
    false labels_mask_value
  = Py.Ok (VTensor id_rows, VTensor mask_rows, labels) ->
  forall (i j : nat) row mask_row bit,
    id_rows !! i = Some row -> mask_rows !! i = Some mask_row ->
    mask_row !! j = Some bit ->
    (bit = 0 \/ bit = 1) /\ (bit = 0 -> row !! j = Some pad_token_id).
Proof.
  intros H i j row mask_row bit Hrow Hmask Hbit.
  apply pad_inputs_and_mask in H as (m & Hm & [= ->] & [= ->]).
  destruct padding_side; rewrite list_lookup_fmap in Hrow, Hmask;
    destruct (inputs !! i) as [array|] eqn:Ha; try done;
    injection Hrow as <-; injection Hmask as <-;
    apply lookup_app_Some in Hbit as [Hbit|[Hge Hbit]];
    unfold Py.list_mul in Hbit; apply lookup_replicate in Hbit as [-> Hlt];
    rewrite ?length_list_mul, ?length_replicate in *.
  - split; [by left|]. intros _. rewrite lookup_app_l by (rewrite length_list_mul; lia).
    apply lookup_list_mul. lia.
  - split; [by right|done].
  - split; [by right|done].
  - split; [by left|]. intros _. unfold Py.len in *.
    rewrite lookup_app_r by lia. apply lookup_list_mul. lia.
Qed.

Lemma labels_row_right_aligned (v pad : Z) (pre out : list Z) (m : Z) (j : nat) (x : Z) :
  Py.len (pre ++ out) <= m ->
  (Py.list_mul v (Py.len (pre ++ out) - Py.len out) ++ out
   ++ Py.list_mul v (m - Py.len (pre ++ out))) !! j = Some x ->
  x ≠ v ->
  ((pre ++ out) ++ Py.list_mul pad (m - Py.len (pre ++ out))) !! j = Some x /\
  (Py.list_mul 1 (Py.len (pre ++ out)) ++ Py.list_mul 0 (m - Py.len (pre ++ out))) !! j
  = Some 1.
Proof.
  intros Hle Hx Hne. unfold Py.len in *. rewrite length_app in *.
  apply lookup_app_Some in Hx as [Hx|[Hge Hx]].
  { unfold Py.list_mul in Hx. by apply lookup_replicate in Hx as [-> _]. }
  rewrite length_list_mul in Hge, Hx.
  apply lookup_app_Some in Hx as [Hx|[_ Hx]].
  2:{ unfold Py.list_mul in Hx. by apply lookup_replicate in Hx as [-> _]. }
  pose proof (lookup_lt_Some _ _ _ Hx) as Hlt.
  replace (Z.to_nat (Z.of_nat (length pre + length out) - Z.of_nat (length out)))
    with (length pre) in * by lia.
  split.
  - rewrite lookup_app_l by (rewrite length_app; lia).
    rewrite lookup_app_r by lia. done.
  - rewrite lookup_app_l by (rewrite length_list_mul; lia).
    apply lookup_list_mul. lia.
Qed.

Lemma labels_row_left_aligned (v pad : Z) (pre out : list Z) (m : Z) (j : nat) (x : Z) :
  Py.len (pre ++ out) <= m ->
  (Py.list_mul v (m - Py.len out) ++ out) !! j = Some x ->
  x ≠ v ->
  (Py.list_mul pad (m - Py.len (pre ++ out)) ++ pre ++ out) !! j = Some x /\
  (Py.list_mul 0 (m - Py.len (pre ++ out)) ++ Py.list_mul 1 (Py.len (pre ++ out))) !! j
  = Some 1.
Proof.
  intros Hle Hx Hne. unfold Py.len in *. rewrite length_app in *.
  apply lookup_app_Some in Hx as [Hx|[Hge Hx]].
  { unfold Py.list_mul in Hx. by apply lookup_replicate in Hx as [-> _]. }
  rewrite length_list_mul in Hge, Hx.
  pose proof (lookup_lt_Some _ _ _ Hx) as Hlt.
  split.
  - rewrite lookup_app_r; rewrite length_list_mul; [|lia].
    rewrite lookup_app_r by lia. rewrite <- Hx. f_equal. lia.
  - rewrite lookup_app_r; rewrite length_list_mul; [|lia].
    apply lookup_list_mul. lia.
Qed.

(** X5.  Decoder-only, [output_only], either padding side: when every
    output is a suffix of its input and the token ids, the pad token and
    the mask value fit a signed 64-bit integer, [_pad] returns and each
    label that is not the mask value sits on a real token (mask 1) and
    equals the input id at that position. *)
Theorem pad_output_only_labels_aligned
    (inputs outputs : list (list Z)) (pad_token_id : Z) (padding_side : PaddingSide.t)
    (labels_mask_value : Z) :
  inputs ≠ [] ->
  Forall2 (fun array_out array_in => array_out `suffix_of` array_in) outputs inputs ->
  Forall (Forall int64) inputs -> int64 pad_token_id -> int64 labels_mask_value ->
  exists id_rows mask_rows label_rows,
    _pad inputs (Some outputs) pad_token_id padding_side false
      (IsLossMask LossMask.output_only) false labels_mask_value
    = Py.Ok (VTensor id_rows, VTensor mask_rows, VTensor label_rows) /\
    length label_rows = length inputs /\
    forall (i j : nat) row mask_row label_row x,
      id_rows !! i = Some row -> mask_rows !! i = Some mask_row ->
      label_rows !! i = Some label_row ->
      label_row !! j = Some x -> x ≠ labels_mask_value ->
      row !! j = Some x /\ mask_row !! j = Some 1.
Proof.
  intros Hne Hsuf Hfits Hpad64 Hmask64.
  destruct (max_nonempty (map Py.len inputs)) as [m Hm]; [by destruct inputs|].
  pose proof (Forall2_length _ _ _ Hsuf) as Hlen.
  assert (Hbound : forall (i : nat) array_in, inputs !! i = Some array_in ->
                                         Py.len array_in <= m).
  { intros i a Ha. apply (max_len_upper _ _ _ Hm). by eapply list_elem_of_lookup_2. }
  assert (Hout64 : forall (i : nat) out, outputs !! i = Some out -> Forall int64 out).
  { intros i out Hout.
    destruct (Forall2_lookup_l _ _ _ _ _ Hsuf Hout) as (inp & Hin & [pre ->]).
    rewrite Forall_forall in Hfits.
    pose proof (Hfits _ (list_elem_of_lookup_2 _ _ _ Hin)) as Hrow.
    by apply Forall_app in Hrow as [_ ?]. }
  destruct padding_side.
  - exists (map (fun array => Py.list_mul pad_token_id (m - Py.len array) ++ array) inputs),
      (map (fun array => Py.list_mul 0 (m - Py.len array) ++ Py.list_mul 1 (Py.len array))
         inputs),
      (map (fun array => Py.list_mul labels_mask_value (m - Py.len array) ++ array) outputs).
    split; [|split; [by rewrite length_map|]].
    + apply pad_Ok_iff. eexists m, (Some _). split; [done|].
      split; [by unfold _pad_lists; rewrite Hm|].
      split; [by apply (padded_ids_int64 PaddingSide.left)|]. split; [|done]. split.
      * apply (rectangular_uniform _ (Z.to_nat m)).
        apply Forall_fmap, Forall_lookup. intros i out Hout. simpl.
        destruct (Forall2_lookup_l _ _ _ _ _ Hsuf Hout) as (inp & Hin & [pre ->]).
        specialize (Hbound _ _ Hin). unfold Py.len in *.
        rewrite ?length_app, ?length_list_mul in *. lia.
      * apply Forall_fmap, Forall_lookup. intros i out Hout. simpl.
        apply Forall_app. split; [by apply int64_list_mul|by eapply Hout64].
    + intros i j row mask_row label_row x Hrow Hmask Hlabel Hx Hxv.
      rewrite list_lookup_fmap in Hrow, Hmask, Hlabel.
      destruct (inputs !! i) as [inp|] eqn:Hin; [|done].
      destruct (outputs !! i) as [out|] eqn:Hout; [|done].
      injection Hrow as <-; injection Hmask as <-; injection Hlabel as <-.
      destruct (Forall2_lookup_lr _ _ _ _ _ _ Hsuf Hout Hin) as [pre ->].
      eapply labels_row_left_aligned; eauto.
  - exists (map (fun array => array ++ Py.list_mul pad_token_id (m - Py.len array)) inputs),
      (map (fun array => Py.list_mul 1 (Py.len array) ++ Py.list_mul 0 (m - Py.len array))
         inputs),
      (map (fun '(array_in, array_out) =>
              Py.list_mul labels_mask_value (Py.len array_in - Py.len array_out)
              ++ array_out
              ++ Py.list_mul labels_mask_value (m - Py.len array_in))
         (base.zip inputs outputs)).
    split; [|split; [rewrite length_map, length_zip_with; lia|]].
    + apply pad_Ok_iff. eexists m, (Some _). split; [done|].
      split; [by unfold _pad_lists; rewrite Hm|].
      split; [by apply (padded_ids_int64 PaddingSide.right)|]. split; [|done]. split.
      * apply (rectangular_uniform _ (Z.to_nat m)).
        apply Forall_fmap, Forall_lookup. intros i [inp out] Hio. simpl.
        apply lookup_zip_Some in Hio as [Hin Hout].
        destruct (Forall2_lookup_lr _ _ _ _ _ _ Hsuf Hout Hin) as [pre ->].
        specialize (Hbound _ _ Hin). unfold Py.len in *.
        rewrite ?length_app, ?length_list_mul in *. rewrite ?length_app. lia.
      * apply Forall_fmap, Forall_lookup. intros i [inp out] Hio. simpl.
        apply lookup_zip_Some in Hio as [Hin Hout].
        repeat (apply Forall_app; split); try (by apply int64_list_mul).
        by eapply Hout64.
    + intros i j row mask_row label_row x Hrow Hmask Hlabel Hx Hxv.
      rewrite list_lookup_fmap in Hrow, Hmask.
      lazymatch type of Hlabel with
      | map ?f _ !! _ = _ => set (label_fn := f) in Hlabel
      end.
      rewrite list_lookup_fmap in Hlabel.
      destruct (inputs !! i) as [inp|] eqn:Hin; [|done].
      destruct (base.zip inputs outputs !! i) as [[inp' out]|] eqn:Hio; [|done].
      apply lookup_zip_Some in Hio as [Hin' Hout].
      assert (inp' = inp) as -> by congruence.
      injection Hrow as <-; injection Hmask as <-; injection Hlabel as <-.
      destruct (Forall2_lookup_lr _ _ _ _ _ _ Hsuf Hout Hin) as [pre ->].
      subst label_fn. eapply labels_row_right_aligned; eauto.
Qed.


(** X6.  Without outputs and not padding-free, [_pad] reads neither
    [loss_mask] nor [labels_mask_value], and the labels it returns are
    [None]. *)
Theorem pad_without_outputs_ignores_loss_mask
    (inputs : list (list Z)) (pad_token_id : Z) (padding_side : PaddingSide.t)
    (is_encoder_decoder : bool) (loss_mask loss_mask' : loss_mask_value)
    (labels_mask_value labels_mask_value' : Z) :
  _pad inputs None pad_token_id padding_side is_encoder_decoder loss_mask
    false labels_mask_value
  = _pad inputs None pad_token_id padding_side is_encoder_decoder loss_mask'
      false labels_mask_value' /\
  forall input_ids attention_mask labels,
    _pad inputs None pad_token_id padding_side is_encoder_decoder loss_mask
      false labels_mask_value
    = Py.Ok (input_ids, attention_mask, labels) ->
    labels = VNone.
Proof.
  split.
  - unfold _pad, _pad_lists.
    destruct is_encoder_decoder, (Py.max (map Py.len inputs)), padding_side; done.
  - intros input_ids attention_mask labels. unfold _pad, _pad_lists.
    destruct is_encoder_decoder, (Py.max (map Py.len inputs)) as [m|], padding_side;
      simpl; try done;
      repeat (destruct (torch_tensor _); simpl; try done); by intros [= _ _ <-].
Qed.

(** X7.  Decoder-only, not padding-free, outputs given: a loss mask that is
    no member of [LossMask] never returns; on a batch that is not empty the
    error is the [ValueError] naming the value, on either padding side. *)
Theorem pad_decoder_unknown_loss_mask
    (inputs outputs : list (list Z)) (pad_token_id : Z) (padding_side : PaddingSide.t)
    (shown : string) (labels_mask_value : Z) :
  Py.is_ok (_pad inputs (Some outputs) pad_token_id padding_side false
              (NotLossMask shown) false labels_mask_value) = false /\
  (inputs ≠ [] ->
   _pad inputs (Some outputs) pad_token_id padding_side false
     (NotLossMask shown) false labels_mask_value
   = Py.Raise (Py.Exn Py.ValueError (Some ("unexpected loss_mask (" +:+ shown +:+ ")")))).
Proof.
  split.
  - unfold _pad, _pad_lists.
    destruct (Py.max (map Py.len inputs)), padding_side; done.
  - intros Hne. unfold _pad, _pad_lists.
    destruct (max_nonempty (map Py.len inputs)) as [m ->]; [by destruct inputs|].
    by destruct padding_side.
Qed.

(** ** [prepare_batch] *)

(** With outputs, a call that returns has built labels. *)
Lemma pad_with_outputs_has_labels
    (inputs outputs : list (list Z)) (pad_token_id : Z) (padding_side : PaddingSide.t)
    (is_encoder_decoder : bool) (loss_mask : loss_mask_value) (packed : bool)
    (labels_mask_value : Z) input_ids attention_mask labels :
  _pad inputs (Some outputs) pad_token_id padding_side is_encoder_decoder loss_mask
    packed labels_mask_value
  = Py.Ok (input_ids, attention_mask, labels) ->
  exists rows, rows_of labels = Some rows.
Proof.
  unfold _pad.
  destruct (_pad_lists _ _ _ _ _ _ _ _) as [[[ids mask] lbls]|] eqn:Hl; [|done].
  assert (exists rows, lbls = Some rows) as [rows ->].
  { revert Hl. unfold _pad_lists.
    destruct is_encoder_decoder, packed, (Py.max (map Py.len inputs)), padding_side;
      simpl; try done;
      destruct (loss_mask_is loss_mask LossMask.output_only); simpl; try done;
      try (destruct (Py.max (map Py.len outputs)); simpl; [|done]);
      try (destruct (loss_mask_is loss_mask LossMask.no_mask); simpl; [|done]);
      intros [= _ _ <-]; eauto. }
  simpl. destruct packed; simpl.
  - intros [= _ _ <-]. eauto.
  - destruct (torch_tensor ids); [|done]. simpl.
    destruct (torch_tensor_opt mask); [|done]. simpl.
    destruct (torch_tensor rows) as [t|] eqn:Ht; [|done]. simpl.
    apply torch_tensor_Ok in Ht as [-> _]. intros [= _ _ <-]. eauto.
Qed.

(** A call that returns has input ids. *)
Lemma pad_has_input_ids
    (inputs : list (list Z)) (outputs : option (list (list Z))) (pad_token_id : Z)
    (padding_side : PaddingSide.t) (is_encoder_decoder : bool)
    (loss_mask : loss_mask_value) (packed : bool) (labels_mask_value : Z)
    input_ids attention_mask labels :
  _pad inputs outputs pad_token_id padding_side is_encoder_decoder loss_mask
    packed labels_mask_value
  = Py.Ok (input_ids, attention_mask, labels) ->
  exists rows, rows_of input_ids = Some rows.
Proof.
  unfold _pad.
  destruct (_pad_lists _ _ _ _ _ _ _ _) as [[[ids mask] lbls]|]; [|done]. simpl.
  destruct packed; simpl.
  - intros [= <- _ _]. eauto.
  - destruct (torch_tensor ids) as [t|] eqn:Ht; [|done]. simpl.
    apply torch_tensor_Ok in Ht as [-> _].
    destruct (torch_tensor_opt mask); [|done]. simpl.
    destruct lbls as [l|]; [destruct (torch_tensor l); [|done]|]; simpl;
      intros [= <- _ _]; eauto.
Qed.

(** X8.  A batch prepared by [prepare_batch] has the keys [input_ids] and
    [attention_mask], and [labels] exactly in training mode, where the
    labels are never [None]; [input_ids] is never [None]. *)
Theorem prepare_batch_keys
    (self : ModelWrapper) (inputs : list (list Z)) (outputs : option (list (list Z)))
    (batch : gmap string value) :
  prepare_batch self inputs outputs = Py.Ok batch ->
  (exists rows, rows_of <$> batch !! "input_ids" = Some (Some rows)) /\
  if Mode.eqb (mode self) Mode.training
  then dom batch = ({["input_ids"; "attention_mask"; "labels"]} : gset string) /\
       exists rows, rows_of <$> batch !! "labels" = Some (Some rows)
  else dom batch = ({["input_ids"; "attention_mask"]} : gset string).
Proof.
  unfold prepare_batch.
  destruct (Mode.eqb (mode self) Mode.training) eqn:Hmode; simpl.
  - destruct outputs as [outs|]; [|done]. simpl.
    destruct (_pad _ _ _ _ _ _ _ _) as [[[ids mask] lbls]|] eqn:Hpad; [|done]. simpl.
    intros [= <-].
    destruct (pad_with_outputs_has_labels _ _ _ _ _ _ _ _ _ _ _ Hpad) as [rows Hrows].
    split; [|split].
    + rewrite !lookup_insert_ne, lookup_insert_eq by done. simpl.
      destruct (pad_has_input_ids _ _ _ _ _ _ _ _ _ _ _ Hpad) as [ids_rows ->]. eauto.
    + rewrite !dom_insert_L, dom_empty_L. set_solver.
    + rewrite lookup_insert_eq. simpl. rewrite Hrows. eauto.
  - destruct (_pad _ _ _ _ _ _ _ _) as [[[ids mask] lbls]|] eqn:Hpad; [|done]. simpl.
    intros [= <-]. split.
    + rewrite lookup_insert_ne, lookup_insert_eq by done. simpl.
      destruct (pad_has_input_ids _ _ _ _ _ _ _ _ _ _ _ Hpad) as [ids_rows ->]. eauto.
    + rewrite !dom_insert_L, dom_empty_L. set_solver.
Qed.

(** X9.  [prepare_batch] in training mode fails by its assertion when the
    outputs are [None], whatever the inputs; in every other mode the outputs
    are not looked at. *)
Theorem prepare_batch_outputs
    (self : ModelWrapper) (inputs : list (list Z)) (outputs : option (list (list Z))) :
  (Mode.eqb (mode self) Mode.training = true ->
   prepare_batch self inputs None
   = Py.Raise (Py.Exn Py.AssertionError (Some "outputs can't be None during training"))) /\
  (Mode.eqb (mode self) Mode.training = false ->
   prepare_batch self inputs outputs = prepare_batch self inputs None).
Proof.
  split; intros Hmode; unfold prepare_batch; by rewrite Hmode.
Qed.


(** ** [generate] *)

Lemma count_not_eos_bounds (eos : Z) (row : list Z) :
  0 <= count_not_eos eos row <= Py.len row /\
  (count_not_eos eos row = Py.len row <-> eos ∉ row).
Proof.
  unfold Py.len. induction row as [|t row [IHb IHi]]; simpl.
  - split; [lia|]. split; [intros _; apply not_elem_of_nil|done].
  - rewrite not_elem_of_cons. destruct (Z.eqb_spec t eos) as [->|Hne].
    + split; [lia|]. split; [lia|]. intros [? _]. done.
    + split; [lia|]. split.
      * intros H. split; [congruence|]. apply IHi. lia.
      * intros [_ H]. apply IHi in H. lia.
Qed.

(** X10.  Each count of [generate] lies between 1 and the row length plus
    one, and reaches the row length plus one exactly when the row holds no
    end-of-sequence token. *)
Theorem num_generated_tokens_bounds (eos : Z) (generated : list (list Z)) :
  Forall2 (fun count row =>
             1 <= count <= Py.len row + 1 /\
             (count = Py.len row + 1 <-> eos ∉ row))
    (num_generated_tokens eos generated) generated.
Proof.
  unfold num_generated_tokens. apply Forall2_fmap_l, Forall_Forall2_diag, Forall_forall.
  intros row _. destruct (count_not_eos_bounds eos row) as [Hb Hi].
  split; [lia|]. rewrite <- Hi. lia.
Qed.

Lemma count_not_eos_app (eos : Z) (xs ys : list Z) :
  count_not_eos eos (xs ++ ys) = count_not_eos eos xs + count_not_eos eos ys.
Proof. induction xs as [|x xs IH]; simpl; lia. Qed.

Lemma count_not_eos_replicate (eos : Z) (k : nat) :
  count_not_eos eos (replicate k eos) = 0.
Proof. induction k as [|k IH]; simpl; [done|]. rewrite Z.eqb_refl. lia. Qed.

(** X11.  For a row made of tokens free of end-of-sequence followed by any
    number of end-of-sequence tokens, the count is the number of those
    tokens plus one: the tokens and one terminator when there is one, one
    too many when generation stopped without a terminator. *)
Theorem num_generated_tokens_eos_terminated
    (eos : Z) (rows : list (list Z * nat)) :
  Forall (fun r => eos ∉ r.1) rows ->
  num_generated_tokens eos (map (fun r => r.1 ++ replicate r.2 eos) rows)
  = map (fun r => Py.len r.1 + 1) rows.
Proof.
  intros Hrows. unfold num_generated_tokens. rewrite map_map.
  apply map_ext_Forall. eapply Forall_impl; [exact Hrows|].
  intros [tokens k] Hno. simpl in *.
  rewrite count_not_eos_app, count_not_eos_replicate.
  apply (count_not_eos_bounds eos tokens) in Hno. lia.
Qed.

Lemma drop_columns_echo (m : nat) (id_rows continuations : list (list Z)) :
  Forall (fun row => length row = m) id_rows ->
  length continuations = length id_rows ->
  drop_columns (Z.of_nat m) (zip_with app id_rows continuations) = continuations.
Proof.
  unfold drop_columns. rewrite Nat2Z.id. intros Hrows. revert continuations.
  induction Hrows as [|row id_rows Hrow _ IH]; intros [|c continuations] Hlen; try done.
  simpl in *. rewrite drop_app_length' by done. f_equal. apply IH. lia.
Qed.

(** X12.  Decoder-only generation outside training, on a non-empty batch
    of 64-bit token ids: if the model returns each padded input row
    followed by its continuation, [generate] decodes and counts the
    continuations alone. *)
Theorem generate_strips_echoed_inputs
    {GenerateKwargs : Type}
    (model_generate : gmap string value -> GenerateKwargs -> Z -> list (list Z))
    (batch_decode : list (list Z) -> list string)
    (self : ModelWrapper) (inputs : list (list Z)) (outputs : option (list (list Z)))
    (generate_kwargs : GenerateKwargs) (continuations : list (list Z)) :
  Mode.eqb (mode self) Mode.training = false ->
  use_padding_free_transformer self = false ->
  is_encoder_decoder self = false ->
  inputs ≠ [] ->
  Forall (Forall int64) inputs -> int64 (eos_token_id self) ->
  length continuations = length inputs ->
  (forall batch id_rows,
      prepare_batch self inputs outputs = Py.Ok batch ->
      batch !! "input_ids" = Some (VTensor id_rows) ->
      model_generate batch generate_kwargs (eos_token_id self)
      = zip_with app id_rows continuations) ->
  generate model_generate batch_decode self inputs outputs generate_kwargs
  = Py.Ok (batch_decode continuations,
           num_generated_tokens (eos_token_id self) continuations).
Proof.
  intros Hmode Hpacked Hdec Hne Hfits Heos Hlen Hecho.
  destruct (pad_no_outputs_returns inputs (eos_token_id self) (padding_side self)
              false (loss_mask self) labels_mask_value_default Hne Hfits Heos)
    as (m & Hm & Hids & Hpad).
  set (ids := padded_ids (padding_side self) (eos_token_id self) m inputs) in *.
  set (mask := padded_mask (padding_side self) m inputs) in *.
  assert (Hbatch : prepare_batch self inputs outputs
                   = Py.Ok (<["attention_mask" := VTensor mask]>
                              (<["input_ids" := VTensor ids]> ∅))).
  { unfold prepare_batch. rewrite Hmode, Hpacked, Hdec. simpl. by rewrite Hpad. }
  specialize (Hecho _ ids Hbatch).
  rewrite lookup_insert_ne, lookup_insert_eq in Hecho by done. specialize (Hecho eq_refl).
  unfold generate. rewrite Hpacked, Hbatch, Hdec. simpl.
  rewrite to_device_tensors. simpl.
  rewrite lookup_insert_ne, lookup_insert_eq by done.
  assert (Huniform : Forall (fun row => length row = Z.to_nat m) ids).
  { by apply padded_ids_uniform. }
  assert (0 <= m) as Hm0.
  { apply max_elem, list_elem_of_fmap in Hm as (a & -> & _). unfold Py.len. lia. }
  assert (length ids = length inputs) as Hlen_ids.
  { subst ids. by destruct (padding_side self); rewrite length_map. }
  clearbody ids mask.
  destruct ids as [|row ids]; [done|]. simpl.
  replace (Py.len row) with (Z.of_nat (Z.to_nat m))
    by (apply Forall_cons in Huniform as [<- _]; done).
  rewrite Hecho, drop_columns_echo; [done|done|lia].
Qed.


(** ** [get_model_tflops] *)

Lemma int_truediv_Ok (k n : Z) :
  n ≠ 0 -> Z.abs k < Float.overflow_threshold ->
  Float.int_truediv k n = Py.Ok (Float.div (Float.exact k) (Float.exact n)).
Proof.
  intros Hn Hk. unfold Float.int_truediv.
  rewrite (proj2 (Z.eqb_neq _ _) Hn).
  pose proof overflow_threshold_pos.
  destruct (Z.leb_spec (Float.overflow_threshold * Z.abs n) (Z.abs k)); [nia|done].
Qed.

Lemma int_truediv_Raise (k n : Z) (e : Py.exn) :
  Float.int_truediv k n = Py.Raise e ->
  e = Py.Exn Py.ZeroDivisionError None \/ e = Py.Exn Py.OverflowError None.
Proof.
  unfold Float.int_truediv. destruct (n =? 0); [intros [= <-]; by left|].
  destruct (_ <=? _); [intros [= <-]; by right|done].
Qed.

Lemma truediv_int_Ok (x : Float.t) (n : Z) :
  n ≠ 0 -> Z.abs n < Float.overflow_threshold ->
  Float.truediv_int x n
  = Py.Ok (Float.div x (SpecFloat.binary_normalize Float.prec Float.emax n 0 false)).
Proof.
  intros Hn Hfits. unfold Float.truediv_int. rewrite (of_int_Ok _ Hfits). simpl.
  by rewrite (proj2 (Z.eqb_neq _ _) Hn).
Qed.

Lemma truediv_int_Raise (x : Float.t) (n : Z) (e : Py.exn) :
  Float.truediv_int x n = Py.Raise e ->
  e = Py.Exn Py.ZeroDivisionError None \/ e = Py.Exn Py.OverflowError None.
Proof.
  unfold Float.truediv_int. destruct (Float.of_int n) as [y|e'] eqn:Hy; simpl.
  - destruct (n =? 0); [intros [= <-]; by left|done].
  - intros [= <-]. right. by eapply of_int_Raise.
Qed.

(** One conversion at the head of a computation that fails. *)
Ltac of_int_raises :=
  lazymatch goal with
  | |- (Float.of_int ?z ≫= _) = Py.Raise _ -> _ =>
      let H := fresh "H" in
      destruct (Float.of_int z) as [?|?] eqn:H; simpl;
      [|intros [= <-]; right; exact (of_int_Raise _ _ H)]
  end.

(** Every error of [model_tflops] is a division by zero or an overflow. *)
Lemma model_tflops_Raise (self : ModelWrapper) (b s : Z) (forward : Float.t) (e : Py.exn) :
  model_tflops self b s forward = Py.Raise e ->
  e = Py.Exn Py.ZeroDivisionError None \/ e = Py.Exn Py.OverflowError None.
Proof.
  unfold model_tflops. of_int_raises.
  destruct (match gradient_checkpointing_method self with
            | Some GradientCheckpointingMethod.block =>
                Float.truediv_int forward
                  (default 1 (gradient_checkpointing_args self !! "checkpoint_every"))
            | None => Py.Ok _
            end) as [backward|e'] eqn:Hb; simpl.
  2:{ intros [= <-]. destruct (gradient_checkpointing_method self) as [[]|]; [|done].
      by eapply truediv_int_Raise. }
  do 2 of_int_raises. apply truediv_int_Raise.
Qed.

Lemma attention_flops_Raise (self : ModelWrapper) (b s : Z) (e : Py.exn) :
  attention_flops self b s = Py.Raise e ->
  e = Py.Exn Py.ZeroDivisionError None \/ e = Py.Exn Py.OverflowError None.
Proof.
  unfold attention_flops.
  destruct (Float.int_truediv _ _) as [ratio|e'] eqn:Hr; simpl;
    [|intros [= <-]; by eapply int_truediv_Raise].
  repeat of_int_raises. done.
Qed.

(** X13.  [get_model_tflops] raises [ZeroDivisionError] whenever [n_head]
    is 0; it raises nothing but [ZeroDivisionError] and [OverflowError];
    and when every integer it converts to a float is below the overflow
    threshold of a double, it returns unless [n_head] is 0 or, under
    block-wise checkpointing, ["checkpoint_every"] is present and 0 (a
    missing ["checkpoint_every"] counts as 1), the error then being
    [ZeroDivisionError]. *)
Theorem get_model_tflops_returns
    (is_glu : string -> bool) (self : ModelWrapper) (batch_size sequence_length : Z) :
  let b := batch_size in
  let s := sequence_length in
  let h := n_embd (config self) in
  let k := num_key_value_heads (config self) in
  let l := n_layer (config self) in
  let v := vocab_size (config self) in
  (n_head (config self) = 0 ->
   get_model_tflops is_glu self b s = Py.Raise (Py.Exn Py.ZeroDivisionError None)) /\
  (forall e, get_model_tflops is_glu self b s = Py.Raise e ->
             e = Py.Exn Py.ZeroDivisionError None \/ e = Py.Exn Py.OverflowError None) /\
  (Forall (fun z => Z.abs z < Float.overflow_threshold)
     [k; h; s; 4 * b * s * h; mlp_flops is_glu self b s; l; 6 * b * s * h * v] ->
   (forall every, gradient_checkpointing_args self !! "checkpoint_every" = Some every ->
                  Z.abs every < Float.overflow_threshold) ->
   (Py.is_ok (get_model_tflops is_glu self b s) = true
    <-> n_head (config self) ≠ 0 /\
        (gradient_checkpointing_method self = Some GradientCheckpointingMethod.block ->
         forall every, gradient_checkpointing_args self !! "checkpoint_every" = Some every ->
                       every ≠ 0)) /\
   (forall e, get_model_tflops is_glu self b s = Py.Raise e ->
              e = Py.Exn Py.ZeroDivisionError None)).
Proof.
  intros b s h k l v. subst b s h k l v.
  split; [|split].
  - intros Hn. unfold get_model_tflops, forward_flops, attention_flops, Float.int_truediv.
    by rewrite Hn.
  - intros e. unfold get_model_tflops, forward_flops.
    destruct (attention_flops self batch_size sequence_length) as [attention|e'] eqn:Ha;
      simpl; [|intros [= <-]; by eapply attention_flops_Raise].
    destruct (Float.of_int _) as [mlp|e'] eqn:Hmlp; simpl;
      [|intros [= <-]; right; exact (of_int_Raise _ _ Hmlp)].
    apply model_tflops_Raise.
  - intros Hfits Hevery.
    apply Forall_cons in Hfits as [Hk Hfits]. apply Forall_cons in Hfits as [Hh Hfits].
    apply Forall_cons in Hfits as [Hs Hfits]. apply Forall_cons in Hfits as [Hbsh Hfits].
    apply Forall_cons in Hfits as [Hmlp Hfits]. apply Forall_cons in Hfits as [Hl Hfits].
    apply Forall_cons in Hfits as [Hv _].
    destruct (Z.eq_dec (n_head (config self)) 0) as [Hn|Hn].
    { unfold get_model_tflops, forward_flops, attention_flops, Float.int_truediv.
      rewrite Hn. simpl. split; [split; [done|by intros [? _]]|].
      by intros e [= <-]. }
    assert (Hforward : exists forward,
               forward_flops is_glu self batch_size sequence_length = Py.Ok forward).
    { unfold forward_flops, attention_flops.
      rewrite (int_truediv_Ok _ _ Hn Hk). simpl.
      rewrite ?(of_int_Ok 1) by reflexivity. simpl.
      rewrite (of_int_Ok _ Hh). simpl. rewrite (of_int_Ok _ Hs). simpl.
      rewrite (of_int_Ok _ Hbsh). simpl. rewrite (of_int_Ok _ Hmlp). simpl. eauto. }
    destruct Hforward as [forward Hforward].
    unfold get_model_tflops. rewrite Hforward. simpl. unfold model_tflops.
    rewrite ?(of_int_Ok 2) by reflexivity. simpl.
    assert (Htail : forall backward,
               (l' ← Float.of_int (n_layer (config self));
                output ← Float.of_int (6 * batch_size * sequence_length
                                       * n_embd (config self) * vocab_size (config self));
                Float.truediv_int
                  (Float.add (Float.mul l' (Float.add forward backward)) output)
                  (10 ^ 12))
               = Py.Ok (Float.div
                          (Float.add
                             (Float.mul
                                (SpecFloat.binary_normalize Float.prec Float.emax
                                   (n_layer (config self)) 0 false)
                                (Float.add forward backward))
                             (SpecFloat.binary_normalize Float.prec Float.emax
                                (6 * batch_size * sequence_length
                                 * n_embd (config self) * vocab_size (config self)) 0 false))
                          (SpecFloat.binary_normalize Float.prec Float.emax (10 ^ 12) 0 false))).
    { intros backward. rewrite (of_int_Ok _ Hl). simpl. rewrite (of_int_Ok _ Hv). simpl.
      by rewrite truediv_int_Ok by (done || reflexivity). }
    destruct (gradient_checkpointing_method self) as [[]|]; simpl.
    + destruct (gradient_checkpointing_args self !! "checkpoint_every") as [every|] eqn:He;
        simpl.
      * destruct (Z.eq_dec every 0) as [->|Hne].
        -- unfold Float.truediv_int. rewrite (of_int_Ok 0) by reflexivity. simpl.
           split; [split; [done|]|by intros e [= <-]].
           intros [_ H]. by specialize (H eq_refl 0 eq_refl).
        -- rewrite (truediv_int_Ok _ _ Hne (Hevery _ eq_refl)). simpl. rewrite Htail.
           split; [|done]. split; [|done]. intros _. split; [done|]. by intros _ ? [= <-].
      * rewrite Htail.
        split; [|done]. split; [|done]. intros _. split; [done|]. by intros _ ? [=].
    + rewrite Htail. split; [|done]. split; [|done]. intros _. split; [done|]. by intros [=].
Qed.

(** ** [track_val_metrics] *)

Lemma group_prefix_inj (group_name : string) :
  Inj (=) (=) (fun key : string => group_name +:+ "-" +:+ key).
Proof. intros k1 k2 H. by do 2 apply (inj (String.append _)) in H. Qed.

Lemma track_val_message_kmap {Value : Type} (global_step : Z)
    (metrics_tracker : gmap string Value) (group_name : string) :
  (track_val_metrics global_step metrics_tracker (Some group_name)).1.1
  = kmap (M2 := gmap string) (fun key => group_name +:+ "-" +:+ key) metrics_tracker.
Proof.
  pose proof (group_prefix_inj group_name) as Hinj.
  unfold track_val_metrics. simpl.
  apply (map_fold_weak_ind
           (fun (message : gmap string Value) m =>
              message = kmap (M2 := gmap string)
                          (fun key => group_name +:+ "-" +:+ key) m)).
  - by rewrite kmap_empty.
  - intros key value m message _ ->. by rewrite kmap_insert.
Qed.

(** X14.  With a group name, [track_val_metrics] tracks each metric under
    the key [group_name-key] with its value, tracks nothing else, and keeps
    the number of entries; the step is [global_step] and the context
    ["val"]. *)
Theorem track_val_metrics_group_keys {Value : Type} (global_step : Z)
    (metrics_tracker : gmap string Value) (group_name : string) :
  let '(message, step, context) :=
    track_val_metrics global_step metrics_tracker (Some group_name) in
  step = global_step /\ context = "val" /\
  (forall key, message !! (group_name +:+ "-" +:+ key) = metrics_tracker !! key) /\
  (forall name value, message !! name = Some value ->
     exists key, name = group_name +:+ "-" +:+ key /\ metrics_tracker !! key = Some value) /\
  size message = size metrics_tracker.
Proof.
  pose proof (group_prefix_inj group_name) as Hinj.
  pose proof (track_val_message_kmap global_step metrics_tracker group_name) as Hmsg.
  destruct (track_val_metrics global_step metrics_tracker (Some group_name))
    as [[message step] context] eqn:Htrack.
  simpl in Hmsg. subst message.
  unfold track_val_metrics in Htrack. injection Htrack as _ <- <-.
  split; [done|]. split; [done|]. split; [|split].
  - intros key.
    exact (lookup_kmap (fun key => group_name +:+ "-" +:+ key) metrics_tracker key).
  - intros name value Hname. apply lookup_kmap_Some in Hname as (key & -> & Hkey); eauto.
  - rewrite <- !length_map_to_list, map_to_list_kmap by done. apply length_fmap.
Qed.


(** ** [evaluate] *)

Local Abbreviation is_forward :=
  (fun e : event => match e with ModelForward _ => true | _ => false end).
Local Abbreviation is_all_reduce :=
  (fun e : event => match e with AllReduceMetrics => true | _ => false end).
Local Abbreviation is_mode_switch :=
  (fun e : event => match e with ModelEval | ModelTrain => true | _ => false end).

Lemma evaluate_steps_counts {DataLoader : Type} (n : nat) (val_dataloader : DataLoader) :
  let steps := mjoin (replicate n [GetNextBatch val_dataloader; ModelForward val_dataloader]) in
  length (List.filter is_forward steps) = n /\
  List.filter is_all_reduce steps = [] /\
  List.filter is_mode_switch steps = [].
Proof.
  induction n as [|n (IH1 & IH2 & IH3)]; [done|]. simpl in *.
  rewrite IH1, IH2, IH3. done.
Qed.

Lemma evaluate_group_counts {DataLoader : Type} (global_step eval_steps : Z)
    (group : option string * DataLoader) :
  length (List.filter is_forward (evaluate_group global_step eval_steps group))
  = Z.to_nat eval_steps /\
  length (List.filter is_all_reduce (evaluate_group global_step eval_steps group)) = 1%nat /\
  List.filter is_mode_switch (evaluate_group global_step eval_steps group) = [].
Proof.
  destruct group as [name dl]. unfold evaluate_group.
  destruct (evaluate_steps_counts (Z.to_nat eval_steps) dl) as (H1 & H2 & H3).
  rewrite !List.filter_app, !length_app, H1, H2, H3. simpl. split; [lia|done].
Qed.

Lemma evaluate_groups_counts {DataLoader : Type} (global_step eval_steps : Z)
    (groups : list (option string * DataLoader)) :
  let body := mjoin (map (evaluate_group global_step eval_steps) groups) in
  length (List.filter is_forward body) = (Z.to_nat eval_steps * length groups)%nat /\
  length (List.filter is_all_reduce body) = length groups /\
  List.filter is_mode_switch body = [].
Proof.
  induction groups as [|group groups (IH1 & IH2 & IH3)]; simpl; [done|].
  destruct (evaluate_group_counts global_step eval_steps group) as (H1 & H2 & H3).
  rewrite !List.filter_app, !length_app. rewrite H1, H2, H3, IH1, IH2, IH3.
  split; [lia|]. split; [lia|done].
Qed.

(** X15.  When [evaluate] returns a tracker, the validation dataloaders
    were given, it ran [eval_steps] forward passes and one all-reduce for
    each of the [min(len(group_names), len(val_dataloaders))] groups,
    switched to evaluation mode once and back to training mode last, and
    the tracker is that of the last group. *)
Theorem evaluate_runs_every_group
    {DataLoader : Type} (pg : ProcessGroup) (val_dataloaders : option (list DataLoader))
    (global_step eval_steps : Z) (group_names : list (option string))
    (trace : list event) (group_name : option string) :
  evaluate pg val_dataloaders global_step eval_steps group_names
  = (trace, Py.Ok (ReturnMetrics group_name)) ->
  exists dataloaders (groups : nat),
    val_dataloaders = Some dataloaders /\
    groups = Nat.min (length group_names) (length dataloaders) /\
    (0 < groups)%nat /\
    group_names !! (groups - 1)%nat = Some group_name /\
    length (List.filter is_forward trace) = (Z.to_nat eval_steps * groups)%nat /\
    length (List.filter is_all_reduce trace) = groups /\
    List.filter is_mode_switch trace = [ModelEval; ModelTrain] /\
    last trace = Some ModelTrain.
Proof.
  unfold evaluate.
  set (decision := if 1 <? tensor_parallel_world_size pg then _ else _).
  destruct decision as [trace0 flag] eqn:Hd.
  assert (Htrace0 : trace0 = [] \/ trace0 = [BroadcastObject]).
  { subst decision. destruct (1 <? _); injection Hd as <- _; auto. }
  destruct (truthy flag); [done|].
  destruct val_dataloaders as [dls|]; [|done].
  destruct (last (base.zip group_names dls)) as [[name dl]|] eqn:Hlast; [|done].
  intros [= <- <-]. exists dls, (Nat.min (length group_names) (length dls)).
  destruct (evaluate_groups_counts global_step eval_steps (base.zip group_names dls))
    as (H1 & H2 & H3).
  assert (Hlen : length (base.zip group_names dls)
                 = Nat.min (length group_names) (length dls)).
  { apply length_zip_with. }
  rewrite last_lookup in Hlast. pose proof (lookup_lt_Some _ _ _ Hlast) as Hlt.
  apply lookup_zip_Some in Hlast as [Hname _].
  split; [done|]. split; [done|]. split; [lia|].
  split; [by rewrite <- Hlen, Nat.sub_1_r|].
  destruct Htrace0 as [-> | ->]; simpl;
    rewrite !List.filter_app, ?length_app, H1, H2, H3, Hlen; simpl;
    (split; [lia|]); (split; [lia|]); (split; [done|]);
    rewrite ?app_comm_cons, ?app_assoc; apply last_snoc.
Qed.

(** X16.  The outcomes of [evaluate]: returning [None] it switched no
    mode; returning a tracker it ended in training mode; it raises
    [TypeError] only when the dataloaders are [None] although the broadcast
    said to run, leaving the model in evaluation mode; it raises
    [UnboundLocalError] only when there is no group to run, after switching
    back to training mode and without any forward pass. *)
Theorem evaluate_outcomes
    {DataLoader : Type} (pg : ProcessGroup) (val_dataloaders : option (list DataLoader))
    (global_step eval_steps : Z) (group_names : list (option string)) :
  let '(trace, outcome) :=
    evaluate pg val_dataloaders global_step eval_steps group_names in
  match outcome with
  | Py.Ok ReturnNone => List.filter is_mode_switch trace = []
  | Py.Ok (ReturnMetrics _) => last trace = Some ModelTrain
  | Py.Raise e =>
      (Py.exn_cls e = Py.TypeError /\ val_dataloaders = None /\
       last trace = Some ModelEval) \/
      (Py.exn_cls e = Py.UnboundLocalError /\
       (group_names = [] \/ val_dataloaders = Some []) /\
       List.filter is_mode_switch trace = [ModelEval; ModelTrain] /\
       List.filter is_forward trace = [])
  end.
Proof.
  unfold evaluate.
  set (decision := if 1 <? tensor_parallel_world_size pg then _ else _).
  destruct decision as [trace0 flag] eqn:Hd.
  assert (Htrace0 : trace0 = [] \/ trace0 = [BroadcastObject]).
  { subst decision. destruct (1 <? _); injection Hd as <- _; auto. }
  destruct (truthy flag).
  { by destruct Htrace0 as [-> | ->]. }
  destruct val_dataloaders as [dls|].
  2:{ left. split; [done|]. split; [done|]. apply last_snoc. }
  destruct (last (base.zip group_names dls)) as [[name dl]|] eqn:Hlast.
  - rewrite ?app_comm_cons, !app_assoc. apply last_snoc.
  - right. split; [done|].
    apply last_None in Hlast.
    assert (group_names = [] \/ dls = []) as Hempty.
    { destruct group_names, dls; auto. done. }
    split; [destruct Hempty as [-> | ->]; auto|].
    rewrite Hlast. by destruct Htrace0 as [-> | ->].
Qed.

(** The ranks of a tensor-parallel group enter evaluation mode together. *)
Lemma evaluate_enters_eval_mode
    {DataLoader : Type} (pg : ProcessGroup) (val_dataloaders : option (list DataLoader))
    (global_step eval_steps : Z) (group_names : list (option string)) (decision : bool) :
  (if 1 <? tensor_parallel_world_size pg
   then broadcast_object pg
          (if tensor_parallel_rank pg =? 0
           then Some (none_or_empty val_dataloaders) else None)
   else Some (none_or_empty val_dataloaders)) = Some decision ->
  ModelEval ∈ (evaluate pg val_dataloaders global_step eval_steps group_names).1
  <-> decision = false.
Proof.
  intros Hdec. unfold evaluate.
  destruct (1 <? tensor_parallel_world_size pg); rewrite Hdec; simpl;
    (destruct decision; simpl;
     [split; [|done]; intros Hin;
      repeat (apply elem_of_cons in Hin as [Hin|Hin]; [done|]); by apply elem_of_nil in Hin
     |split; [done|]; intros _;
      destruct val_dataloaders as [dls|]; simpl;
      [destruct (last _) as [[? ?]|]; simpl|]; set_solver]).
Qed.

(** X17.  In a tensor-parallel group every rank enters evaluation mode
    exactly when the first rank has validation data, whatever the other
    ranks hold: no rank skips while another one runs. *)
Theorem evaluate_tensor_parallel_group_agrees
    {DataLoader : Type} (first : option (list DataLoader))
    (others : list (option (list DataLoader)))
    (global_step eval_steps : Z) (group_names : list (option string)) :
  Forall (fun outcome => ModelEval ∈ outcome.1 <-> none_or_empty first = false)
    (evaluate_tensor_parallel_group (first :: others) global_step eval_steps group_names).
Proof.
  apply Forall_lookup. intros i outcome. unfold evaluate_tensor_parallel_group.
  rewrite list_lookup_imap. destruct ((first :: others) !! i) as [dls|] eqn:Hi; [|done].
  simpl. intros [= <-]. apply evaluate_enters_eval_mode. simpl.
  unfold broadcast_object. simpl.
  destruct (Z.ltb_spec 1 (Py.len (first :: others))) as [Hlt|Hle].
  - destruct (Z.eqb_spec (Z.of_nat i) 0) as [Hz|Hnz]; [|done].
    assert (i = 0%nat) as -> by lia. by injection Hi as <-.
  - destruct others; [|unfold Py.len in Hle; simpl in Hle; lia].
    destruct i; [|done]. by injection Hi as <-.
Qed.


(** ** [train] *)

Local Abbreviation step_of :=
  (fun e : train_event => match e with TrainStep g => Some g | _ => None end).
Local Abbreviation checkpoint_of :=
  (fun e : train_event => match e with SaveCheckpoint g md => Some (g, md) | _ => None end).

Lemma traced_bind_trace {DataLoader A B : Type}
    (m : traced (DataLoader := DataLoader) A) (k : A -> traced B) :
  (traced_bind m k).1
  = m.1 ++ match m.2 with Py.Ok a => (k a).1 | Py.Raise _ => [] end.
Proof.
  destruct m as [events [a|e]]; simpl; [|by rewrite app_nil_r].
  by destruct (k a).
Qed.

Lemma traced_bind_outcome {DataLoader A B : Type}
    (m : traced (DataLoader := DataLoader) A) (k : A -> traced B) :
  (traced_bind m k).2
  = match m.2 with Py.Ok a => (k a).2 | Py.Raise e => Py.Raise e end.
Proof. destruct m as [events [a|e]]; simpl; [|done]. by destruct (k a). Qed.

Lemma call_evaluate_trace {DataLoader : Type} (pg : ProcessGroup)
    (dataloaders : option (list DataLoader)) (global_step eval_steps : Z)
    (group_names : list (option string)) :
  exists events, (call_evaluate pg dataloaders global_step eval_steps group_names).1
                 = map InEvaluate events.
Proof. unfold call_evaluate. destruct (evaluate _ _ _ _ _) as [events r]. by exists events. Qed.

Lemma omap_in_evaluate {DataLoader B : Type} (f : train_event -> option B)
    (events : list (@event DataLoader)) :
  (forall e, f (InEvaluate e) = None) -> omap f (map InEvaluate events) = [].
Proof. intros Hf. induction events as [|e events IH]; simpl; [done|]. by rewrite Hf. Qed.

(** [train_iteration], branch by branch. *)
Lemma train_iteration_unfold {DataLoader : Type} (args : TrainArgs) (torch_profiler : bool)
    (pg : ProcessGroup) (val_dataloaders : option (list DataLoader))
    (dp_world_size : Z) (group_names : list (option string)) (global_step : Z) :
  train_iteration args torch_profiler pg val_dataloaders dp_world_size group_names global_step
  = let head := TrainStep global_step :: (if torch_profiler then [ProfilerStep] else []) in
    if log_interval args =? 0 then (head, Py.Raise (Py.Exn Py.ZeroDivisionError None))
    else
      let track := if global_step `mod` log_interval args =? 0
                   then [TrackMetrics global_step] else [] in
      let eval : traced unit :=
        if eval_during_training args then
          if eval_interval args =? 0
          then ([], Py.Raise (Py.Exn Py.ZeroDivisionError None))
          else if (global_step `mod` eval_interval args =? 0)
                  || (global_step =? num_training_steps args)
               then call_evaluate pg val_dataloaders global_step (eval_steps args)
                      group_names
               else ([], Py.Ok tt)
        else ([], Py.Ok tt) in
      match eval.2 with
      | Py.Raise e => (head ++ track ++ eval.1, Py.Raise e)
      | Py.Ok _ =>
          if save_interval args =? 0
          then (head ++ track ++ eval.1, Py.Raise (Py.Exn Py.ZeroDivisionError None))
          else (head ++ track ++ eval.1
                ++ (if (global_step `mod` save_interval args =? 0)
                       || (global_step =? num_training_steps args)
                    then [SaveCheckpoint global_step
                            {[ "consumed_samples" :=
                                 global_step * micro_batch_size args
                                 * gradient_accumulation_steps args * dp_world_size ]}]
                    else []),
                Py.Ok tt)
      end.
Proof.
  unfold train_iteration, traced_bind, emit, modulo. cbv zeta.
  destruct (log_interval args =? 0); [by rewrite app_nil_r|].
  destruct (eval_during_training args).
  - destruct (eval_interval args =? 0).
    { simpl. by rewrite !app_nil_r. }
    destruct (_ || _).
    + destruct (call_evaluate _ _ _ _ _) as [events [[]|e]]; simpl.
      * destruct (save_interval args =? 0); [by rewrite !app_nil_r|].
        by destruct (_ || _).
      * done.
    + simpl. destruct (save_interval args =? 0); [by rewrite !app_nil_r|].
      by destruct (_ || _).
  - simpl. destruct (save_interval args =? 0); [by rewrite !app_nil_r|].
    by destruct (_ || _).
Qed.

(** What one iteration does, whatever its outcome. *)
Lemma train_iteration_trace {DataLoader : Type} (args : TrainArgs) (torch_profiler : bool)
    (pg : ProcessGroup) (val_dataloaders : option (list DataLoader))
    (dp_world_size : Z) (group_names : list (option string)) (global_step : Z) :
  let iteration := train_iteration args torch_profiler pg val_dataloaders dp_world_size
                     group_names global_step in
  let saved := (global_step,
                ({[ "consumed_samples" :=
                      global_step * micro_batch_size args
                      * gradient_accumulation_steps args * dp_world_size ]}
                 : gmap string Z)) in
  omap step_of iteration.1 = [global_step] /\
  (ProfilerExit ∉ iteration.1) /\
  match iteration.2 with
  | Py.Ok _ =>
      log_interval args ≠ 0 /\ save_interval args ≠ 0 /\
      (eval_during_training args = true -> eval_interval args ≠ 0) /\
      omap checkpoint_of iteration.1
      = if decide (global_step `mod` save_interval args = 0
                   \/ global_step = num_training_steps args)
        then [saved] else []
  | Py.Raise _ => omap checkpoint_of iteration.1 = []
  end.
Proof.
  cbv zeta. rewrite train_iteration_unfold. cbv zeta.
  assert (Hprof : forall B (f : train_event (DataLoader := DataLoader) -> option B),
             f ProfilerStep = None ->
             omap f (if torch_profiler then [ProfilerStep] else []) = []).
  { intros B f Hf. destruct torch_profiler; simpl; [by rewrite Hf|done]. }
  assert (Hprof' : ProfilerExit (DataLoader := DataLoader)
                   ∉ (if torch_profiler then [ProfilerStep] else [])).
  { destruct torch_profiler; [|apply not_elem_of_nil].
    rewrite not_elem_of_cons. split; [done|apply not_elem_of_nil]. }
  destruct (Z.eqb_spec (log_interval args) 0) as [Hlog|Hlog].
  { simpl. rewrite !Hprof by done. split; [done|]. split; [|done].
    by rewrite not_elem_of_cons. }
  set (track := if global_step `mod` log_interval args =? 0 then _ else _).
  assert (Htrack : forall B (f : train_event (DataLoader := DataLoader) -> option B),
             (forall g, f (TrackMetrics g) = None) -> omap f track = []).
  { intros B f Hf. subst track. destruct (_ =? 0); simpl; [by rewrite Hf|done]. }
  assert (Htrack' : ProfilerExit (DataLoader := DataLoader) ∉ track).
  { subst track. destruct (_ =? 0); [|apply not_elem_of_nil].
    rewrite not_elem_of_cons. split; [done|apply not_elem_of_nil]. }
  set (eval := if eval_during_training args then _ else _).
  assert (Heval : exists events,
             eval.1 = map InEvaluate events /\
             (eval_during_training args = true -> Py.is_ok eval.2 = true ->
              eval_interval args ≠ 0)).
  { subst eval. destruct (eval_during_training args); [|by exists []].
    destruct (Z.eqb_spec (eval_interval args) 0) as [Hz|Hz]; [by exists []|].
    destruct (_ || _); [|by exists []].
    destruct (call_evaluate_trace pg val_dataloaders global_step (eval_steps args)
                group_names) as [events Hev].
    by exists events. }
  destruct Heval as (events & Hevents & Hinterval). rewrite Hevents.
  assert (Heval' : ProfilerExit (DataLoader := DataLoader) ∉ map InEvaluate events).
  { rewrite list_elem_of_fmap. by intros (? & ? & _). }
  destruct eval.2 as [[]|e] eqn:Hevalr.
  2:{ simpl. rewrite !omap_app, !Hprof, !Htrack, !omap_in_evaluate by done.
      split; [done|]. split; [|done].
      rewrite not_elem_of_cons, !not_elem_of_app. done. }
  destruct (Z.eqb_spec (save_interval args) 0) as [Hsave|Hsave].
  { simpl. rewrite !omap_app, !Hprof, !Htrack, !omap_in_evaluate by done.
    split; [done|]. split; [|done].
    rewrite not_elem_of_cons, !not_elem_of_app. done. }
  set (save := if (global_step `mod` save_interval args =? 0)
                   || (global_step =? num_training_steps args) then _ else _).
  assert (Hsave_steps : omap step_of save = []).
  { subst save.
    by destruct ((global_step `mod` save_interval args =? 0)
                 || (global_step =? num_training_steps args)). }
  assert (Hsave' : ProfilerExit (DataLoader := DataLoader) ∉ save).
  { subst save.
    destruct ((global_step `mod` save_interval args =? 0)
              || (global_step =? num_training_steps args)); [|apply not_elem_of_nil].
    rewrite not_elem_of_cons. split; [done|apply not_elem_of_nil]. }
  simpl. rewrite !omap_app, !Hprof, !Htrack, !omap_in_evaluate, Hsave_steps by done.
  simpl. split; [done|]. split.
  { rewrite not_elem_of_cons, !not_elem_of_app. done. }
  split; [done|]. split; [done|]. split; [by auto|].
  subst save.
  destruct (Z.eqb_spec (global_step `mod` save_interval args) 0) as [H0|H0];
    destruct (Z.eqb_spec global_step (num_training_steps args)) as [Hn|Hn]; simpl;
    (rewrite decide_True by auto) || (rewrite decide_False by (intros [?|?]; done));
    done.
Qed.


Local Abbreviation saved_at args dp_world_size :=
  (fun global_step : Z =>
     (global_step,
      ({[ "consumed_samples" :=
            global_step * micro_batch_size args
            * gradient_accumulation_steps args * dp_world_size ]} : gmap string Z))).

(** What the loop does over the steps it is given. *)
Lemma train_loop_trace {DataLoader : Type} (args : TrainArgs) (torch_profiler : bool)
    (pg : ProcessGroup) (val_dataloaders : option (list DataLoader))
    (dp_world_size : Z) (group_names : list (option string))
    (global_step : Z) (steps : list Z) :
  let loop := train_loop (train_iteration args torch_profiler pg val_dataloaders
                            dp_world_size group_names) global_step steps in
  (ProfilerExit ∉ loop.1) /\
  omap step_of loop.1 `prefix_of` steps /\
  Forall (fun c => c = saved_at args dp_world_size c.1) (omap checkpoint_of loop.1) /\
  match loop.2 with
  | Py.Ok last_step =>
      last_step = default global_step (last steps) /\
      omap step_of loop.1 = steps /\
      omap checkpoint_of loop.1
      = map (saved_at args dp_world_size)
          (filter (fun g => g `mod` save_interval args = 0 \/ g = num_training_steps args)
             steps) /\
      (steps ≠ [] ->
       log_interval args ≠ 0 /\ save_interval args ≠ 0 /\
       (eval_during_training args = true -> eval_interval args ≠ 0))
  | Py.Raise _ => True
  end.
Proof.
  revert global_step. induction steps as [|step steps IH]; intros global_step; simpl.
  { split; [apply not_elem_of_nil|]. split; [done|]. split; [done|]. done. }
  rewrite traced_bind_trace, traced_bind_outcome.
  destruct (train_iteration_trace args torch_profiler pg val_dataloaders dp_world_size
              group_names step) as (Hstep & Hexit & Hiter).
  destruct (train_iteration _ _ _ _ _ _ _).2 as [[]|e] eqn:Hres.
  - destruct Hiter as (Hlog & Hsave & Heval & Hckpt).
    destruct (IH step) as (Hexit' & Hprefix & Hall & Hrest).
    rewrite !omap_app, Hstep, Hckpt. split; [|split; [|split]].
    + rewrite not_elem_of_app. done.
    + by apply prefix_cons.
    + apply Forall_app. split; [|done]. by destruct (decide _); repeat constructor.
    + destruct (train_loop _ _ _).2 as [last_step|]; [|done].
      destruct Hrest as (-> & -> & -> & _).
      split; [rewrite last_cons; by destruct (last steps)|]. split; [done|]. split; [|done].
      rewrite filter_cons. by destruct (decide _).
  - rewrite app_nil_r, Hstep, Hiter. split; [done|]. split; [|done].
    apply prefix_cons, prefix_nil.
Qed.

Lemma omap_call_evaluate {DataLoader B : Type} (f : train_event -> option B)
    (pg : ProcessGroup) (dataloaders : option (list DataLoader))
    (global_step eval_steps : Z) (group_names : list (option string)) :
  (forall e, f (InEvaluate e) = None) ->
  omap f (call_evaluate pg dataloaders global_step eval_steps group_names).1 = [].
Proof.
  intros Hf. destruct (call_evaluate_trace pg dataloaders global_step eval_steps group_names)
    as [events ->]. by apply omap_in_evaluate.
Qed.

(** [train], piece by piece. *)
Lemma train_unfold {DataLoader : Type} (args : TrainArgs) (torch_profiler : bool)
    (pg_val pg_test : ProcessGroup)
    (val_dataloaders test_dataloaders : option (list DataLoader))
    (dp_world_size : Z) (group_names : list (option string)) (starting_iteration : Z) :
  let before : traced unit :=
    if eval_during_training args
    then call_evaluate pg_val val_dataloaders starting_iteration (eval_steps args) group_names
    else ([], Py.Ok tt) in
  let enter := if torch_profiler then [ProfilerEnter] else [] in
  let loop := train_loop (train_iteration args torch_profiler pg_val val_dataloaders
                            dp_world_size group_names)
                starting_iteration
                (seqZ (starting_iteration + 1)
                   (num_training_steps args - starting_iteration)) in
  train args torch_profiler pg_val pg_test val_dataloaders test_dataloaders
    dp_world_size group_names starting_iteration
  = match before.2 with
    | Py.Raise e => (TrainMode :: before.1, Py.Raise e)
    | Py.Ok _ =>
        match loop.2 with
        | Py.Raise e => (TrainMode :: before.1 ++ enter ++ loop.1, Py.Raise e)
        | Py.Ok global_step =>
            let after : traced unit :=
              if eval_during_training args
              then call_evaluate pg_test test_dataloaders global_step (eval_steps args)
                     group_names
              else ([], Py.Ok tt) in
            match after.2 with
            | Py.Raise e =>
                (TrainMode :: before.1 ++ enter ++ loop.1 ++ after.1, Py.Raise e)
            | Py.Ok _ =>
                (TrainMode :: before.1 ++ enter ++ loop.1 ++ after.1
                 ++ (if torch_profiler then [ProfilerExit] else []), Py.Ok tt)
            end
        end
    end.
Proof.
  cbv zeta. unfold train, emit. unfold traced_bind at 1 2. simpl.
  destruct (if eval_during_training args then _ else _) as [events1 [[]|e]] eqn:Hbefore;
    simpl; [|done].
  unfold traced_bind at 1 2. simpl.
  destruct (train_loop _ _ _) as [events2 [global_step|e]]; simpl; [|done].
  unfold traced_bind.
  destruct (if eval_during_training args
            then call_evaluate pg_test _ _ _ _ else _) as [events3 [[]|e]]; simpl; done.
Qed.


Lemma optional_evaluate_trace {DataLoader : Type} (enabled : bool) (pg : ProcessGroup)
    (dataloaders : option (list DataLoader)) (global_step eval_steps : Z)
    (group_names : list (option string)) :
  exists events,
    (if enabled
     then call_evaluate pg dataloaders global_step eval_steps group_names
     else ([], Py.Ok tt)).1 = map InEvaluate events.
Proof. destruct enabled; [apply call_evaluate_trace|by exists []]. Qed.

(** What a run of [train] does. *)
Lemma train_trace {DataLoader : Type} (args : TrainArgs) (torch_profiler : bool)
    (pg_val pg_test : ProcessGroup)
    (val_dataloaders test_dataloaders : option (list DataLoader))
    (dp_world_size : Z) (group_names : list (option string)) (starting_iteration : Z) :
  let run := train args torch_profiler pg_val pg_test val_dataloaders test_dataloaders
               dp_world_size group_names starting_iteration in
  let steps := seqZ (starting_iteration + 1)
                 (num_training_steps args - starting_iteration) in
  omap step_of run.1 `prefix_of` steps /\
  Forall (fun c => c = saved_at args dp_world_size c.1) (omap checkpoint_of run.1) /\
  match run.2 with
  | Py.Ok _ =>
      omap step_of run.1 = steps /\
      omap checkpoint_of run.1
      = map (saved_at args dp_world_size)
          (filter (fun g => g `mod` save_interval args = 0 \/ g = num_training_steps args)
             steps) /\
      (steps ≠ [] ->
       log_interval args ≠ 0 /\ save_interval args ≠ 0 /\
       (eval_during_training args = true -> eval_interval args ≠ 0)) /\
      (torch_profiler = true -> last run.1 = Some ProfilerExit)
  | Py.Raise _ => ProfilerExit ∉ run.1
  end.
Proof.
  cbv zeta. rewrite train_unfold. cbv zeta.
  destruct (optional_evaluate_trace (eval_during_training args) pg_val val_dataloaders
              starting_iteration (eval_steps args) group_names) as [events1 Hbefore].
  destruct (train_loop_trace args torch_profiler pg_val val_dataloaders dp_world_size
              group_names starting_iteration
              (seqZ (starting_iteration + 1) (num_training_steps args - starting_iteration)))
    as (Hexit & Hprefix & Hall & Hloop).
  destruct (train_loop _ _ _) as [loop_events loop_outcome].
  simpl in Hexit, Hprefix, Hall, Hloop.
  destruct (if eval_during_training args
            then call_evaluate pg_val _ _ _ _ else _)
    as [before_events before_outcome] eqn:Ebefore.
  assert (before_events = map InEvaluate events1) as ->
      by (etrans; [exact (eq_sym (f_equal fst Ebefore))|exact Hbefore]).
  clear Ebefore Hbefore. simpl.
  assert (Henter : forall B (f : train_event (DataLoader := DataLoader) -> option B),
             f ProfilerEnter = None ->
             omap f (if torch_profiler then [ProfilerEnter] else []) = []).
  { intros B f Hf. destruct torch_profiler; simpl; [by rewrite Hf|done]. }
  assert (Henter' : ProfilerExit (DataLoader := DataLoader)
                    ∉ (if torch_profiler then [ProfilerEnter] else [])).
  { destruct torch_profiler; [|apply not_elem_of_nil].
    rewrite not_elem_of_cons. split; [done|apply not_elem_of_nil]. }
  assert (Hin_eval : forall events : list (@event DataLoader),
             ProfilerExit ∉ map InEvaluate events).
  { intros events. rewrite list_elem_of_fmap. by intros (? & ? & _). }
  destruct before_outcome as [[]|e1].
  2:{ simpl. rewrite !omap_in_evaluate by done.
      split; [apply prefix_nil|]. split; [done|].
      rewrite not_elem_of_cons. done. }
  destruct loop_outcome as [global_step|e2].
  2:{ simpl. rewrite !omap_app, !omap_in_evaluate, !Henter by done. simpl.
      split; [done|]. split; [done|].
      rewrite not_elem_of_cons, !not_elem_of_app. done. }
  destruct Hloop as (_ & Hsteps & Hckpt & Hintervals).
  destruct (optional_evaluate_trace (eval_during_training args) pg_test test_dataloaders
              global_step (eval_steps args) group_names) as [events3 Hafter].
  destruct (if eval_during_training args
            then call_evaluate pg_test _ _ _ _ else _)
    as [after_events after_outcome] eqn:Eafter.
  assert (after_events = map InEvaluate events3) as ->
      by (etrans; [exact (eq_sym (f_equal fst Eafter))|exact Hafter]).
  clear Eafter Hafter. simpl.
  destruct after_outcome as [[]|e3].
  2:{ simpl.
      rewrite !omap_app, !omap_in_evaluate, !Henter, !app_nil_r by done. simpl.
      split; [done|]. split; [done|].
      rewrite not_elem_of_cons, !not_elem_of_app. done. }
  simpl.
  assert (Hexit_steps : omap step_of (if torch_profiler
                                      then [ProfilerExit (DataLoader := DataLoader)]
                                      else []) = []).
  { by destruct torch_profiler. }
  assert (Hexit_ckpt : omap checkpoint_of (if torch_profiler
                                           then [ProfilerExit (DataLoader := DataLoader)]
                                           else []) = []).
  { by destruct torch_profiler. }
  rewrite !omap_app, !omap_in_evaluate, !Henter, Hexit_steps, Hexit_ckpt, !app_nil_r
    by done. simpl.
  split; [by rewrite Hsteps|]. split; [done|].
  split; [done|]. split; [done|]. split; [done|].
  intros ->. rewrite app_comm_cons, !app_assoc. apply last_snoc.
Qed.

(** X18.  The steps [train] runs are an initial segment of
    [starting_iteration + 1, ..., num_training_steps], in order, and all of
    them when it returns. *)
Theorem train_runs_every_step
    {DataLoader : Type} (args : TrainArgs) (torch_profiler : bool)
    (pg_val pg_test : ProcessGroup)
    (val_dataloaders test_dataloaders : option (list DataLoader))
    (dp_world_size : Z) (group_names : list (option string)) (starting_iteration : Z) :
  let run := train args torch_profiler pg_val pg_test val_dataloaders test_dataloaders
               dp_world_size group_names starting_iteration in
  let steps := seqZ (starting_iteration + 1)
                 (num_training_steps args - starting_iteration) in
  omap step_of run.1 `prefix_of` steps /\
  (Py.is_ok run.2 = true -> omap step_of run.1 = steps).
Proof.
  cbv zeta.
  destruct (train_trace args torch_profiler pg_val pg_test val_dataloaders test_dataloaders
              dp_world_size group_names starting_iteration) as (Hprefix & _ & Hrun).
  split; [done|]. destruct (train _ _ _ _ _ _ _ _ _).2; [|done]. intros _. by destruct Hrun.
Qed.

(** X19.  When [train] returns, the checkpoints saved are those of the
    steps that are multiples of [save_interval] and of the last step, in
    order, each with [consumed_samples = global_step * micro_batch_size *
    gradient_accumulation_steps * dp_world_size]; if at least one step ran
    the last checkpoint is that of [num_training_steps]. *)
Theorem train_checkpoints
    {DataLoader : Type} (args : TrainArgs) (torch_profiler : bool)
    (pg_val pg_test : ProcessGroup)
    (val_dataloaders test_dataloaders : option (list DataLoader))
    (dp_world_size : Z) (group_names : list (option string)) (starting_iteration : Z) :
  let run := train args torch_profiler pg_val pg_test val_dataloaders test_dataloaders
               dp_world_size group_names starting_iteration in
  Py.is_ok run.2 = true ->
  omap checkpoint_of run.1
  = map (fun global_step =>
           (global_step,
            {[ "consumed_samples" :=
                 global_step * micro_batch_size args
                 * gradient_accumulation_steps args * dp_world_size ]}))
      (filter (fun g => g `mod` save_interval args = 0 \/ g = num_training_steps args)
         (seqZ (starting_iteration + 1)
            (num_training_steps args - starting_iteration))) /\
  (starting_iteration < num_training_steps args ->
   last (omap checkpoint_of run.1)
   = Some (num_training_steps args,
           {[ "consumed_samples" :=
                num_training_steps args * micro_batch_size args
                * gradient_accumulation_steps args * dp_world_size ]})).
Proof.
  cbv zeta.
  destruct (train_trace args torch_profiler pg_val pg_test val_dataloaders test_dataloaders
              dp_world_size group_names starting_iteration) as (_ & _ & Hrun).
  destruct (train _ _ _ _ _ _ _ _ _).2; [|done]. intros _.
  destruct Hrun as (_ & Hckpt & _). split; [done|]. intros Hlt. rewrite Hckpt.
  set (n := num_training_steps args) in *.
  replace (seqZ (starting_iteration + 1) (n - starting_iteration))
    with (seqZ (starting_iteration + 1) (n - starting_iteration - 1) ++ [n]).
  2:{ replace (n - starting_iteration) with ((n - starting_iteration - 1) + 1) at 2 by lia.
      rewrite seqZ_app by lia. f_equal.
      replace (starting_iteration + 1 + (n - starting_iteration - 1)) with n by lia.
      rewrite seqZ_cons by lia. by rewrite seqZ_nil by lia. }
  rewrite filter_app, filter_cons_True by auto. rewrite filter_nil, fmap_app.
  apply last_snoc.
Qed.


(** X20.  Round trip with [main]: the step and metadata of any checkpoint
    saved by [train], loaded back by the resume prologue, give that step as
    starting iteration and, to the dataloader factory, the saved
    [consumed_samples] when [load_dataloader_state] is set and 0
    otherwise. *)
Theorem train_checkpoint_resumes
    {DataLoader ExperimentsTrackerState : Type} (args : TrainArgs) (torch_profiler : bool)
    (pg_val pg_test : ProcessGroup)
    (val_dataloaders test_dataloaders : option (list DataLoader))
    (dp_world_size : Z) (group_names : list (option string)) (starting_iteration : Z)
    (global_step : Z) (saved : gmap string Z)
    (load_args : LoadArgs) (state : option ExperimentsTrackerState) :
  SaveCheckpoint global_step saved
  ∈ (train args torch_profiler pg_val pg_test val_dataloaders test_dataloaders
       dp_world_size group_names starting_iteration).1 ->
  main_resume (Some load_args) (global_step, Some saved, state)
  = Py.Ok {| Pretrain.starting_iteration := global_step;
             metadata := Some (if load_dataloader_state load_args
                               then saved else <["consumed_samples" := 0]> saved);
             experiments_tracker_state_dict := state;
             consumed_samples :=
               if load_dataloader_state load_args
               then global_step * micro_batch_size args
                    * gradient_accumulation_steps args * dp_world_size
               else 0 |}.
Proof.
  intros Hin.
  destruct (train_trace args torch_profiler pg_val pg_test val_dataloaders test_dataloaders
              dp_world_size group_names starting_iteration) as (_ & Hall & _).
  rewrite Forall_forall in Hall.
  specialize (Hall (global_step, saved)). simpl in Hall.
  assert (Hsaved : (global_step, saved)
                   = (global_step,
                      ({[ "consumed_samples" :=
                            global_step * micro_batch_size args
                            * gradient_accumulation_steps args * dp_world_size ]}
                       : gmap string Z))).
  { apply Hall. apply list_elem_of_omap. by exists (SaveCheckpoint global_step saved). }
  injection Hsaved as ->.
  unfold main_resume, getitem. destruct (load_dataloader_state load_args); simpl.
  - by rewrite lookup_singleton_eq.
  - by rewrite lookup_insert_eq.
Qed.

(** X21.  A run of at least one step returns only if [log_interval] and
    [save_interval] are not 0 and, with evaluation during training,
    [eval_interval] is not 0. *)
Theorem train_needs_intervals
    {DataLoader : Type} (args : TrainArgs) (torch_profiler : bool)
    (pg_val pg_test : ProcessGroup)
    (val_dataloaders test_dataloaders : option (list DataLoader))
    (dp_world_size : Z) (group_names : list (option string)) (starting_iteration : Z) :
  starting_iteration < num_training_steps args ->
  Py.is_ok (train args torch_profiler pg_val pg_test val_dataloaders test_dataloaders
              dp_world_size group_names starting_iteration).2 = true ->
  log_interval args ≠ 0 /\ save_interval args ≠ 0 /\
  (eval_during_training args = true -> eval_interval args ≠ 0).
Proof.
  intros Hlt.
  destruct (train_trace args torch_profiler pg_val pg_test val_dataloaders test_dataloaders
              dp_world_size group_names starting_iteration) as (_ & _ & Hrun).
  destruct (train _ _ _ _ _ _ _ _ _).2; [|done]. intros _.
  destruct Hrun as (_ & _ & Hintervals & _). apply Hintervals.
  rewrite seqZ_cons by lia. done.
Qed.

(** X22.  The profiler is released only on normal return: a run that
    raises never reaches [__exit__], and a run with a profiler that returns
    ends with it. *)
Theorem train_profiler_exit
    {DataLoader : Type} (args : TrainArgs) (torch_profiler : bool)
    (pg_val pg_test : ProcessGroup)
    (val_dataloaders test_dataloaders : option (list DataLoader))
    (dp_world_size : Z) (group_names : list (option string)) (starting_iteration : Z) :
  let run := train args torch_profiler pg_val pg_test val_dataloaders test_dataloaders
               dp_world_size group_names starting_iteration in
  (Py.is_ok run.2 = false -> ProfilerExit ∉ run.1) /\
  (Py.is_ok run.2 = true -> torch_profiler = true -> last run.1 = Some ProfilerExit).
Proof.
  cbv zeta.
  destruct (train_trace args torch_profiler pg_val pg_test val_dataloaders test_dataloaders
              dp_world_size group_names starting_iteration) as (_ & _ & Hrun).
  destruct (train _ _ _ _ _ _ _ _ _).2; simpl; split; try done.
  intros _. by destruct Hrun as (_ & _ & _ & Hlast).
Qed.

Lemma call_evaluate_no_data {DataLoader : Type} (pg : ProcessGroup)
    (dataloaders : option (list DataLoader)) (global_step eval_steps : Z)
    (group_names : list (option string)) :
  tensor_parallel_world_size pg <= 1 ->
  none_or_empty dataloaders = true ->
  call_evaluate pg dataloaders global_step eval_steps group_names = ([], Py.Ok tt).
Proof.
  intros Htp Hnone. unfold call_evaluate, evaluate.
  destruct (Z.ltb_spec 1 (tensor_parallel_world_size pg)); [lia|].
  by rewrite Hnone.
Qed.

Lemma traced_bind_ext {DataLoader A B : Type}
    (m : traced (DataLoader := DataLoader) A) (k k' : A -> traced B) :
  (forall a, k a = k' a) -> traced_bind m k = traced_bind m k'.
Proof. intros Hk. destruct m as [events [a|e]]; simpl; [by rewrite Hk|done]. Qed.

Lemma train_loop_ext {DataLoader : Type}
    (f f' : Z -> traced (DataLoader := DataLoader) unit) (global_step : Z) (steps : list Z) :
  (forall g, f g = f' g) -> train_loop f global_step steps = train_loop f' global_step steps.
Proof.
  intros Hf. revert global_step. induction steps as [|step steps IH]; intros g; simpl; [done|].
  rewrite Hf. apply traced_bind_ext. intros _. apply IH.
Qed.

(** X23.  Without tensor parallelism and with neither validation nor test
    data, training with evaluation enabled does exactly what training with
    evaluation disabled does, provided [eval_interval] is not 0. *)
Theorem train_without_validation_data
    {DataLoader : Type}
    (num_training_steps gradient_accumulation_steps micro_batch_size : Z)
    (eval_interval save_interval log_interval eval_steps : Z)
    (torch_profiler : bool) (pg_val pg_test : ProcessGroup)
    (val_dataloaders test_dataloaders : option (list DataLoader))
    (dp_world_size : Z) (group_names : list (option string)) (starting_iteration : Z) :
  let args := fun eval_during_training =>
    {| Pretrain.num_training_steps := num_training_steps;
       Pretrain.gradient_accumulation_steps := gradient_accumulation_steps;
       Pretrain.micro_batch_size := micro_batch_size;
       Pretrain.eval_during_training := eval_during_training;
       Pretrain.eval_interval := eval_interval;
       Pretrain.save_interval := save_interval;
       Pretrain.log_interval := log_interval;
       Pretrain.eval_steps := eval_steps |} in
  eval_interval ≠ 0 ->
  tensor_parallel_world_size pg_val <= 1 -> tensor_parallel_world_size pg_test <= 1 ->
  none_or_empty val_dataloaders = true -> none_or_empty test_dataloaders = true ->
  train (args true) torch_profiler pg_val pg_test val_dataloaders test_dataloaders
    dp_world_size group_names starting_iteration
  = train (args false) torch_profiler pg_val pg_test val_dataloaders test_dataloaders
      dp_world_size group_names starting_iteration.
Proof.
  intros args Heval Hval Htest Hnoval Hnotest.
  assert (Hiter : forall g,
             train_iteration (args true) torch_profiler pg_val val_dataloaders
               dp_world_size group_names g
             = train_iteration (args false) torch_profiler pg_val val_dataloaders
                 dp_world_size group_names g).
  { intros g. rewrite !train_iteration_unfold. simpl.
    destruct (Z.eqb_spec eval_interval 0); [done|].
    rewrite call_evaluate_no_data by done. by destruct (_ || _). }
  rewrite !train_unfold. cbv zeta. simpl.
  rewrite (train_loop_ext _ _ _ _ Hiter).
  rewrite call_evaluate_no_data by done. simpl.
  destruct (train_loop _ _ _) as [events [global_step|e]]; simpl; [|done].
  by rewrite call_evaluate_no_data.
Qed.


(** * Instances of the further properties *)

Lemma pad_shapes_witness :
  exists max_length id_rows mask_rows,
    Py.max (map Py.len [[1; 2]; [3]]) = Py.Ok max_length /\
    VTensor [[1; 2]; [3; 0]] = VTensor id_rows /\
    VTensor [[1; 1]; [1; 0]] = VTensor mask_rows /\
    Forall (fun row => Py.len row = max_length) id_rows /\
    Forall (fun row => Py.len row = max_length) mask_rows.
Proof.
  destruct (pad_shapes [[1; 2]; [3]] None 0 PaddingSide.right false (NotLossMask "None")
              (-100) (VTensor [[1; 2]; [3; 0]]) (VTensor [[1; 1]; [1; 0]]) VNone eq_refl)
    as (m & ids & mask & Hm & Hids & Hmask & _ & _ & Hrows & Hmrows & _).
  exists m, ids, mask. done.
Defined.

Lemma pad_mask_selects_inputs_witness :
  (filter (fun p : Z * Z => p.2 = 1) (base.zip [0; 3] [0; 1])).*1 = [3].
Proof.
  exact (pad_mask_selects_inputs [[1; 2]; [3]] None 0 PaddingSide.left true
           (NotLossMask "None") (-100) [[1; 2]; [0; 3]] [[1; 1]; [0; 1]] VNone eq_refl
           1%nat [3] [0; 3] [0; 1] eq_refl eq_refl eq_refl).
Defined.

Lemma pad_uniform_batch_unchanged_witness :
  _pad [[1; 2]; [3; 4]] None 0 PaddingSide.left false (NotLossMask "None") false (-100)
  = Py.Ok (VTensor [[1; 2]; [3; 4]], VTensor [[1; 1]; [1; 1]], VNone).
Proof.
  apply (pad_uniform_batch_unchanged [[1; 2]; [3; 4]] 2 0 PaddingSide.left false
           (NotLossMask "None") (-100)); [done| |int64_solve]. by repeat constructor.
Defined.

Lemma pad_masked_positions_hold_pad_witness :
  (0 = 0 \/ 0 = 1) /\ (0 = 0 -> [9; 3] !! 0%nat = Some 9).
Proof.
  exact (pad_masked_positions_hold_pad [[1; 2]; [3]] None 9 PaddingSide.left false
           (NotLossMask "None") (-100) [[1; 2]; [9; 3]] [[1; 1]; [0; 1]] VNone eq_refl
           1%nat 0%nat [9; 3] [0; 1] 0 eq_refl eq_refl eq_refl).
Defined.

Lemma pad_output_only_labels_aligned_witness :
  exists id_rows mask_rows label_rows,
    _pad [[1; 2; 3]; [4; 5]] (Some [[2; 3]; [5]]) 0 PaddingSide.left false
      (IsLossMask LossMask.output_only) false (-100)
    = Py.Ok (VTensor id_rows, VTensor mask_rows, VTensor label_rows) /\
    length label_rows = 2%nat.
Proof.
  destruct (pad_output_only_labels_aligned [[1; 2; 3]; [4; 5]] [[2; 3]; [5]] 0
              PaddingSide.left (-100)) as (ids & mask & lbls & Hpad & Hlen & _).
  - done.
  - repeat constructor; [by exists [1]|by exists [4]].
  - int64_solve.
  - int64_solve.
  - int64_solve.
  - by exists ids, mask, lbls.
Defined.

Lemma pad_without_outputs_ignores_loss_mask_witness :
  _pad [[1; 2]; [3]] None 0 PaddingSide.right true (IsLossMask LossMask.no_mask) false (-100)
  = _pad [[1; 2]; [3]] None 0 PaddingSide.right true (NotLossMask "None") false 7 /\
  VNone = VNone.
Proof.
  destruct (pad_without_outputs_ignores_loss_mask [[1; 2]; [3]] 0 PaddingSide.right true
              (IsLossMask LossMask.no_mask) (NotLossMask "None") (-100) 7) as [Heq Hnone].
  split; [exact Heq|].
  exact (Hnone (VTensor [[1; 2]; [3; 0]]) (VTensor [[1; 1]; [1; 0]]) VNone eq_refl).
Defined.

Lemma pad_decoder_unknown_loss_mask_witness :
  _pad [[1; 2]] (Some [[2]]) 0 PaddingSide.left false (NotLossMask "None") false (-100)
  = Py.Raise (Py.Exn Py.ValueError (Some "unexpected loss_mask (None)")).
Proof.
  apply (pad_decoder_unknown_loss_mask [[1; 2]] [[2]] 0 PaddingSide.left "None" (-100)).
  done.
Defined.

Lemma prepare_batch_keys_witness :
  let self := {| mode := Mode.inference;
                 config := {| n_embd := 768; n_inner := 3072; n_head := 12;
                              num_key_value_heads := 12; n_layer := 12;
                              vocab_size := 50257; activation_function := "gelu" |};
                 gradient_checkpointing_method := None;
                 gradient_checkpointing_args := ∅;
                 use_padding_free_transformer := false;
                 is_encoder_decoder := false;
                 padding_side := PaddingSide.left;
                 loss_mask := NotLossMask "None";
                 eos_token_id := 2;
                 training := false |} in
  let batch : gmap string value :=
    <["attention_mask" := VTensor [[1; 1]; [0; 1]]]>
      (<["input_ids" := VTensor [[1; 2]; [2; 3]]]> ∅) in
  prepare_batch self [[1; 2]; [3]] None = Py.Ok batch /\
  dom batch = ({["input_ids"; "attention_mask"]} : gset string).
Proof.
  intros self batch.
  assert (Hbatch : prepare_batch self [[1; 2]; [3]] None = Py.Ok batch) by reflexivity.
  split; [exact Hbatch|].
  exact (proj2 (prepare_batch_keys self [[1; 2]; [3]] None batch Hbatch)).
Defined.

Lemma prepare_batch_outputs_witness :
  let self := {| mode := Mode.training;
                 config := {| n_embd := 768; n_inner := 3072; n_head := 12;
                              num_key_value_heads := 12; n_layer := 12;
                              vocab_size := 50257; activation_function := "gelu" |};
                 gradient_checkpointing_method := None;
                 gradient_checkpointing_args := ∅;
                 use_padding_free_transformer := false;
                 is_encoder_decoder := false;
                 padding_side := PaddingSide.left;
                 loss_mask := IsLossMask LossMask.output_only;
                 eos_token_id := 2;
                 training := true |} in
  prepare_batch self [[1; 2]; [3]] None
  = Py.Raise (Py.Exn Py.AssertionError (Some "outputs can't be None during training")).
Proof.
  intros self. exact (proj1 (prepare_batch_outputs self [[1; 2]; [3]] None) eq_refl).
Defined.

Lemma num_generated_tokens_eos_terminated_witness :
  num_generated_tokens 2 [[5; 7; 2; 2]; [9]] = [3; 2].
Proof.
  apply (num_generated_tokens_eos_terminated 2 [([5; 7], 2%nat); ([9], 0%nat)]).
  repeat constructor; simpl; rewrite ?not_elem_of_cons; repeat split; try done;
    apply not_elem_of_nil.
Defined.

Lemma generate_strips_echoed_inputs_witness :
  let self := {| mode := Mode.inference;
                 config := {| n_embd := 768; n_inner := 3072; n_head := 12;
                              num_key_value_heads := 12; n_layer := 12;
                              vocab_size := 50257; activation_function := "gelu" |};
                 gradient_checkpointing_method := None;
                 gradient_checkpointing_args := ∅;
                 use_padding_free_transformer := false;
                 is_encoder_decoder := false;
                 padding_side := PaddingSide.left;
                 loss_mask := NotLossMask "None";
                 eos_token_id := 2;
                 training := false |} in
  let continuations := [[5; 7; 2]; [6; 2; 2]] in
  let model_generate := fun (batch : gmap string value) (_ : unit) (_ : Z) =>
    match batch !! "input_ids" with
    | Some (VTensor id_rows) => zip_with app id_rows continuations
    | _ => []
    end in
  let batch_decode := fun rows : list (list Z) => map (fun _ => "text") rows in
  generate model_generate batch_decode self [[1; 1]; [3]] None tt
  = Py.Ok (["text"; "text"], [3; 2]).
Proof.
  intros self continuations model_generate batch_decode.
  apply (generate_strips_echoed_inputs model_generate batch_decode self [[1; 1]; [3]]
           None tt continuations); [done|done|done|done|int64_solve|int64_solve|done|].
  intros batch id_rows _ Hids. unfold model_generate. by rewrite Hids.
Defined.

Lemma get_model_tflops_returns_witness :
  let wrapper := fun heads method (args : gmap string Z) =>
    {| mode := Mode.training;
       config := {| n_embd := 768; n_inner := 3072; n_head := heads;
                    num_key_value_heads := 4; n_layer := 12;
                    vocab_size := 50257; activation_function := "gelu" |};
       gradient_checkpointing_method := method;
       gradient_checkpointing_args := args;
       use_padding_free_transformer := false;
       is_encoder_decoder := false;
       padding_side := PaddingSide.right;
       loss_mask := IsLossMask LossMask.no_mask;
       eos_token_id := 0;
       training := true |} in
  Py.is_ok (get_model_tflops (fun _ => false)
              (wrapper 12 (Some GradientCheckpointingMethod.block) ∅) 2 128) = true /\
  get_model_tflops (fun _ => false)
    (wrapper 0 (Some GradientCheckpointingMethod.block) ∅) 2 128
  = Py.Raise (Py.Exn Py.ZeroDivisionError None).
Proof.
  intros wrapper.
  destruct (get_model_tflops_returns (fun _ => false)
              (wrapper 12 (Some GradientCheckpointingMethod.block) ∅) 2 128)
    as (_ & _ & Hreturns).
  destruct (get_model_tflops_returns (fun _ => false)
              (wrapper 0 (Some GradientCheckpointingMethod.block) ∅) 2 128)
    as (Hzero & _ & _).
  split; [|exact (Hzero eq_refl)].
  apply Hreturns.
  - repeat constructor.
  - intros every Hevery. subst wrapper. simpl in Hevery.
    by rewrite lookup_empty in Hevery.
  - split; [done|]. intros _ every Hevery. subst wrapper. simpl in Hevery.
    by rewrite lookup_empty in Hevery.
Defined.

Lemma track_val_metrics_group_keys_witness :
  (track_val_metrics 5 ({[ "loss" := 3 ]} : gmap string Z) (Some "c4")).1.1 !! "c4-loss"
  = Some 3.
Proof.
  pose proof (track_val_metrics_group_keys 5 ({[ "loss" := 3 ]} : gmap string Z) "c4") as H.
  destruct (track_val_metrics _ _ _) as [[message step] context].
  destruct H as (_ & _ & Hkey & _). simpl.
  exact (eq_trans (Hkey "loss") (lookup_singleton_eq _ _)).
Defined.


Lemma evaluate_runs_every_group_witness :
  let pg := {| tensor_parallel_world_size := 1; tensor_parallel_rank := 0;
               first_rank_object := None |} in
  let trace := (evaluate pg (Some [7%nat; 8%nat]) 100 2 [Some "a"; Some "b"]).1 in
  length (List.filter (fun e => match e with ModelForward _ => true | _ => false end) trace)
  = 4%nat /\
  last trace = Some ModelTrain.
Proof.
  intros pg trace.
  destruct (evaluate_runs_every_group pg (Some [7%nat; 8%nat]) 100 2 [Some "a"; Some "b"]
              trace (Some "b") eq_refl)
    as (dls & groups & Hdls & -> & _ & _ & Hforward & _ & _ & Hlast).
  injection Hdls as <-. split; [exact Hforward|exact Hlast].
Defined.

Lemma evaluate_tensor_parallel_group_agrees_witness :
  Forall (fun outcome : list (@event nat) * Py.result returned =>
            ModelEval ∈ outcome.1 <-> none_or_empty (Some [7%nat]) = false)
    (evaluate_tensor_parallel_group [Some [7%nat]; None; Some []] 100 2 [None]).
Proof.
  exact (evaluate_tensor_parallel_group_agrees (Some [7%nat]) [None; Some []] 100 2 [None]).
Defined.

Lemma train_runs_every_step_witness :
  let args := {| num_training_steps := 5; gradient_accumulation_steps := 2;
                 micro_batch_size := 4; eval_during_training := false;
                 eval_interval := 2; save_interval := 3; log_interval := 2;
                 eval_steps := 1 |} in
  let pg := {| tensor_parallel_world_size := 1; tensor_parallel_rank := 0;
               first_rank_object := None |} in
  omap (fun e : @train_event nat => match e with TrainStep g => Some g | _ => None end)
    (train args false pg pg None None 8 [None] 3).1
  = [4; 5].
Proof.
  intros args pg.
  exact (proj2 (train_runs_every_step (DataLoader := nat) args false pg pg None None 8
                  [None] 3) eq_refl).
Defined.

Lemma train_checkpoints_witness :
  let args := {| num_training_steps := 5; gradient_accumulation_steps := 2;
                 micro_batch_size := 4; eval_during_training := false;
                 eval_interval := 2; save_interval := 3; log_interval := 2;
                 eval_steps := 1 |} in
  let pg := {| tensor_parallel_world_size := 1; tensor_parallel_rank := 0;
               first_rank_object := None |} in
  last (omap (fun e : @train_event nat =>
                match e with SaveCheckpoint g md => Some (g, md) | _ => None end)
          (train args false pg pg None None 8 [None] 3).1)
  = Some (5, {[ "consumed_samples" := 320 ]}).
Proof.
  intros args pg.
  destruct (train_checkpoints (DataLoader := nat) args false pg pg None None 8 [None] 3
              eq_refl) as [_ Hlast].
  exact (Hlast eq_refl).
Defined.

Lemma train_checkpoint_resumes_witness :
  let args := {| num_training_steps := 5; gradient_accumulation_steps := 2;
                 micro_batch_size := 4; eval_during_training := false;
                 eval_interval := 2; save_interval := 3; log_interval := 2;
                 eval_steps := 1 |} in
  main_resume (ExperimentsTrackerState := unit)
    (Some {| load_dataloader_state := true |})
    (5, Some {[ "consumed_samples" := 320 ]}, None)
  = Py.Ok {| starting_iteration := 5;
             metadata := Some {[ "consumed_samples" := 320 ]};
             experiments_tracker_state_dict := None;
             consumed_samples := 320 |}.
Proof.
  intros args.
  apply (train_checkpoint_resumes (DataLoader := nat) args false
           {| tensor_parallel_world_size := 1; tensor_parallel_rank := 0;
              first_rank_object := None |}
           {| tensor_parallel_world_size := 1; tensor_parallel_rank := 0;
              first_rank_object := None |}
           None None 8 [None] 3 5 {[ "consumed_samples" := 320 ]}
           {| load_dataloader_state := true |} None).
  do 4 apply list_elem_of_further. apply list_elem_of_here.
Defined.

Lemma train_needs_intervals_witness :
  let args := {| num_training_steps := 5; gradient_accumulation_steps := 2;
                 micro_batch_size := 4; eval_during_training := false;
                 eval_interval := 0; save_interval := 3; log_interval := 2;
                 eval_steps := 1 |} in
  log_interval args ≠ 0 /\ save_interval args ≠ 0 /\
  (eval_during_training args = true -> eval_interval args ≠ 0).
Proof.
  intros args.
  apply (train_needs_intervals (DataLoader := nat) args false
           {| tensor_parallel_world_size := 1; tensor_parallel_rank := 0;
              first_rank_object := None |}
           {| tensor_parallel_world_size := 1; tensor_parallel_rank := 0;
              first_rank_object := None |}
           None None 8 [None] 3); done.
Defined.

Lemma train_profiler_exit_witness :
  let args := fun log_interval =>
    {| num_training_steps := 5; gradient_accumulation_steps := 2;
       micro_batch_size := 4; eval_during_training := false;
       eval_interval := 2; save_interval := 3; log_interval := log_interval;
       eval_steps := 1 |} in
  let pg := {| tensor_parallel_world_size := 1; tensor_parallel_rank := 0;
               first_rank_object := None |} in
  last (train (DataLoader := nat) (args 2) true pg pg None None 8 [None] 3).1
  = Some ProfilerExit /\
  ProfilerExit ∉ (train (DataLoader := nat) (args 0) true pg pg None None 8 [None] 3).1.
Proof.
  intros args pg. split.
  - exact (proj2 (train_profiler_exit (args 2) true pg pg None None 8 [None] 3)
             eq_refl eq_refl).
  - exact (proj1 (train_profiler_exit (args 0) true pg pg None None 8 [None] 3) eq_refl).
Defined.

Lemma train_without_validation_data_witness :
  let args := fun eval_during_training =>
    {| num_training_steps := 5; gradient_accumulation_steps := 2;
       micro_batch_size := 4; eval_during_training := eval_during_training;
       eval_interval := 2; save_interval := 3; log_interval := 2;
       eval_steps := 1 |} in
  let pg := {| tensor_parallel_world_size := 1; tensor_parallel_rank := 0;
               first_rank_object := None |} in
  train (DataLoader := nat) (args true) false pg pg (Some []) None 8 [None] 3
  = train (args false) false pg pg (Some []) None 8 [None] 3.
Proof.
  intros args pg.
  apply (train_without_validation_data (DataLoader := nat) 5 2 4 2 3 2 1 false pg pg
           (Some []) None 8 [None] 3); done.
Defined.
